(** * risk_lab: validation engine, artifact writer and run catalog

    A shallow embedding of [risk_lab/validation/checks.py] and
    [risk_lab/storage/parquet_store.py], with the fragment of pandas,
    numpy and the standard library these two modules call.

    Conventions of the embedding:
    - a Python exception is the [Raise] outcome of the [result] monad;
    - a calendar date is its day number, counted from 1970-01-01, and a
      timestamp its number of nanoseconds from that midnight; an index of
      dates carries its time zone, if it has one;
    - binary64 arithmetic is an interface ([Float]); the laws a proof needs
      are collected in [FloatLaws], and [QF] is an executable instance;
    - the text of an error or warning is a constructor of [Message]
      carrying the values interpolated in the source's f-string;
    - a Python [dict] is an association list in insertion order. *)

From Stdlib Require Import ZArith QArith String Ascii Permutation.
From stdpp Require Import base option list strings gmap sorting pretty.

#[local] Set Warnings "-register-all".
Local Open Scope string_scope.
Local Open Scope Z_scope.
Local Open Scope list_scope.

(** ** Exceptions *)

Inductive Exn :=
| ValueError (msg : string)
| AttributeError (msg : string)
| TypeError (msg : string)
| KeyError (key : string)
| AssertionError (msg : string).

Inductive result (A : Type) :=
| Ok (a : A)
| Raise (e : Exn).
Arguments Ok {A} a.
Arguments Raise {A} e.

#[global] Instance result_ret : MRet result := fun A a => Ok a.
#[global] Instance result_bind : MBind result := fun A B f m =>
  match m with
  | Ok a => f a
  | Raise e => Raise e
  end.

Definition returns {A} (m : result A) : bool :=
  match m with Ok _ => true | Raise _ => false end.

(** [for x in l: st = body(st, x)], where the body may raise. *)
Fixpoint for_each {S A} (body : S -> A -> result S) (l : list A) (st : S) : result S :=
  match l with
  | [] => Ok st
  | x :: l' => st' ← body st x; for_each body l' st'
  end.

(** ** Binary64 arithmetic as an interface *)

Class Float (F : Type) := {
  of_Z : Z -> F;
  nan : F;
  fadd : F -> F -> F;
  fsub : F -> F -> F;
  fmul : F -> F -> F;
  fdiv : F -> F -> F;
  fsqrt : F -> F;
  fabs : F -> F;
  fltb : F -> F -> bool;
  fleb : F -> F -> bool;
  isnan : F -> bool;
  (** [round(x, ndigits)] *)
  fround : Z -> F -> F;
  (** the number a string denotes for [pd.to_numeric], [nan] when none *)
  fparse : string -> F
}.

(** ** Python values and dictionaries *)

Definition dict (V : Type) := list (string * V).

Fixpoint dict_get {V} (d : dict V) (k : string) : option V :=
  match d with
  | [] => None
  | (k', v) :: d' => if decide (k' = k) then Some v else dict_get d' k
  end.

(** [d[k] = v]: an existing key keeps its position, a new key goes last. *)
Fixpoint dict_set {V} (d : dict V) (k : string) (v : V) : dict V :=
  match d with
  | [] => [(k, v)]
  | (k', v') :: d' =>
      if decide (k' = k) then (k', v) :: d' else (k', v') :: dict_set d' k v
  end.

Definition dict_keys {V} (d : dict V) : list string := d.*1.

Inductive PyVal (F : Type) :=
| PyNone
| PyInt (z : Z)
| PyFloat (x : F)
| PyStr (s : string)
| PyIsoDate (d : Z)      (* the str [date.isoformat()] of day [d] *)
| PyList (l : list (PyVal F))
| PyDict (d : list (string * PyVal F)).
Arguments PyNone {F}.
Arguments PyInt {F} z.
Arguments PyFloat {F} x.
Arguments PyStr {F} s.
Arguments PyIsoDate {F} d.
Arguments PyList {F} l.
Arguments PyDict {F} d.

(** ** The pandas fragment *)

Inductive Cell (F : Type) :=
| CNum (x : F)          (* a number; [nan] is the null of a numeric column *)
| CNone                 (* [None] in an object column *)
| CStr (s : string).    (* a [str] in an object column *)
Arguments CNum {F} x.
Arguments CNone {F}.
Arguments CStr {F} s.

Inductive Dtype := float64 | object_.

Record Series (F : Type) := mkSeries {
  dtype : Dtype;
  cells : list (Cell F)
}.
Arguments mkSeries {F} dtype cells.
Arguments dtype {F} s.
Arguments cells {F} s.

(** The time zone of a [pd.DatetimeIndex]: none, UTC, or another zone,
    given by its offset from UTC (in nanoseconds) at each instant. *)
Inductive Timezone :=
| tz_naive
| tz_utc
| tz_zone (utcoffset : Z -> Z).

(** The index of a table.
    - [DatetimeIndex dates]: a [pd.DatetimeIndex] in UTC whose labels are
      midnights, given by their day numbers; this is what
      [normalize_to_utc_date_index] returns and what the tests build.
    - [TimestampIndex tz stamps]: any other [pd.DatetimeIndex], in any
      zone or in none, with or without times of day; a label is its
      number of nanoseconds since the epoch (of wall-clock time when the
      index has no zone).
    - [RangeIndex n]: the default integer index [RangeIndex(0, n)] of a
      table built without dates. *)
Inductive Index :=
| DatetimeIndex (dates : list Z)
| RangeIndex (n : nat)
| TimestampIndex (tz : Timezone) (stamps : list Z).

(** A table: the name of its index, the index, and the columns in
    order, each under its label. A label stands for one column:
    [dict_get] reads the first column of a label, where pandas, on a table
    that repeats a label, gives the columns of that label as a table. *)
Record DataFrame (F : Type) := mkDataFrame {
  index_name : option string;
  index : Index;
  columns : list (string * Series F)
}.
Arguments mkDataFrame {F} index_name index columns.
Arguments index_name {F} d.
Arguments index {F} d.
Arguments columns {F} d.

Definition index_len (i : Index) : nat :=
  match i with
  | DatetimeIndex ds => length ds
  | RangeIndex n => n
  | TimestampIndex _ stamps => length stamps
  end.

(** *** Calendar *)

(** Monday is 0; day 0 (1970-01-01) is a Thursday. *)
Definition weekday (d : Z) : Z := (d + 3) mod 7.

Definition is_business_day (d : Z) : bool := weekday d <? 5.

(** [pd.date_range(lo, hi, freq="B")] on two midnights. *)
Definition bdate_range (lo hi : Z) : list Z :=
  filter (fun d => is_business_day d = true) (seqZ lo (hi - lo + 1)).

(** Year of a day number (proleptic Gregorian calendar). *)
Definition year_of_day (d : Z) : Z :=
  let z := d + 719468 in
  let era := z / 146097 in
  let doe := z - era * 146097 in
  let yoe := (doe - doe / 1460 + doe / 36524 - doe / 146096) / 365 in
  let doy := doe - (365 * yoe + yoe / 4 - yoe / 100) in
  let mp := (5 * doy + 2) / 153 in
  yoe + era * 400 + (if mp <? 10 then 0 else 1).

Definition list_min (l : list Z) : option Z :=
  match l with
  | [] => None
  | x :: l' => Some (foldr Z.min x l')
  end.

Definition list_max (l : list Z) : option Z :=
  match l with
  | [] => None
  | x :: l' => Some (foldr Z.max x l')
  end.

Definition has_duplicates (l : list Z) : bool := bool_decide (¬ NoDup l).

Fixpoint is_monotonic_increasing (l : list Z) : bool :=
  match l with
  | x :: ((y :: _) as l') => (x <=? y) && is_monotonic_increasing l'
  | _ => true
  end.

Definition ns_per_day : Z := 86400000000000.

(** The day a timestamp falls on, and the midnight of a day. *)
Definition day_of (stamp : Z) : Z := stamp / ns_per_day.

Definition midnight (d : Z) : Z := d * ns_per_day.

(** The wall-clock time of a label in the zone of its index, which is
    what [.date()] and [.year] read. *)
Definition local_stamp (tz : Timezone) (stamp : Z) : Z :=
  match tz with
  | tz_zone utcoffset => stamp + utcoffset stamp
  | _ => stamp
  end.

(** [BusinessDay.rollforward] and [BusinessDay.rollback]: a timestamp on
    a Saturday or Sunday moves to the next Monday, or to the Friday before,
    at the same time of day. *)
Definition roll_forward (stamp : Z) : Z :=
  let w := weekday (day_of stamp) in
  if w <? 5 then stamp else stamp + (7 - w) * ns_per_day.

Definition roll_back (stamp : Z) : Z :=
  let w := weekday (day_of stamp) in
  if w <? 5 then stamp else stamp - (w - 4) * ns_per_day.

(** [pd.date_range(lo, hi, freq="B")] on two timestamps: from [lo], rolled
    forward to a business day, one label per business day at the time of
    day of [lo], up to [hi]; [hi] is rolled back only when [lo] was on a
    business day. *)
Definition bstamp_range (lo hi : Z) : list Z :=
  let start := roll_forward lo in
  let stop := if is_business_day (day_of lo) then roll_back hi else hi in
  filter (fun s => s <= stop)
    (map (fun d => midnight d + lo mod ns_per_day)
       (bdate_range (day_of start) (day_of stop))).

(** [i] is an index of calendar dates in UTC, one label per date at
    midnight, as [normalize_to_utc_date_index] returns it; [ds] are its
    dates. Such an index is given by its days or by its timestamps. *)
Definition utc_dates (i : Index) (ds : list Z) : Prop :=
  i = DatetimeIndex ds \/ i = TimestampIndex tz_utc (map midnight ds).

(** The calendar dates of the labels of an index, each in the zone of the
    index; an integer label is read as nanoseconds since the epoch. *)
Definition index_dates (i : Index) : list Z :=
  match i with
  | DatetimeIndex ds => ds
  | RangeIndex n => map day_of (seqZ 0 (Z.of_nat n))
  | TimestampIndex tz stamps => map (fun s => day_of (local_stamp tz s)) stamps
  end.

(** utils/dates.py, [normalize_to_utc_date_index]: the labels are read
    as instants in UTC, a label without a zone as it stands, and cut to
    midnight. *)
Definition normalize_to_utc_date_index (i : Index) : Index :=
  match i with
  | DatetimeIndex ds => DatetimeIndex ds
  | RangeIndex n => DatetimeIndex (map day_of (seqZ 0 (Z.of_nat n)))
  | TimestampIndex _ stamps => DatetimeIndex (map day_of stamps)
  end.

(** [s.endswith(suffix)] *)
Definition endswith (s suffix : string) : bool :=
  let n := String.length s in
  let m := String.length suffix in
  (m <=? n)%nat && String.eqb (substring (n - m) m s) suffix.

(** [s.startswith(prefix)] *)
Definition startswith (s prefix : string) : bool := String.prefix prefix s.

(** The order of [sorted] on [str]. *)
Definition str_le (a b : string) : Prop := String.leb a b = true.

#[global] Instance str_le_dec a b : Decision (str_le a b).
Proof. unfold str_le. apply _. Defined.

Definition sorted (l : list string) : list string := merge_sort str_le l.

Definition count_true (l : list bool) : Z := Z.of_nat (length (filter (fun b => b = true) l)).

(** The body of the loop of [_largest_consecutive_missing_business_days],
    on the pair [(max_gap, current)]. *)
Definition gap_step (acc : Z * Z) (is_missing : bool) : Z * Z :=
  let '(max_gap, current) := acc in
  if is_missing then (Z.max max_gap (current + 1), current + 1) else (max_gap, 0).

(** [n] consecutive [true] of [bs], from position [i] on. *)
Definition true_run (bs : list bool) (i n : nat) : Prop :=
  forall j, (i <= j < i + n)%nat -> bs !! j = Some true.

(** After a prefix [p] of the loop, [current] is the length of the run
    that ends with [p] and [max_gap] the length of the longest run in [p]. *)
Definition gap_invariant (p : list bool) (acc : Z * Z) : Prop :=
  exists mn cn : nat,
    acc = (Z.of_nat mn, Z.of_nat cn) /\ (cn <= mn)%nat /\
    true_run p (length p - cn) cn /\ (cn <= length p)%nat /\
    (forall i k, true_run p i k -> (i + k = length p)%nat -> (k <= cn)%nat) /\
    (exists i, true_run p i mn) /\
    (forall i k, true_run p i k -> (k <= mn)%nat).

(** ** Messages of the report *)

Inductive Message :=
| IndexNameError
    (* "Schema error: index name must be 'date'." *)
| IndexTypeError
    (* "Schema error: index must be DatetimeIndex." *)
| DuplicateDates
    (* "Duplicate dates found in standardized dataset." *)
| NotMonotonic
    (* "Dates are not monotonic increasing." *)
| MissingColumns (missing_columns : list string)
    (* f"Schema error: missing expected columns: {missing_columns}" *)
| OptionalUnavailable (col : string)
    (* f"Optional column unavailable: {col}" *)
| EmptyData (col : string)
    (* f"Required series/ticker {col} has empty data." *)
| MixedNonNumeric (col : string)
    (* f"Mixed/non-numeric values found in column {col}." *)
| ObjectDtype (col : string)
    (* f"Column {col} has object dtype; expected numeric." *)
| ImpossibleValues (col : string) (invalid_count : Z)
    (* f"Impossible values detected in {col}: {invalid_count} rows." *)
| MarketOutlier (col : string) (count : Z)
    (* f"Outlier flag on market series {col}: {count} rows with |z| > 8." *)
| FredOutlier (col : string) (count : Z)
    (* f"Outlier flag on FRED series {col}: {count} rows with |z| > 8." *)
| StaleSeries (col : string) (latest : Z) (age : Z) (threshold : Z).
    (* f"Stale series {col}: latest {latest} ({age} days old, threshold {threshold})." *)

#[global] Instance Message_eq_dec : EqDecision Message.
Proof. solve_decision. Defined.

(** The part of [validate_dataset] a message comes from. *)
Inductive Origin :=
| FromIndex | FromRequiredPresence | FromOptionalPresence | FromRequiredColumn
| FromSignRule | FromMarketOutliers | FromFredOutliers | FromStaleness.

#[global] Instance Origin_eq_dec : EqDecision Origin.
Proof. solve_decision. Defined.

Definition origin (m : Message) : Origin :=
  match m with
  | IndexNameError | IndexTypeError | DuplicateDates | NotMonotonic => FromIndex
  | MissingColumns _ => FromRequiredPresence
  | OptionalUnavailable _ => FromOptionalPresence
  | EmptyData _ | MixedNonNumeric _ | ObjectDtype _ => FromRequiredColumn
  | ImpossibleValues _ _ => FromSignRule
  | MarketOutlier _ _ => FromMarketOutliers
  | FredOutlier _ _ => FromFredOutliers
  | StaleSeries _ _ _ _ => FromStaleness
  end.

(** The column a message is about, when it is about one. *)
Definition subject (m : Message) : option string :=
  match m with
  | OptionalUnavailable col | EmptyData col | MixedNonNumeric col | ObjectDtype col
  | ImpossibleValues col _ | MarketOutlier col _ | FredOutlier col _
  | StaleSeries col _ _ _ => Some col
  | _ => None
  end.

(** The messages of one origin, and those among them about one column. *)
Definition from (o : Origin) (l : list Message) : list Message :=
  filter (fun m => origin m = o) l.

Definition about (o : Origin) (col : string) (l : list Message) : list Message :=
  filter (fun m => origin m = o /\ subject m = Some col) l.

(** What the process reads from its surroundings: the UTC date of
    [datetime.now] and the order in which a [set] of strings is iterated,
    which depends on the hash seed of the interpreter. *)
Record Env := mkEnv {
  today : Z;
  set_iter : list string -> list string
}.

(** An iteration order lists each element of the set once. *)
Definition valid_set_iter (it : list string -> list string) : Prop :=
  forall l, NoDup (it l) /\ forall x, x ∈ it l <-> x ∈ l.

Section Engine.
Context {F : Type} `{Float F}.

(** *** Series operations *)

Definition cell_isna (c : Cell F) : bool :=
  match c with
  | CNum x => isnan x
  | CNone => true
  | CStr _ => false
  end.

(** [pd.to_numeric(series, errors="coerce")] *)
Definition to_numeric (s : Series F) : list F :=
  map (fun c => match c with
                | CNum x => x
                | CNone => nan
                | CStr t => fparse t
                end) (cells s).

Definition isna_sum (s : Series F) : Z := count_true (map cell_isna (cells s)).

Definition nan_count (l : list F) : Z := count_true (map isnan l).

(** [series.empty or series.dropna().empty] *)
Definition has_no_data (s : Series F) : bool := forallb cell_isna (cells s).

(** [float(series.isna().mean() * 100)] *)
Definition isna_mean_pct (s : Series F) : F :=
  match cells s with
  | [] => nan
  | _ => fmul (fdiv (of_Z (isna_sum s)) (of_Z (Z.of_nat (length (cells s))))) (of_Z 100)
  end.

(** [series.loc[d]] on a unique index, null for an absent label. *)
Fixpoint loc (ds : list Z) (cs : list (Cell F)) (d : Z) : Cell F :=
  match ds, cs with
  | x :: ds', c :: cs' => if decide (x = d) then c else loc ds' cs' d
  | _, _ => CNum nan
  end.

(** [series.dropna().index] *)
Fixpoint non_na_index (labels : list Z) (cs : list (Cell F)) : list Z :=
  match labels, cs with
  | x :: labels', c :: cs' =>
      if cell_isna c then non_na_index labels' cs' else x :: non_na_index labels' cs'
  | _, _ => []
  end.

Definition index_labels (i : Index) : list Z :=
  match i with
  | DatetimeIndex ds => ds
  | RangeIndex n => seqZ 0 (Z.of_nat n)
  | TimestampIndex _ stamps => stamps
  end.

(** [pd.date_range(index.min(), index.max(), freq="B", tz="UTC")]. The
    minimum of an empty index is NaT, which [date_range] refuses; the
    labels of a [RangeIndex] are read as nanoseconds since the epoch. The
    calendar of a [DatetimeIndex] is given by its days, that of a
    [TimestampIndex] by its timestamps: end points without a zone are
    taken as UTC, end points in another zone than UTC are refused. *)
Definition business_calendar (i : Index) : result (list Z) :=
  match i with
  | DatetimeIndex ds =>
      match list_min ds, list_max ds with
      | Some lo, Some hi => Ok (bdate_range lo hi)
      | _, _ => Raise (ValueError "Neither `start` nor `end` can be NaT")
      end
  | RangeIndex n =>
      match n with
      | O => Raise (ValueError "Neither `start` nor `end` can be NaT")
      | S m => Ok (bdate_range 0 (Z.of_nat m / ns_per_day))
      end
  | TimestampIndex tz stamps =>
      match list_min stamps, list_max stamps with
      | Some lo, Some hi =>
          match tz with
          | tz_zone _ =>
              Raise (AssertionError "Inferred time zone not equal to passed time zone")
          | _ => Ok (bstamp_range lo hi)
          end
      | _, _ => Raise (ValueError "Neither `start` nor `end` can be NaT")
      end
  end.

(** [series.reindex(b_idx)], where [b_idx] is in UTC. A date index with
    a repeated label cannot be reindexed; a label with a zone matches the
    calendar label of the same instant; no integer label and no label
    without a zone matches a timestamp in UTC. *)
Definition reindex (i : Index) (s : Series F) (b_idx : list Z) : result (list (Cell F)) :=
  match i with
  | DatetimeIndex ds =>
      if has_duplicates ds
      then Raise (ValueError "cannot reindex on an axis with duplicate labels")
      else Ok (map (loc ds (cells s)) b_idx)
  | RangeIndex _ => Ok (map (fun _ => CNum nan) b_idx)
  | TimestampIndex tz stamps =>
      if has_duplicates stamps
      then Raise (ValueError "cannot reindex on an axis with duplicate labels")
      else match tz with
           | tz_naive => Ok (map (fun _ => CNum nan) b_idx)
           | _ => Ok (map (loc stamps (cells s)) b_idx)
           end
  end.

(** [non_na_index.max().date().isoformat() if len(non_na_index) else None];
    the maximum of integer labels is an integer, which has no [date]. *)
Definition latest_observed (i : Index) (s : Series F) : result (PyVal F) :=
  match list_max (non_na_index (index_labels i) (cells s)) with
  | None => Ok PyNone
  | Some d =>
      match i with
      | DatetimeIndex _ => Ok (PyIsoDate d)
      | RangeIndex _ => Raise (AttributeError "'int' object has no attribute 'date'")
      | TimestampIndex tz _ => Ok (PyIsoDate (day_of (local_stamp tz d)))
      end
  end.

(** *** checks.py *)

Record ValidationReport := mkReport {
  errors : list Message;
  warnings : list Message;
  metrics : dict (PyVal F)
}.

Definition is_success (r : ValidationReport) : bool :=
  bool_decide (length (errors r) = 0%nat).

Definition _largest_consecutive_missing_business_days (series : list (Cell F)) : Z :=
  match series with
  | [] => 0
  | _ => fst (fold_left gap_step (map cell_isna series) (0, 0))
  end.

(** [values.shift(1)] *)
Definition shift (l : list F) : list F := take (length l) (nan :: l).

(** [values.ffill()] *)
Fixpoint ffill_from (last : F) (l : list F) : list F :=
  match l with
  | [] => []
  | x :: l' => if isnan x then last :: ffill_from last l' else x :: ffill_from x l'
  end.

Definition ffill (l : list F) : list F := ffill_from nan l.

(** [values.pct_change()]: nulls are padded forward, then
    [data / data.shift(1) - 1]. *)
Definition pct_change (values : list F) : list F :=
  let data := ffill values in
  zip_with (fun x prev => fsub (fdiv x prev) (of_Z 1)) data (shift data).

(** [values.diff()] *)
Definition diff (values : list F) : list F :=
  zip_with fsub values (shift values).

Definition dropna (l : list F) : list F := filter (fun x => isnan x = false) l.

Definition nansum (l : list F) : F := fold_left fadd (dropna l) (of_Z 0).

(** [changes.mean(skipna=True)] *)
Definition nanmean (l : list F) : F :=
  match dropna l with
  | [] => nan
  | _ => fdiv (nansum l) (of_Z (Z.of_nat (length (dropna l))))
  end.

(** [changes.std(skipna=True)], sample standard deviation (ddof = 1):
    undefined with fewer than two observations. *)
Definition nanstd (l : list F) : F :=
  let count := Z.of_nat (length (dropna l)) in
  if count <=? 1 then nan
  else
    let avg := nanmean l in
    let sqr := map (fun x => fmul (fsub avg x) (fsub avg x)) (dropna l) in
    fsqrt (fdiv (nansum sqr) (of_Z (count - 1))).

(** [np.isclose(a, 0, equal_nan=True)] with the defaults rtol = 1e-05 and
    atol = 1e-08: [|a - 0| <= atol + rtol * |0|]. The comparison is false
    for an infinite or NaN [a], as numpy's answer is. *)
Definition isclose0 (a : F) : bool :=
  let atol := fdiv (of_Z 1) (of_Z 100000000) in
  let rtol := fdiv (of_Z 1) (of_Z 100000) in
  fleb (fabs (fsub a (of_Z 0))) (fadd atol (fmul rtol (fabs (of_Z 0)))).

Definition _zscore_flags (values : list F) (kind : string) : list bool :=
  match values with
  | [] => []
  | _ =>
      let changes := if String.eqb kind "pct_change" then pct_change values
                     else diff values in
      let std := nanstd changes in
      (* [std is None] never holds for a float *)
      if isclose0 std then map (fun _ => false) values
      else
        let mean := nanmean changes in
        let z := map (fun c => fdiv (fsub c mean) std) changes in
        map (fun x => fltb (of_Z 8) (fabs x)) z
  end.

(** The report under construction and the local [metrics]. *)
Record State := mkState {
  st_errors : list Message;
  st_warnings : list Message;
  st_metrics : dict (PyVal F)
}.

Definition add_error (m : Message) (st : State) : State :=
  mkState (st_errors st ++ [m]) (st_warnings st) (st_metrics st).

Definition add_warning (m : Message) (st : State) : State :=
  mkState (st_errors st) (st_warnings st ++ [m]) (st_metrics st).

(** [metrics[key][col] = v] *)
Definition metrics_setitem (key col : string) (v : PyVal F) (st : State) : result State :=
  match dict_get (st_metrics st) key with
  | Some (PyDict d) =>
      Ok (mkState (st_errors st) (st_warnings st)
            (dict_set (st_metrics st) key (PyDict (dict_set d col v))))
  | Some _ => Raise (TypeError "object does not support item assignment")
  | None => Raise (KeyError key)
  end.

(** [metrics[key].append(col)] *)
Definition metrics_append (key col : string) (st : State) : result State :=
  match dict_get (st_metrics st) key with
  | Some (PyList l) =>
      Ok (mkState (st_errors st) (st_warnings st)
            (dict_set (st_metrics st) key (PyList (l ++ [PyStr col]))))
  | Some _ => Raise (AttributeError "object has no attribute 'append'")
  | None => Raise (KeyError key)
  end.

Definition column_names (data : DataFrame F) : list string := dict_keys (columns data).

(** [set(wanted) - set(data.columns.tolist())], sorted *)
Definition sorted_missing (env : Env) (wanted : list string) (data : DataFrame F) : list string :=
  sorted (set_iter env (filter (fun c => c ∉ column_names data) wanted)).

(** Lines 59-67: the initial metrics. *)
Definition initial_metrics (data : DataFrame F) : dict (PyVal F) :=
  [ ("row_count", PyInt (Z.of_nat (index_len (index data))));
    ("column_count", PyInt (Z.of_nat (length (columns data))));
    ("missing_pct", PyDict []);
    ("largest_missing_business_gap", PyDict []);
    ("latest_date", PyDict []);
    ("outlier_counts", PyDict []);
    ("stale_series", PyList []) ].

(** Lines 69-78: the schema checks on the index. *)
Definition check_index (data : DataFrame F) (st : State) : State :=
  let st := if decide (index_name data = Some "date") then st
            else add_error IndexNameError st in
  match index data with
  | DatetimeIndex ds | TimestampIndex _ ds =>
      let st := if has_duplicates ds then add_error DuplicateDates st else st in
      if is_monotonic_increasing ds then st else add_error NotMonotonic st
  | RangeIndex _ => add_error IndexTypeError st
  end.

(** Lines 80-86: presence of the required and of the optional columns. *)
Definition check_presence (env : Env) (data : DataFrame F)
    (required_columns optional_columns : list string) (st : State) : State :=
  let missing_columns := sorted_missing env required_columns data in
  let st := match missing_columns with
            | [] => st
            | _ => add_error (MissingColumns missing_columns) st
            end in
  let missing_optional := sorted_missing env optional_columns data in
  fold_left (fun st col => add_warning (OptionalUnavailable col) st) missing_optional st.

(** Lines 88-110: the body of the loop over the required columns. *)
Definition check_required_column (data : DataFrame F) (st : State) (col : string) : result State :=
  match dict_get (columns data) col with
  | None => Ok st
  | Some series =>
      let st := if has_no_data series then add_error (EmptyData col) st else st in
      let st := if decide (nan_count (to_numeric series) = isna_sum series) then st
                else add_error (MixedNonNumeric col) st in
      let st := match dtype series with
                | object_ => add_warning (ObjectDtype col) st
                | float64 => st
                end in
      let missing_pct := isna_mean_pct series in
      st ← metrics_setitem "missing_pct" col (PyFloat (fround 4 missing_pct)) st;
      b_idx ← business_calendar (index data);
      reindexed ← reindex (index data) series b_idx;
      st ← metrics_setitem "largest_missing_business_gap" col
             (PyInt (_largest_consecutive_missing_business_days reindexed)) st;
      latest ← latest_observed (index data) series;
      metrics_setitem "latest_date" col latest st
  end.

(** Lines 112-123: the columns under a sign rule, each with its rule. *)
Definition impossible_rules (data : DataFrame F) : list (string * (list F -> list bool)) :=
  let negative := fun s : list F => map (fun x => fltb x (of_Z 0)) s in
  [ ("fred_DGS10", negative); ("fred_DGS2", negative); ("fred_CPIAUCSL", negative);
    ("fred_UNRATE", negative); ("fred_BAA10YM", negative) ]
  ++ map (fun col => (col, negative))
       (filter (fun c => endswith c "__adj_close" = true) (column_names data))
  ++ map (fun col => (col, negative))
       (filter (fun c => endswith c "__volume" = true) (column_names data)).

(** Lines 125-129. *)
Definition check_impossible (data : DataFrame F) (st : State)
    (entry : string * (list F -> list bool)) : State :=
  let '(col, rule) := entry in
  match dict_get (columns data) col with
  | None => st
  | Some series =>
      let invalid_count := count_true (rule (to_numeric series)) in
      if 0 <? invalid_count then add_warning (ImpossibleValues col invalid_count) st
      else st
  end.

(** Lines 131-147: the body of the two outlier loops. *)
Definition check_outliers (kind : string) (warn : string -> Z -> Message)
    (data : DataFrame F) (st : State) (col : string) : result State :=
  match dict_get (columns data) col with
  | None => Ok st
  | Some series =>
      let flags := _zscore_flags (to_numeric series) kind in
      let count := count_true flags in
      st ← metrics_setitem "outlier_counts" col (PyInt count) st;
      Ok (if 0 <? count then add_warning (warn col count) st else st)
  end.

(** Lines 150-160: the body of the staleness loop. *)
Definition check_stale (now_date : Z) (st : State) (item : string * PyVal F) : result State :=
  let '(col, latest) := item in
  match latest with
  | PyNone => Ok st
  | PyIsoDate latest_date =>
      let age := now_date - latest_date in
      let is_macro := startswith col "fred_" in
      let threshold := if is_macro then 45 else 7 in
      if threshold <? age
      then metrics_append "stale_series" col
             (add_warning (StaleSeries col latest_date age threshold) st)
      else Ok st
  | PyStr _ => Raise (ValueError "time data does not match format '%Y-%m-%d'")
  | _ => Raise (TypeError "strptime() argument 1 must be str")
  end.

(** [metrics["latest_date"].items()] *)
Definition latest_date_items (st : State) : result (list (string * PyVal F)) :=
  match dict_get (st_metrics st) "latest_date" with
  | Some (PyDict d) => Ok d
  | Some _ => Raise (AttributeError "object has no attribute 'items'")
  | None => Raise (KeyError "latest_date")
  end.

(** Lines 58-110: the structural part, whose findings are errors. *)
Definition structural_checks (env : Env) (data : DataFrame F)
    (required_columns optional_columns : list string) : result State :=
  let st := mkState [] [] (initial_metrics data) in
  let st := check_index data st in
  let st := check_presence env data required_columns optional_columns st in
  for_each (check_required_column data) required_columns st.

(** Lines 162-165. *)
Definition finish (st : State) : ValidationReport :=
  let metrics := dict_set (st_metrics st) "warnings_count"
                   (PyInt (Z.of_nat (length (st_warnings st)))) in
  let metrics := dict_set metrics "errors_count"
                   (PyInt (Z.of_nat (length (st_errors st)))) in
  mkReport (st_errors st) (st_warnings st) metrics.

Definition validate_dataset (env : Env) (data : DataFrame F)
    (required_columns optional_columns market_columns fred_columns : list string)
    : result ValidationReport :=
  st ← structural_checks env data required_columns optional_columns;
  let st := fold_left (check_impossible data) (impossible_rules data) st in
  st ← for_each (check_outliers "pct_change" MarketOutlier data) market_columns st;
  st ← for_each (check_outliers "abs_change" FredOutlier data) fred_columns st;
  let now_date := today env in
  items ← latest_date_items st;
  st ← for_each (check_stale now_date) items st;
  Ok (finish st).

End Engine.

(** ** Summaries of the stages of [validate_dataset]

    The local [metrics] keeps its seven entries in place from the first
    line to the last; [View] names them. The functions below give, for
    each loop of [validate_dataset], the messages its body contributes and
    the change it makes to the metrics. *)

Section Summaries.
Context {F : Type} `{Float F}.

Record View := mkView {
  v_rows : PyVal F;
  v_cols : PyVal F;
  v_missing_pct : dict (PyVal F);
  v_gap : dict (PyVal F);
  v_latest : dict (PyVal F);
  v_outliers : dict (PyVal F);
  v_stale : list (PyVal F)
}.

Definition view_metrics (v : View) : dict (PyVal F) :=
  [ ("row_count", v_rows v);
    ("column_count", v_cols v);
    ("missing_pct", PyDict (v_missing_pct v));
    ("largest_missing_business_gap", PyDict (v_gap v));
    ("latest_date", PyDict (v_latest v));
    ("outlier_counts", PyDict (v_outliers v));
    ("stale_series", PyList (v_stale v)) ].

Definition initial_view (data : DataFrame F) : View :=
  mkView (PyInt (Z.of_nat (index_len (index data))))
    (PyInt (Z.of_nat (length (columns data)))) [] [] [] [] [].

Definition index_errors (data : DataFrame F) : list Message :=
  (if decide (index_name data = Some "date") then [] else [IndexNameError])
  ++ match index data with
     | DatetimeIndex ds | TimestampIndex _ ds =>
         (if has_duplicates ds then [DuplicateDates] else [])
         ++ (if is_monotonic_increasing ds then [] else [NotMonotonic])
     | RangeIndex _ => [IndexTypeError]
     end.

Definition presence_errors (env : Env) (data : DataFrame F)
    (required_columns : list string) : list Message :=
  match sorted_missing env required_columns data with
  | [] => []
  | missing_columns => [MissingColumns missing_columns]
  end.

Definition presence_warnings (env : Env) (data : DataFrame F)
    (optional_columns : list string) : list Message :=
  map OptionalUnavailable (sorted_missing env optional_columns data).

Definition required_errors (data : DataFrame F) (col : string) : list Message :=
  match dict_get (columns data) col with
  | None => []
  | Some series =>
      (if has_no_data series then [EmptyData col] else [])
      ++ (if decide (nan_count (to_numeric series) = isna_sum series) then []
          else [MixedNonNumeric col])
  end.

Definition required_warnings (data : DataFrame F) (col : string) : list Message :=
  match dict_get (columns data) col with
  | None => []
  | Some series =>
      match dtype series with
      | object_ => [ObjectDtype col]
      | float64 => []
      end
  end.

(** The three per-column metrics of a column that is present. *)
Definition column_metrics (data : DataFrame F) (series : Series F)
    : result (PyVal F * PyVal F * PyVal F) :=
  b_idx ← business_calendar (index data);
  reindexed ← reindex (index data) series b_idx;
  latest ← latest_observed (index data) series;
  Ok (PyFloat (fround 4 (isna_mean_pct series)),
      PyInt (_largest_consecutive_missing_business_days reindexed),
      latest).

Definition required_view (data : DataFrame F) (v : View) (col : string) : result View :=
  match dict_get (columns data) col with
  | None => Ok v
  | Some series =>
      '(pct, gap, latest) ← column_metrics data series;
      Ok (mkView (v_rows v) (v_cols v)
            (dict_set (v_missing_pct v) col pct)
            (dict_set (v_gap v) col gap)
            (dict_set (v_latest v) col latest)
            (v_outliers v) (v_stale v))
  end.

Definition impossible_warnings (data : DataFrame F)
    (entry : string * (list F -> list bool)) : list Message :=
  match dict_get (columns data) entry.1 with
  | None => []
  | Some series =>
      let invalid_count := count_true (entry.2 (to_numeric series)) in
      if 0 <? invalid_count then [ImpossibleValues entry.1 invalid_count] else []
  end.

Definition outlier_count (kind : string) (series : Series F) : Z :=
  count_true (_zscore_flags (to_numeric series) kind).

Definition outlier_warnings (kind : string) (warn : string -> Z -> Message)
    (data : DataFrame F) (col : string) : list Message :=
  match dict_get (columns data) col with
  | None => []
  | Some series =>
      if 0 <? outlier_count kind series then [warn col (outlier_count kind series)]
      else []
  end.

Definition outlier_view (kind : string) (data : DataFrame F)
    (counts : dict (PyVal F)) (col : string) : dict (PyVal F) :=
  match dict_get (columns data) col with
  | None => counts
  | Some series => dict_set counts col (PyInt (outlier_count kind series))
  end.

Definition stale_threshold (col : string) : Z :=
  if startswith col "fred_" then 45 else 7.

(** The age and threshold of an entry of [latest_date] that is stale. *)
Definition stale_finding (now_date : Z) (item : string * PyVal F) : option (Z * Z * Z) :=
  match item.2 with
  | PyIsoDate latest_date =>
      if stale_threshold item.1 <? now_date - latest_date
      then Some (latest_date, now_date - latest_date, stale_threshold item.1)
      else None
  | _ => None
  end.

Definition stale_warnings (now_date : Z) (item : string * PyVal F) : list Message :=
  match stale_finding now_date item with
  | Some (latest, age, threshold) => [StaleSeries item.1 latest age threshold]
  | None => []
  end.

Definition stale_entries (now_date : Z) (item : string * PyVal F) : list (PyVal F) :=
  match stale_finding now_date item with
  | Some _ => [PyStr item.1]
  | None => []
  end.

(** A value of [latest_date]: [None] or an ISO date. *)
Definition date_or_none (x : PyVal F) : Prop :=
  x = PyNone \/ exists d, x = PyIsoDate d.

(** Whether the metrics of a column can be computed; a column that is
    absent is passed over. *)
Definition column_computable (data : DataFrame F) (col : string) : bool :=
  match dict_get (columns data) col with
  | None => true
  | Some series => returns (column_metrics data series)
  end.

(** The three metrics of a column as a view has them on record. *)
Definition recorded (v : View) (col : string) (m : PyVal F * PyVal F * PyVal F) : Prop :=
  dict_get (v_missing_pct v) col = Some m.1.1 /\
  dict_get (v_gap v) col = Some m.1.2 /\
  dict_get (v_latest v) col = Some m.2.

(** The report, given the metrics the loop over the required columns
    leaves behind. *)
Definition summary_report (env : Env) (data : DataFrame F)
    (required_columns optional_columns market_columns fred_columns : list string)
    (v : View) : ValidationReport :=
  let errs := index_errors data ++ presence_errors env data required_columns
              ++ flat_map (required_errors data) required_columns in
  let warns := presence_warnings env data optional_columns
               ++ flat_map (required_warnings data) required_columns
               ++ flat_map (impossible_warnings data) (impossible_rules data)
               ++ flat_map (outlier_warnings "pct_change" MarketOutlier data) market_columns
               ++ flat_map (outlier_warnings "abs_change" FredOutlier data) fred_columns
               ++ flat_map (stale_warnings (today env)) (v_latest v) in
  let counts := fold_left (outlier_view "abs_change" data) fred_columns
                  (fold_left (outlier_view "pct_change" data) market_columns
                     (v_outliers v)) in
  let stale := v_stale v ++ flat_map (stale_entries (today env)) (v_latest v) in
  mkReport errs warns
    (view_metrics (mkView (v_rows v) (v_cols v) (v_missing_pct v) (v_gap v)
                     (v_latest v) counts stale)
     ++ [ ("warnings_count", PyInt (Z.of_nat (length warns)));
          ("errors_count", PyInt (Z.of_nat (length errs))) ]).

(** *** Notions of the specification *)

(** The change series of the outlier check. *)
Definition changes_of (kind : string) (values : list F) : list F :=
  if String.eqb kind "pct_change" then pct_change values else diff values.

Definition std_zero_or_undefined (changes : list F) : Prop :=
  isnan (nanstd changes) = true \/ isclose0 (nanstd changes) = true.

(** Every value that is not null is the same number. *)
Definition constant_valued (values : list F) : Prop :=
  exists c, Forall (fun x => x = c \/ isnan x = true) values.

Definition zero_or_nan (x : F) : Prop := isnan x = true \/ x = of_Z 0.

(** [n] consecutive nulls of [l], from position [i] on. *)
Definition null_run (l : list (Cell F)) (i n : nat) : Prop :=
  forall j, (i <= j < i + n)%nat -> exists c, l !! j = Some c /\ cell_isna c = true.

(** [g] is the length of the longest contiguous run of nulls of [l]. *)
Definition longest_null_run (l : list (Cell F)) (g : Z) : Prop :=
  exists n : nat,
    g = Z.of_nat n /\ (exists i, null_run l i n) /\
    forall i k, null_run l i k -> (k <= n)%nat.

(** [calendar] lists, in increasing order, the days from [lo] to [hi]
    that fall on Monday to Friday. *)
Definition business_days_between (lo hi : Z) (calendar : list Z) : Prop :=
  StronglySorted Z.lt calendar /\
  forall d, d ∈ calendar <-> lo <= d <= hi /\ 0 <= weekday d < 5.

(** The row of label [d] holds [c]. *)
Definition row_of (ds : list Z) (cs : list (Cell F)) (d : Z) (c : Cell F) : Prop :=
  exists j, ds !! j = Some d /\ cs !! j = Some c.

(** [l] holds, for each day of [calendar], the cell of the row of that
    day, and the null [nan] when the column has no such row. *)
Definition reindexed_onto (ds : list Z) (cs : list (Cell F)) (calendar : list Z)
    (l : list (Cell F)) : Prop :=
  length l = length calendar /\
  forall i d c, calendar !! i = Some d -> l !! i = Some c ->
    row_of ds cs d c \/ ((forall c', ~ row_of ds cs d c') /\ c = CNum nan).

(** The columns under a sign rule: the five macro series and every
    column with the adjusted-close or the volume suffix. *)
Definition monitored (col : string) : Prop :=
  col ∈ ["fred_DGS10"; "fred_DGS2"; "fred_CPIAUCSL"; "fred_UNRATE"; "fred_BAA10YM"]
  \/ endswith col "__adj_close" = true \/ endswith col "__volume" = true.

(** The number of rows of a column whose value is a negative number. *)
Definition negative_rows (series : Series F) : Z :=
  Z.of_nat (length (filter (fun x => fltb x (of_Z 0) = true) (to_numeric series))).

(** [x] is the entry of [stale_series] for [col]. *)
Definition names_column (col : string) (x : PyVal F) : bool :=
  match x with
  | PyStr s => bool_decide (s = col)
  | _ => false
  end.

End Summaries.

(** The facts of binary64 arithmetic the proofs rely on: NaN propagates
    through the operations and compares false, and a few sums, products
    and quotients are exact. *)
Class FloatLaws (F : Type) `{Float F} : Prop := {
  isnan_nan : isnan nan = true;
  isnan_of_Z : forall z, isnan (of_Z z) = false;
  fsub_nan_l : forall x y, isnan x = true -> isnan (fsub x y) = true;
  fsub_nan_r : forall x y, isnan y = true -> isnan (fsub x y) = true;
  fdiv_nan_l : forall x y, isnan x = true -> isnan (fdiv x y) = true;
  fdiv_nan_r : forall x y, isnan y = true -> isnan (fdiv x y) = true;
  fabs_nan : forall x, isnan x = true -> isnan (fabs x) = true;
  fltb_nan_r : forall x y, isnan y = true -> fltb x y = false;
  fdiv_self : forall x, isnan (fdiv x x) = true \/ fdiv x x = of_Z 1;
  fsub_self : forall x, isnan (fsub x x) = true \/ fsub x x = of_Z 0;
  fadd_zero : fadd (of_Z 0) (of_Z 0) = of_Z 0;
  fsub_zero : fsub (of_Z 0) (of_Z 0) = of_Z 0;
  fmul_zero : fmul (of_Z 0) (of_Z 0) = of_Z 0;
  fdiv_zero : forall n, 0 < n -> fdiv (of_Z 0) (of_Z n) = of_Z 0;
  fsqrt_zero : fsqrt (of_Z 0) = of_Z 0;
  isclose0_zero : isclose0 (of_Z 0) = true
}.

(** ** parquet_store.py *)

(** A [pathlib.Path] is the list of its components. *)
Definition Path := list string.

Definition path_str (p : Path) : string := String.concat "/" p.

Definition parent (p : Path) : Path := removelast p.

(** A directory and all its ancestors. *)
Fixpoint ancestors (p : Path) : list Path :=
  match p with
  | [] => [[]]
  | c :: p' => [] :: map (cons c) (ancestors p')
  end.

(** A JSON document; an object is a finite map, as [json.loads] returns
    a [dict] and [json.dumps(..., sort_keys=True)] fixes the order of the
    keys in the text. *)
Inductive JSON (F : Type) :=
| JNull
| JBool (b : bool)
| JInt (z : Z)
| JFloat (x : F)
| JStr (s : string)
| JArray (l : list (JSON F))
| JObject (m : gmap string (JSON F)).
Arguments JNull {F}.
Arguments JBool {F} b.
Arguments JInt {F} z.
Arguments JFloat {F} x.
Arguments JStr {F} s.
Arguments JArray {F} l.
Arguments JObject {F} m.

(** What a file holds: a table ([df.to_parquet]) or the text of a JSON
    document, kept as the document it parses to. *)
Inductive FileContent (F : Type) :=
| ParquetFile (df : DataFrame F)
| JsonFile (doc : JSON F).
Arguments ParquetFile {F} df.
Arguments JsonFile {F} doc.

(** The surroundings of a run: the clock and hash seed, and the file
    system. Failures of the disk itself are not part of the model. *)
Record World (F : Type) := mkWorld {
  w_env : Env;
  w_dirs : gset Path;
  w_files : gmap Path (FileContent F)
}.
Arguments mkWorld {F} w_env w_dirs w_files.
Arguments w_env {F} w.
Arguments w_dirs {F} w.
Arguments w_files {F} w.

(** A table is an object: several names may refer to it, and statements
    such as [merged.index = ...] (run_ingest.py, line 103) or
    [standardized[col] = ...] (yfinance_loader.py, line 56) change it in
    place. The process holds its tables by reference, next to the world
    of files. *)
Record Process (F : Type) := mkProcess {
  p_world : World F;
  p_tables : gmap positive (DataFrame F)
}.
Arguments mkProcess {F} p_world p_tables.
Arguments p_world {F} p.
Arguments p_tables {F} p.

Record DatasetWriteResult := mkWriteResult {
  path : string;
  rows : Z
}.

Section Store.
Context {F : Type} `{Float F}.

(** A computation that may raise and may change the world. *)
Definition IO (A : Type) : Type := World F -> result A * World F.

Definition io_ret {A} (a : A) : IO A := fun w => (Ok a, w).

Definition io_bind {A B} (m : IO A) (k : A -> IO B) : IO B := fun w =>
  match m w with
  | (Ok a, w') => k a w'
  | (Raise e, w') => (Raise e, w')
  end.

Definition io_raise {A} (e : Exn) : IO A := fun w => (Raise e, w).

(** [p.mkdir(parents=True, exist_ok=True)] *)
Definition mkdir_parents (p : Path) : IO unit := fun w =>
  (Ok tt, mkWorld (w_env w) (w_dirs w ∪ list_to_set (ancestors p)) (w_files w)).

Definition path_exists (p : Path) : IO bool := fun w =>
  (Ok (bool_decide (is_Some (w_files w !! p))), w).

Definition write_file (p : Path) (c : FileContent F) : IO unit := fun w =>
  (Ok tt, mkWorld (w_env w) (w_dirs w) (<[p := c]> (w_files w))).

(** [json.loads(p.read_text())] *)
Definition read_json (p : Path) : IO (JSON F) := fun w =>
  match w_files w !! p with
  | Some (JsonFile doc) => (Ok doc, w)
  | Some (ParquetFile _) => (Raise (ValueError "file is not a JSON document"), w)
  | None => (Raise (ValueError "No such file or directory"), w)
  end.

Definition frame_len (df : DataFrame F) : nat := index_len (index df).

(** [df.empty]: no rows or no columns. *)
Definition frame_empty (df : DataFrame F) : bool :=
  bool_decide (frame_len df = 0%nat) || bool_decide (length (columns df) = 0%nat).

(** [l[mask]] *)
Fixpoint select {A} (mask : list bool) (l : list A) : list A :=
  match mask, l with
  | b :: mask', x :: l' => if b then x :: select mask' l' else select mask' l'
  | _, _ => []
  end.

(** [df[mask]] on a date-indexed table. *)
Definition select_rows (mask : list bool) (ds : list Z) (df : DataFrame F) : DataFrame F :=
  mkDataFrame (index_name df) (DatetimeIndex (select mask ds))
    (map (fun '(c, s) => (c, mkSeries (dtype s) (select mask (cells s)))) (columns df)).

Definition _write_parquet (df : DataFrame F) (p : Path) : IO DatasetWriteResult :=
  io_bind (mkdir_parents (parent p)) (fun _ =>
  io_bind (write_file p (ParquetFile df)) (fun _ =>
  io_ret (mkWriteResult (path_str p) (Z.of_nat (frame_len df))))).

(** The loop of lines 29-32. *)
Fixpoint write_years (df : DataFrame F) (ds : list Z) (base_dir : Path)
    (source run_id : string) (years : list Z) (results : list DatasetWriteResult)
    : IO (list DatasetWriteResult) :=
  match years with
  | [] => io_ret results
  | year :: years' =>
      let ydf := select_rows (map (fun d => bool_decide (year_of_day d = year)) ds) ds df in
      let p := (base_dir ++ ["raw"; "source=" +:+ source; "year=" +:+ pretty year;
                             "run_id=" +:+ run_id +:+ ".parquet"])%list in
      io_bind (_write_parquet ydf p) (fun r =>
      write_years df ds base_dir source run_id years' (results ++ [r]))
  end.

(** [df[mask]] and the loop of lines 29-32 on a table whose labels are
    timestamps. *)
Definition select_stamp_rows (tz : Timezone) (mask : list bool) (stamps : list Z)
    (df : DataFrame F) : DataFrame F :=
  mkDataFrame (index_name df) (TimestampIndex tz (select mask stamps))
    (map (fun '(c, s) => (c, mkSeries (dtype s) (select mask (cells s)))) (columns df)).

Fixpoint write_stamp_years (df : DataFrame F) (tz : Timezone) (stamps : list Z)
    (base_dir : Path) (source run_id : string) (years : list Z)
    (results : list DatasetWriteResult) : IO (list DatasetWriteResult) :=
  match years with
  | [] => io_ret results
  | year :: years' =>
      let ydf := select_stamp_rows tz
                   (map (fun s => bool_decide (year_of_day (day_of (local_stamp tz s)) = year))
                      stamps)
                   stamps df in
      let p := (base_dir ++ ["raw"; "source=" +:+ source; "year=" +:+ pretty year;
                             "run_id=" +:+ run_id +:+ ".parquet"])%list in
      io_bind (_write_parquet ydf p) (fun r =>
      write_stamp_years df tz stamps base_dir source run_id years' (results ++ [r]))
  end.

Definition write_partitioned_by_year (df : DataFrame F) (base_dir : Path)
    (source run_id : string) : IO (list DatasetWriteResult) :=
  if frame_empty df then io_ret []
  else
    match index df with
    | DatetimeIndex ds =>
        let years := merge_sort Z.le (remove_dups (map year_of_day ds)) in
        write_years df ds base_dir source run_id years []
    | RangeIndex _ => io_raise (AttributeError "'RangeIndex' object has no attribute 'year'")
    | TimestampIndex tz stamps =>
        let years := merge_sort Z.le
                       (remove_dups
                          (map (fun s => year_of_day (day_of (local_stamp tz s))) stamps)) in
        write_stamp_years df tz stamps base_dir source run_id years []
    end.

Definition write_standardized (df : DataFrame F) (base_dir : Path) (run_id : string)
    : IO DatasetWriteResult :=
  let p := (base_dir ++ ["standardized"; "run_id=" +:+ run_id +:+ ".parquet"])%list in
  _write_parquet df p.

Definition append_catalog_entry (catalog_path : Path) (entry : JSON F) : IO unit :=
  io_bind (mkdir_parents (parent catalog_path)) (fun _ =>
  io_bind (path_exists catalog_path) (fun present =>
  io_bind (if present : bool
           then io_bind (read_json catalog_path) (fun existing =>
                  io_ret (match existing with
                          | JArray l => l
                          | _ => [existing]
                          end))
           else io_ret []) (fun existing =>
  let existing := (existing ++ [entry])%list in
  write_file catalog_path (JsonFile (JArray existing))))).

(** The catalog as a reader sees it: the entries of the file, none when
    the file is absent. *)
Definition catalog_entries (catalog_path : Path) (w : World F) : option (list (JSON F)) :=
  match w_files w !! catalog_path with
  | None => Some []
  | Some (JsonFile (JArray l)) => Some l
  | Some (JsonFile doc) => Some [doc]
  | Some (ParquetFile _) => None
  end.

(** *** The engine inside the process

    A computation of the process may raise, change the files and change
    the tables. *)
Definition Run (A : Type) : Type := Process F -> result A * Process F.

Definition run_ret {A} (a : A) : Run A := fun p => (Ok a, p).

Definition run_bind {A B} (m : Run A) (k : A -> Run B) : Run B := fun p =>
  match m p with
  | (Ok a, p') => k a p'
  | (Raise e, p') => (Raise e, p')
  end.

(** A computation on values, which touches neither tables nor files. *)
Definition run_lift {A} (m : result A) : Run A := fun p => (m, p).

(** A computation on the files. *)
Definition run_io {A} (m : IO A) : Run A := fun p =>
  let '(r, w) := m (p_world p) in (r, mkProcess w (p_tables p)).

Fixpoint run_for_each {S A} (body : S -> A -> Run S) (l : list A) (st : S) : Run S :=
  match l with
  | [] => run_ret st
  | x :: l' => run_bind (body st x) (fun st' => run_for_each body l' st')
  end.

(** Reading the table a name refers to; a name that refers to no table
    holds [None]. *)
Definition load (data : positive) : Run (DataFrame F) := fun p =>
  match p_tables p !! data with
  | Some df => (Ok df, p)
  | None => (Raise (AttributeError "'NoneType' object has no attribute 'index'"), p)
  end.

(** Reading the clock and the hash seed. *)
Definition environment : Run Env := fun p => (Ok (w_env (p_world p)), p).

(** [data.index = new_index], [data.index.name = name] and
    [data[col] = series]: the table changes in place, under every name
    that refers to it. *)
Definition set_index (data : positive) (new_index : Index) : Run unit :=
  run_bind (load data) (fun df => fun p =>
    (Ok tt, mkProcess (p_world p)
              (<[data := mkDataFrame (index_name df) new_index (columns df)]> (p_tables p)))).

Definition set_index_name (data : positive) (name : string) : Run unit :=
  run_bind (load data) (fun df => fun p =>
    (Ok tt, mkProcess (p_world p)
              (<[data := mkDataFrame (Some name) (index df) (columns df)]> (p_tables p)))).

Definition setitem (data : positive) (col : string) (series : Series F) : Run unit :=
  run_bind (load data) (fun df => fun p =>
    (Ok tt, mkProcess (p_world p)
              (<[data := mkDataFrame (index_name df) (index df)
                           (dict_set (columns df) col series)]> (p_tables p)))).

(** run_ingest.py, lines 103-104. *)
Definition standardize_index (merged : positive) : Run unit :=
  run_bind (load merged) (fun df =>
  run_bind (set_index merged (normalize_to_utc_date_index (index df))) (fun _ =>
  set_index_name merged "date")).

(** checks.py, [validate_dataset], called on a name: each statement
    that mentions [data] reads the table behind the name as it is at that
    moment, the report and the metrics are objects of the call's own, and
    the sets and the clock are read from the surroundings. *)
Definition validate_dataset_run (data : positive)
    (required_columns optional_columns market_columns fred_columns : list string)
    : Run (@ValidationReport F) :=
  (* lines 58-67 *)
  run_bind (load data) (fun df =>
  let st := mkState [] [] (initial_metrics df) in
  (* lines 69-78 *)
  run_bind (load data) (fun df =>
  let st := check_index df st in
  (* lines 80-86 *)
  run_bind environment (fun env =>
  run_bind (load data) (fun df =>
  let st := check_presence env df required_columns optional_columns st in
  (* lines 88-110 *)
  run_bind (run_for_each
              (fun st col =>
                 run_bind (load data) (fun df =>
                 run_lift (check_required_column df st col)))
              required_columns st) (fun st =>
  (* lines 112-129 *)
  run_bind (load data) (fun df =>
  let rules := impossible_rules df in
  run_bind (run_for_each
              (fun st entry =>
                 run_bind (load data) (fun df =>
                 run_ret (check_impossible df st entry)))
              rules st) (fun st =>
  (* lines 131-147 *)
  run_bind (run_for_each
              (fun st col =>
                 run_bind (load data) (fun df =>
                 run_lift (check_outliers "pct_change" MarketOutlier df st col)))
              market_columns st) (fun st =>
  run_bind (run_for_each
              (fun st col =>
                 run_bind (load data) (fun df =>
                 run_lift (check_outliers "abs_change" FredOutlier df st col)))
              fred_columns st) (fun st =>
  (* lines 149-160 *)
  run_bind environment (fun env =>
  let now_date := today env in
  run_bind (run_lift (latest_date_items st)) (fun items =>
  run_bind (run_lift (for_each (check_stale now_date) items st)) (fun st =>
  (* lines 162-165 *)
  run_ret (finish st))))))))))))).

End Store.

(** ** An executable instance of the arithmetic

    Finite values are rationals in lowest terms, next to the two
    infinities and NaN. Sums, products and quotients are exact; the square
    root is rounded down to 20 decimal places. *)

Inductive QF := Fin (q : Q) | PInf | NInf | NaN.

Definition q_ltb (a b : Q) : bool := (Qnum a * QDen b <? Qnum b * QDen a)%Z.
Definition q_leb (a b : Q) : bool := (Qnum a * QDen b <=? Qnum b * QDen a)%Z.
Definition q_is0 (a : Q) : bool := (Qnum a =? 0)%Z.

Definition qf_neg (x : QF) : QF :=
  match x with
  | Fin a => Fin (Qred (- a))
  | PInf => NInf
  | NInf => PInf
  | NaN => NaN
  end.

Definition qf_add (x y : QF) : QF :=
  match x, y with
  | NaN, _ | _, NaN => NaN
  | Fin a, Fin b => Fin (Qred (a + b))
  | PInf, NInf | NInf, PInf => NaN
  | PInf, _ | _, PInf => PInf
  | NInf, _ | _, NInf => NInf
  end.

Definition qf_sub (x y : QF) : QF := qf_add x (qf_neg y).

Definition qf_sign_inf (positive : bool) : QF := if positive then PInf else NInf.

Definition qf_mul (x y : QF) : QF :=
  match x, y with
  | NaN, _ | _, NaN => NaN
  | Fin a, Fin b => Fin (Qred (a * b))
  | Fin a, PInf | PInf, Fin a =>
      if q_is0 a then NaN else qf_sign_inf (q_ltb 0 a)
  | Fin a, NInf | NInf, Fin a =>
      if q_is0 a then NaN else qf_sign_inf (q_ltb a 0)
  | PInf, PInf | NInf, NInf => PInf
  | PInf, NInf | NInf, PInf => NInf
  end.

Definition qf_div (x y : QF) : QF :=
  match x, y with
  | NaN, _ | _, NaN => NaN
  | Fin a, Fin b =>
      if q_is0 b then (if q_is0 a then NaN else qf_sign_inf (q_ltb 0 a))
      else Fin (Qred (a / b))
  | Fin _, _ => Fin 0
  | PInf, Fin b => qf_sign_inf (q_leb 0 b)
  | NInf, Fin b => qf_sign_inf (q_ltb b 0)
  | _, _ => NaN
  end.

Definition q_sqrt (a : Q) : Q :=
  let scale := (10 ^ 20)%Z in
  Qred (Qmake (Z.sqrt (Qnum a * QDen a * scale * scale)) (Z.to_pos (QDen a * scale))).

Definition qf_sqrt (x : QF) : QF :=
  match x with
  | Fin a => if q_ltb a 0 then NaN else Fin (q_sqrt a)
  | PInf => PInf
  | _ => NaN
  end.

Definition qf_abs (x : QF) : QF :=
  match x with
  | Fin a => if q_ltb a 0 then Fin (Qred (- a)) else Fin a
  | NaN => NaN
  | _ => PInf
  end.

Definition qf_ltb (x y : QF) : bool :=
  match x, y with
  | NaN, _ | _, NaN => false
  | Fin a, Fin b => q_ltb a b
  | NInf, NInf | PInf, _ | _, NInf => false
  | _, _ => true
  end.

Definition qf_leb (x y : QF) : bool :=
  match x, y with
  | NaN, _ | _, NaN => false
  | Fin a, Fin b => q_leb a b
  | NInf, _ | _, PInf => true
  | _, _ => false
  end.

Definition qf_isnan (x : QF) : bool :=
  match x with NaN => true | _ => false end.

(** Round half to even at [ndigits] decimal places. *)
Definition q_round (ndigits : Z) (a : Q) : Q :=
  let scale := (10 ^ ndigits)%Z in
  let n := (Qnum a * scale)%Z in
  let d := QDen a in
  let fl := (n / d)%Z in
  let twice := (2 * (n - fl * d))%Z in
  let r := if (twice <? d)%Z then fl
           else if (d <? twice)%Z then (fl + 1)%Z
           else if Z.even fl then fl else (fl + 1)%Z in
  Qred (Qmake r (Z.to_pos scale)).

Definition qf_round (ndigits : Z) (x : QF) : QF :=
  match x with
  | Fin a => Fin (q_round ndigits a)
  | _ => x
  end.

Definition digit_of (c : ascii) : option Z :=
  let n := Z.of_N (N_of_ascii c) in
  if (48 <=? n)%Z && (n <=? 57)%Z then Some (n - 48)%Z else None.

(** Digits with at most one point: the numerator read so far, the
    denominator, and whether the point and a digit have been seen. *)
Fixpoint parse_digits (s : string) (num den : Z) (point digit : bool) : option Q :=
  match s with
  | EmptyString => if digit then Some (Qred (Qmake num (Z.to_pos den))) else None
  | String c s' =>
      match digit_of c with
      | Some k => parse_digits s' (10 * num + k)%Z (if point then 10 * den else den)%Z point true
      | None =>
          if Ascii.eqb c "."%char && negb point then parse_digits s' num den true digit
          else None
      end
  end.

(** Plain decimal literals, with an optional sign. *)
Definition qf_parse (s : string) : QF :=
  match s with
  | String "-"%char s' =>
      match parse_digits s' 0 1 false false with
      | Some a => Fin (Qred (- a))
      | None => NaN
      end
  | _ =>
      match parse_digits s 0 1 false false with
      | Some a => Fin a
      | None => NaN
      end
  end.

#[global] Instance QF_Float : Float QF := {|
  of_Z := fun z => Fin (inject_Z z);
  nan := NaN;
  fadd := qf_add;
  fsub := qf_sub;
  fmul := qf_mul;
  fdiv := qf_div;
  fsqrt := qf_sqrt;
  fabs := qf_abs;
  fltb := qf_ltb;
  fleb := qf_leb;
  isnan := qf_isnan;
  fround := qf_round;
  fparse := qf_parse
|}.

(** Decimal literal [n / 10^k], in lowest terms. *)
Definition dec (n : Z) (k : Z) : QF := Fin (Qred (Qmake n (Z.to_pos (10 ^ k)))).

(** A numeric column. *)
Definition numeric (l : list QF) : Series QF := mkSeries float64 (map CNum l).


(** ** Concrete inputs

    The table of [tests/test_validation.py], cut down to four columns and
    five business days from Monday 2024-01-01 (day 19723), and variants
    of it. *)

Definition ints (l : list Z) : Series QF := numeric (map (fun z => Fin (inject_Z z)) l).

Definition week : list Z := [19723; 19724; 19725; 19726; 19727].

Definition base_columns : list (string * Series QF) :=
  [ ("fred_DGS10", numeric [dec 40 1; dec 41 1; dec 42 1; dec 43 1; dec 44 1]);
    ("fred_UNRATE", numeric [dec 38 1; dec 38 1; dec 39 1; dec 39 1; dec 40 1]);
    ("yfin_SPY__adj_close", ints [400; 401; 402; 403; 404]);
    ("yfin_SPY__volume", ints [1; 2; 3; 4; 5]) ].

Definition base_df : DataFrame QF := mkDataFrame (Some "date") (DatetimeIndex week) base_columns.

Definition base_required : list string :=
  ["fred_DGS10"; "fred_UNRATE"; "yfin_SPY__adj_close"].

(** The run of Monday 2024-01-08, with two hash seeds. *)
Definition env_a : Env := mkEnv 19730 remove_dups.
Definition env_b : Env := mkEnv 19730 (fun l => reverse (remove_dups l)).

(** The base table with a negative price on the first and third day. *)
Definition negative_df : DataFrame QF :=
  mkDataFrame (Some "date") (DatetimeIndex week)
    [ ("fred_DGS10", numeric [dec 40 1; dec 41 1; dec 42 1; dec 43 1; dec 44 1]);
      ("yfin_SPY__adj_close", ints [-1; 401; -402; 403; 404]) ].

(** A column without a value on Tuesday and Wednesday, over an index that
    lacks the Thursday. *)
Definition gappy_df : DataFrame QF :=
  mkDataFrame (Some "date") (DatetimeIndex [19723; 19724; 19725; 19727])
    [ ("fred_DGS10", numeric [dec 40 1; NaN; NaN; dec 44 1]) ].

(** One row, on Saturday 2024-01-06: no business day in the span. *)
Definition weekend_df : DataFrame QF :=
  mkDataFrame (Some "date") (DatetimeIndex [19728]) [ ("fred_DGS10", numeric [NaN]) ].

(** A constant price. *)
Definition flat_df : DataFrame QF :=
  mkDataFrame (Some "date") (DatetimeIndex week)
    [ ("yfin_SPY__adj_close", ints [400; 400; 400; 400; 400]) ].

(** Two columns last observed on Friday 2024-01-05: one declared as macro
    series without the [fred_] prefix, one with the prefix and not
    declared. *)
Definition macro_df : DataFrame QF :=
  mkDataFrame (Some "date") (DatetimeIndex week)
    [ ("gdp", ints [1; 2; 3; 4; 5]);
      ("fred_X", ints [1; 2; 3; 4; 5]) ].

(** The run of Thursday 2024-01-18, 13 days after that Friday. *)
Definition env_late : Env := mkEnv 19740 remove_dups.

(** A table built without dates, on the default integer index. *)
Definition range_df : DataFrame QF :=
  mkDataFrame None (RangeIndex 2) [ ("fred_DGS10", ints [1; 2]) ].

(** A table with a date repeated. *)
Definition duplicate_df : DataFrame QF :=
  mkDataFrame (Some "date") (DatetimeIndex [19723; 19723])
    [ ("fred_DGS10", ints [1; 2]) ].

(** A table without rows. *)
Definition empty_df : DataFrame QF :=
  mkDataFrame (Some "date") (DatetimeIndex []) [ ("fred_DGS10", numeric []) ].

Definition empty_world : World QF := mkWorld env_a ∅ ∅.

Definition catalog_path : Path := ["data_catalog.json"].

Definition entry_of (run_id : string) : JSON QF :=
  JObject {[ "run_id" := JStr run_id ]}.

(** ** Further notions of the specification *)

Section Notions.
Context {F : Type} `{Float F}.

(** The column holds a value in some row. *)
Definition has_value (s : Series F) : Prop :=
  exists c, c ∈ cells s /\ cell_isna c = false.

(** A cell of text that [pd.to_numeric] does not read as a number. *)
Definition non_numeric_text (c : Cell F) : bool :=
  match c with
  | CStr t => isnan (fparse t)
  | _ => false
  end.

(** Every cell is a number, a null, or text that denotes a number. *)
Definition all_numeric (s : Series F) : Prop :=
  Forall (fun c => non_numeric_text c = false) (cells s).

(** The entry of [stale_series] that goes with a staleness warning. *)
Definition stale_name (m : Message) : option (PyVal F) :=
  match m with
  | StaleSeries col _ _ _ => Some (PyStr col)
  | _ => None
  end.

(** The file of one year of a source, and the file of the merged table. *)
Definition year_path (base_dir : Path) (source run_id : string) (year : Z) : Path :=
  (base_dir ++ ["raw"; "source=" +:+ source; "year=" +:+ pretty year;
                "run_id=" +:+ run_id +:+ ".parquet"])%list.

Definition standardized_path (base_dir : Path) (run_id : string) : Path :=
  (base_dir ++ ["standardized"; "run_id=" +:+ run_id +:+ ".parquet"])%list.

(** The rows of a date-indexed table that fall in a year. *)
Definition year_frame (df : DataFrame F) (ds : list Z) (year : Z) : DataFrame F :=
  select_rows (map (fun d => bool_decide (year_of_day d = year)) ds) ds df.

(** A string that is one component of a path: it holds no [/]. *)
Definition no_slash (s : string) : bool :=
  forallb (fun c => negb (Ascii.eqb c "/"%char)) (list_ascii_of_string s).

Definition rows_in_year (ds : list Z) (year : Z) : Z :=
  Z.of_nat (length (filter (fun d => year_of_day d = year) ds)).

Definition total_rows (results : list DatasetWriteResult) : Z :=
  foldr Z.add 0 (map rows results).

End Notions.

(** ** run_ingest.py and config.py: the column contract of [main] *)

(** config.py, lines 11-12. *)
Definition FRED_SERIES : list string := ["DGS10"; "DGS2"; "CPIAUCSL"; "UNRATE"; "BAA10YM"].
Definition YFINANCE_TICKERS : list string := ["SPY"; "TLT"; "HYG"; "GLD"; "UUP"].

(** Lines 106-110 of [main], for the series and tickers of a configuration. *)
Definition expected_fred (fred_series : list string) : list string :=
  map (fun s => "fred_" +:+ s) fred_series.

Definition required_market (tickers : list string) : list string :=
  map (fun t => "yfin_" +:+ t +:+ "__adj_close") tickers.

Definition optional_market (tickers : list string) : list string :=
  map (fun t => "yfin_" +:+ t +:+ "__volume") tickers.

Definition required_columns (fred_series tickers : list string) : list string :=
  expected_fred fred_series ++ required_market tickers.

Definition all_expected_columns (fred_series tickers : list string) : list string :=
  required_columns fred_series tickers ++ optional_market tickers.

Section Pipeline.
Context {F : Type} `{Float F}.

(** Lines 112-118: the call of [validate_dataset] on the merged table. *)
Definition validate_merged (env : Env) (merged : DataFrame F)
    (fred_series tickers : list string) : result (@ValidationReport F) :=
  validate_dataset env merged (required_columns fred_series tickers)
    (optional_market tickers) (required_market tickers) (expected_fred fred_series).

(** [report.metrics.get(key, {}).get(col)] *)
Definition metrics_lookup (metrics : dict (PyVal F)) (key col : string) : result (PyVal F) :=
  match dict_get metrics key with
  | None => Ok PyNone
  | Some (PyDict d) => Ok (default PyNone (dict_get d col))
  | Some _ => Raise (AttributeError "object has no attribute 'get'")
  end.

(** [int(merged[col].notna().sum())] *)
Definition notna_sum (s : Series F) : Z :=
  count_true (map (fun c => negb (cell_isna c)) (cells s)).

(** Lines 143-147: the summary of one expected column. *)
Definition per_series_entry (merged : DataFrame F) (report : @ValidationReport F)
    (col : string) : result (PyVal F) :=
  let row_count := match dict_get (columns merged) col with
                   | Some series => notna_sum series
                   | None => 0
                   end in
  missing_pct ← metrics_lookup (metrics report) "missing_pct" col;
  latest_date ← metrics_lookup (metrics report) "latest_date" col;
  Ok (PyDict [ ("row_count", PyInt row_count);
               ("missing_pct", missing_pct);
               ("latest_date", latest_date) ]).

(** Lines 142-149: the dict comprehension over the expected columns. *)
Definition per_series (merged : DataFrame F) (report : @ValidationReport F)
    (all_expected : list string) : result (dict (PyVal F)) :=
  for_each (fun d col => e ← per_series_entry merged report col; Ok (dict_set d col e))
    all_expected [].

End Pipeline.

(** ** Further concrete inputs *)

(** The table of [tests/test_validation.py] in full. *)
Definition test_columns : list (string * Series QF) :=
  [ ("fred_DGS10", numeric [dec 40 1; dec 41 1; dec 42 1; dec 43 1; dec 44 1]);
    ("fred_DGS2", numeric [dec 45 1; dec 44 1; dec 43 1; dec 42 1; dec 41 1]);
    ("fred_CPIAUCSL", ints [300; 301; 302; 303; 304]);
    ("fred_UNRATE", numeric [dec 38 1; dec 38 1; dec 39 1; dec 39 1; dec 40 1]);
    ("fred_BAA10YM", numeric [dec 20 1; dec 20 1; dec 21 1; dec 22 1; dec 22 1]);
    ("yfin_SPY__adj_close", ints [400; 401; 402; 403; 404]);
    ("yfin_TLT__adj_close", ints [90; 89; 88; 87; 86]);
    ("yfin_HYG__adj_close", ints [75; 75; 76; 76; 77]);
    ("yfin_GLD__adj_close", ints [180; 181; 181; 182; 183]);
    ("yfin_UUP__adj_close", numeric [dec 290 1; dec 291 1; dec 292 1; dec 291 1; dec 290 1]);
    ("yfin_SPY__volume", ints [1; 2; 3; 4; 5]);
    ("yfin_TLT__volume", ints [1; 2; 3; 4; 5]);
    ("yfin_HYG__volume", ints [1; 2; 3; 4; 5]);
    ("yfin_GLD__volume", ints [1; 2; 3; 4; 5]);
    ("yfin_UUP__volume", ints [1; 2; 3; 4; 5]) ].

Definition test_df : DataFrame QF := mkDataFrame (Some "date") (DatetimeIndex week) test_columns.

(** The column sets the tests pass. *)
Definition test_expected : list string := dict_keys test_columns.

Definition test_market : list string :=
  filter (fun c => endswith c "__adj_close" = true) test_expected.

Definition test_fred : list string :=
  filter (fun c => startswith c "fred_" = true) test_expected.

(** The table of the last test: no volume of SPY. *)
Definition no_volume_df : DataFrame QF :=
  mkDataFrame (Some "date") (DatetimeIndex week)
    (filter (fun item => item.1 ≠ "yfin_SPY__volume") test_columns).

Definition no_volume_required : list string :=
  filter (fun c => endswith c "__volume" = false) test_expected.

(** A column read as text, with a cell that is no number, a column of
    nulls, and a column whose last three days are null. *)
Definition ragged_df : DataFrame QF :=
  mkDataFrame (Some "date") (DatetimeIndex week)
    [ ("fred_DGS10", mkSeries object_ [CStr "4.0"; CStr "n/a"; CNone; CStr "4.3"; CStr "4.4"]);
      ("fred_DGS2", numeric [NaN; NaN; NaN; NaN; NaN]);
      ("fred_UNRATE", numeric [dec 38 1; dec 38 1; NaN; NaN; NaN]) ].

(** Friday 2023-12-29 and the first two business days of 2024. *)
Definition two_year_df : DataFrame QF :=
  mkDataFrame (Some "date") (DatetimeIndex [19720; 19723; 19724])
    [ ("DGS10", numeric [dec 39 1; dec 40 1; dec 41 1]) ].

(** A world whose catalog path holds a table. *)
Definition clobbered_world : World QF :=
  mkWorld env_a ∅ {[ catalog_path := ParquetFile base_df ]}.

(** The five business days of the base table as labels without a time
    zone, which is what [pd.date_range] gives without [tz]. *)
Definition naive_df : DataFrame QF :=
  mkDataFrame (Some "date") (TimestampIndex tz_naive (map midnight week))
    [ ("fred_DGS10", numeric [dec 40 1; dec 41 1; dec 42 1; dec 43 1; dec 44 1]) ].

(** The table with a gap, its index given by timestamps in UTC. *)
Definition stamped_df : DataFrame QF :=
  mkDataFrame (Some "date")
    (TimestampIndex tz_utc (map midnight [19723; 19724; 19725; 19727]))
    [ ("fred_DGS10", numeric [dec 40 1; NaN; NaN; dec 44 1]) ].

(** Two processes that hold the same table under the name 1: they
    differ in the hash seed, in the files and in the other tables. *)
Definition process_a : Process QF := mkProcess empty_world {[ 1%positive := negative_df ]}.

Definition process_b : Process QF :=
  mkProcess (mkWorld env_b ∅ {[ catalog_path := JsonFile (entry_of "run-0") ]})
    {[ 1%positive := negative_df; 2%positive := base_df ]}.

(** A process whose merged table still has labels without a zone. *)
Definition process_naive : Process QF := mkProcess empty_world {[ 1%positive := naive_df ]}.

(** Labels in UTC with a time of day that varies from row to row. *)
Definition intraday_df : DataFrame QF :=
  mkDataFrame (Some "date")
    (TimestampIndex tz_utc
       [ midnight 19723 + 32400000000000; midnight 19724 + 36000000000000;
         midnight 19725 + 32400000000000; midnight 19726 + 39600000000000;
         midnight 19727 + 36000000000000 ])
    [ ("fred_DGS10", numeric [dec 40 1; dec 41 1; dec 42 1; dec 43 1; dec 44 1]) ].

(** The five business days as midnights of a zone one hour ahead of
    UTC. *)
Definition zoned_df : DataFrame QF :=
  mkDataFrame (Some "date")
    (TimestampIndex (tz_zone (fun _ => 3600000000000))
       (map (fun d => midnight d - 3600000000000) week))
    [ ("fred_DGS10", numeric [dec 40 1; dec 41 1; dec 42 1; dec 43 1; dec 44 1]) ].

(** * Properties *)

(** ** The artifact writer and the run catalog *)

Section StoreFacts.
Context {F : Type} `{Float F}.

Lemma catalog_entries_absent (p : Path) (w : World F) :
  w_files w !! p = None -> catalog_entries p w = Some [].
Proof. intros Hp. unfold catalog_entries. by rewrite Hp. Qed.

Lemma catalog_entries_array (p : Path) (w : World F) (l : list (JSON F)) :
  w_files w !! p = Some (JsonFile (JArray l)) -> catalog_entries p w = Some l.
Proof. intros Hp. unfold catalog_entries. by rewrite Hp. Qed.

Lemma append_catalog_entry_run (p : Path) (entry : JSON F) (w : World F)
    (prior : list (JSON F)) :
  catalog_entries p w = Some prior ->
  append_catalog_entry p entry w =
    (Ok tt, mkWorld (w_env w) (w_dirs w ∪ list_to_set (ancestors (parent p)))
              (<[p := JsonFile (JArray (prior ++ [entry]))]> (w_files w))).
Proof.
  unfold catalog_entries, append_catalog_entry, io_bind, mkdir_parents,
    path_exists, read_json, write_file, io_ret; simpl.
  destruct (w_files w !! p) as [[df|doc]|] eqn:Hp; simpl; intros Hprior.
  - discriminate.
  - rewrite ?Hp. destruct doc; simpl; by simplify_eq.
  - by simplify_eq.
Qed.

(** C8: on a table without rows the year-partitioned writer returns the
    empty list and leaves the world as it was, no file and no directory
    added, while the standardized writer stores the table in its single
    file [<base>/standardized/run_id=<run_id>.parquet] and returns that
    path with a row count of 0. *)
Theorem empty_table_writers (df : DataFrame F) (base_dir : Path)
    (source run_id : string) (w : World F) :
  frame_len df = 0%nat ->
  write_partitioned_by_year df base_dir source run_id w = (Ok [], w) /\
  let p := (base_dir ++ ["standardized"; "run_id=" +:+ run_id +:+ ".parquet"])%list in
  exists w',
    write_standardized df base_dir run_id w = (Ok (mkWriteResult (path_str p) 0), w') /\
    w_files w' = <[p := ParquetFile df]> (w_files w) /\
    w_env w' = w_env w.
Proof.
  intros Hlen. split.
  - unfold write_partitioned_by_year, frame_empty.
    by rewrite bool_decide_eq_true_2.
  - eexists. unfold write_standardized, _write_parquet, io_bind, mkdir_parents,
      write_file, io_ret; simpl.
    rewrite Hlen. repeat split; reflexivity.
Qed.

(** C7: whatever the catalog file holds, absent (no entries), an array
    (its elements) or one bare document (that document alone),
    [append_catalog_entry] rewrites it as the array of the prior entries,
    in order, followed by the new entry; no other file changes, and a
    second append leaves both earlier results in place before its own. *)
Theorem append_catalog_entry_appends (p : Path) (entry : JSON F) (w : World F)
    (prior : list (JSON F)) :
  catalog_entries p w = Some prior ->
  (w_files w !! p = None -> prior = []) /\
  (forall m, w_files w !! p = Some (JsonFile (JObject m)) -> prior = [JObject m]) /\
  exists w',
    append_catalog_entry p entry w = (Ok tt, w') /\
    w_files w' !! p = Some (JsonFile (JArray (prior ++ [entry]))) /\
    (forall q, q ≠ p -> w_files w' !! q = w_files w !! q) /\
    forall entry2, exists w'',
      append_catalog_entry p entry2 w' = (Ok tt, w'') /\
      w_files w'' !! p = Some (JsonFile (JArray (prior ++ [entry; entry2]))).
Proof.
  intros Hprior. split; [|split].
  - intros Hp. rewrite (catalog_entries_absent _ _ Hp) in Hprior. by simplify_eq.
  - intros m Hp. unfold catalog_entries in Hprior. rewrite Hp in Hprior.
    by simplify_eq.
  - eexists. split; [by apply append_catalog_entry_run|]. simpl.
    split; [by rewrite lookup_insert_eq|].
    split; [intros q Hq; by rewrite lookup_insert_ne|].
    intros entry2. eexists. split.
    + apply append_catalog_entry_run. apply catalog_entries_array. simpl.
      by rewrite lookup_insert_eq.
    + simpl. rewrite lookup_insert_eq. by rewrite <- app_assoc.
Qed.

End StoreFacts.

(** ** The executable instance obeys the laws *)

Lemma q_is0_false_neq (a : Q) : q_is0 a = false -> ~ a == 0.
Proof.
  unfold q_is0, Qeq. intros Ha%Z.eqb_neq. simpl. lia.
Qed.

#[global] Instance QF_FloatLaws : FloatLaws QF.
Proof.
  split.
  - reflexivity.
  - reflexivity.
  - by intros [] [].
  - by intros [] [].
  - by intros [] [].
  - by intros [] [].
  - by intros [].
  - by intros [] [].
  - intros [a| | |]; simpl; auto.
    destruct (q_is0 a) eqn:Ha; [destruct (q_is0 a); auto|].
    right. f_equal. change (inject_Z 1) with (Qred 1).
    apply Qred_complete. field. by apply q_is0_false_neq.
  - intros [a| | |]; simpl; auto.
    right. f_equal. change (inject_Z 0) with (Qred 0).
    apply Qred_complete. rewrite Qred_correct. ring.
  - reflexivity.
  - reflexivity.
  - reflexivity.
  - intros n Hn. simpl. unfold q_is0. simpl.
    destruct (n =? 0) eqn:Hz; [apply Z.eqb_eq in Hz; lia|].
    reflexivity.
  - reflexivity.
  - reflexivity.
Qed.

Section ZScore.
Context {F : Type} `{FloatLaws F}.

Lemma count_true_all_false (l : list bool) :
  Forall (eq false) l -> count_true l = 0.
Proof.
  induction 1 as [|b l <- _ IH]; [done|].
  unfold count_true in *. rewrite filter_cons_False by done. exact IH.
Qed.

Lemma Forall_const_false {A} (l : list A) :
  Forall (eq false) (map (fun _ => false) l).
Proof. induction l; constructor; auto. Qed.

Lemma zscore_flags_none (values : list F) (kind : string) :
  std_zero_or_undefined (changes_of kind values) ->
  Forall (eq false) (_zscore_flags values kind).
Proof.
  unfold std_zero_or_undefined, changes_of, _zscore_flags.
  destruct values as [|v values]; [constructor|].
  set (changes := if String.eqb kind "pct_change" then _ else _).
  intros Hstd. destruct (isclose0 (nanstd changes)) eqn:Hclose.
  - apply Forall_const_false.
  - destruct Hstd as [Hnan|?]; [|done].
    rewrite map_map. apply Forall_forall. intros b Hb.
    apply list_elem_of_fmap in Hb as (c & -> & _).
    symmetry. apply fltb_nan_r, fabs_nan, fdiv_nan_r, Hnan.
Qed.

Lemma Forall_zip_with {A B C} (P : A -> Prop) (Q : B -> Prop) (R : C -> Prop)
    (f : A -> B -> C) (l : list A) (k : list B) :
  (forall x y, P x -> Q y -> R (f x y)) ->
  Forall P l -> Forall Q k -> Forall R (zip_with f l k).
Proof.
  intros Hf Hl. revert k. induction Hl as [|x l Hx _ IH]; intros k Hk; [constructor|].
  destruct Hk as [|y k Hy Hk]; simpl; constructor; auto.
Qed.

Lemma Forall_shift (P : F -> Prop) (l : list F) :
  P nan -> Forall P l -> Forall P (shift l).
Proof.
  intros Hn Hl. unfold shift. apply Forall_take. by constructor.
Qed.

Lemma Forall_ffill_from (c last : F) (l : list F) :
  (last = c \/ isnan last = true) ->
  Forall (fun x => x = c \/ isnan x = true) l ->
  Forall (fun x => x = c \/ isnan x = true) (ffill_from last l).
Proof.
  intros Hlast Hl. revert last Hlast.
  induction Hl as [|x l Hx _ IH]; intros last Hlast; simpl; [constructor|].
  destruct (isnan x) eqn:Hnx.
  - constructor; [done|by apply IH].
  - assert (Hxc : x = c \/ isnan x = true) by (destruct Hx; [by left|done]).
    constructor; [done|by apply IH].
Qed.

Lemma changes_constant (values : list F) (kind : string) :
  constant_valued values -> Forall zero_or_nan (changes_of kind values).
Proof.
  intros [c Hc]. unfold changes_of, pct_change, diff.
  assert (Hnan : (nan : F) = c \/ isnan (nan : F) = true) by (right; apply isnan_nan).
  destruct (String.eqb kind "pct_change").
  - pose proof (Forall_ffill_from c nan values Hnan Hc) as Hfill.
    apply (Forall_zip_with (fun x => x = c \/ isnan x = true)
             (fun x => x = c \/ isnan x = true));
      [| exact Hfill | apply Forall_shift; [exact Hnan|exact Hfill]].
    intros x y Hx Hy; unfold zero_or_nan.
    destruct Hx as [->|Hx], Hy as [->|Hy].
    + destruct (fdiv_self c) as [Hd| ->].
      * left. by apply fsub_nan_l.
      * destruct (fsub_self (of_Z 1)); auto.
    + left. by apply fsub_nan_l, fdiv_nan_r.
    + left. by apply fsub_nan_l, fdiv_nan_l.
    + left. by apply fsub_nan_l, fdiv_nan_l.
  - apply (Forall_zip_with (fun x => x = c \/ isnan x = true)
             (fun x => x = c \/ isnan x = true));
      [| exact Hc | apply Forall_shift; [exact Hnan|exact Hc]].
    intros x y Hx Hy; unfold zero_or_nan.
    destruct Hx as [->|Hx], Hy as [->|Hy].
    + destruct (fsub_self c); auto.
    + left. by apply fsub_nan_r.
    + left. by apply fsub_nan_l.
    + left. by apply fsub_nan_l.
Qed.

Lemma dropna_zero_or_nan (l : list F) :
  Forall zero_or_nan l -> dropna l = replicate (length (dropna l)) (of_Z 0).
Proof.
  unfold dropna. induction 1 as [|x l [Hx| ->] _ IH].
  - done.
  - rewrite filter_cons_False by (by rewrite Hx). exact IH.
  - rewrite filter_cons_True by apply isnan_of_Z. simpl. by f_equal.
Qed.

Lemma dropna_zeros (n : nat) : dropna (replicate n (of_Z 0 : F)) = replicate n (of_Z 0).
Proof.
  unfold dropna. induction n as [|n IH]; [done|]. simpl.
  rewrite filter_cons_True by apply isnan_of_Z. by f_equal.
Qed.

Lemma fold_fadd_zeros (n : nat) :
  fold_left fadd (replicate n (of_Z 0 : F)) (of_Z 0) = of_Z 0.
Proof. induction n as [|n IH]; [done|]. simpl. by rewrite fadd_zero. Qed.

Lemma nanstd_zero_or_nan (l : list F) :
  Forall zero_or_nan l -> zero_or_nan (nanstd l).
Proof.
  intros Hl. pose proof (dropna_zero_or_nan l Hl) as Hd.
  unfold nanstd. set (n := length (dropna l)) in *.
  destruct (Z.of_nat n <=? 1) eqn:Hn; [left; apply isnan_nan|].
  apply Z.leb_gt in Hn. right.
  assert (Hmean : nanmean l = of_Z 0).
  { unfold nanmean, nansum. fold n. rewrite Hd.
    destruct n as [|n']; [simpl in Hn; lia|]. simpl replicate at 1.
    rewrite fold_fadd_zeros. apply fdiv_zero. lia. }
  rewrite Hmean, Hd. change (map ?f ?l) with (f <$> l).
  rewrite fmap_replicate, fsub_zero, fmul_zero.
  unfold nansum. rewrite dropna_zeros, fold_fadd_zeros.
  rewrite fdiv_zero by lia. apply fsqrt_zero.
Qed.

Lemma constant_std (values : list F) (kind : string) :
  constant_valued values -> std_zero_or_undefined (changes_of kind values).
Proof.
  intros Hc. destruct (nanstd_zero_or_nan _ (changes_constant values kind Hc)) as [Hn|Hz].
  - by left.
  - right. rewrite Hz. apply isclose0_zero.
Qed.

End ZScore.

(** ** The order of [sorted] *)

Lemma string_compare_trans_le (a b c : string) :
  String.compare a b <> Gt -> String.compare b c <> Gt -> String.compare a c <> Gt.
Proof.
  revert b c. induction a as [|x a IH]; intros [|y b] [|z c]; simpl; try done.
  unfold Ascii.compare.
  destruct (N.compare_spec (N_of_ascii x) (N_of_ascii y)) as [Hxy|Hxy|Hxy];
    destruct (N.compare_spec (N_of_ascii y) (N_of_ascii z)) as [Hyz|Hyz|Hyz];
    destruct (N.compare_spec (N_of_ascii x) (N_of_ascii z)) as [Hxz|Hxz|Hxz];
    try done; try lia.
  apply IH.
Qed.

Lemma str_le_compare (a b : string) : str_le a b <-> String.compare a b <> Gt.
Proof. unfold str_le, String.leb. destruct (String.compare a b); split; done. Qed.

#[global] Instance str_le_total : Total str_le.
Proof. intros a b. apply String.leb_total. Qed.

#[global] Instance str_le_trans : Transitive str_le.
Proof.
  intros a b c. rewrite !str_le_compare. apply string_compare_trans_le.
Qed.

#[global] Instance str_le_antisym : AntiSymm eq str_le.
Proof. intros a b. apply String.leb_antisym. Qed.

Lemma sorted_Sorted (l : list string) : Sorted str_le (sorted l).
Proof. apply Sorted_merge_sort, _. Qed.

Lemma sorted_Permutation (l : list string) : sorted l ≡ₚ l.
Proof. apply merge_sort_Permutation. Qed.

(** Sorting forgets the order in which the elements arrive. *)
Lemma sorted_perm (l k : list string) : l ≡ₚ k -> sorted l = sorted k.
Proof.
  intros Hlk. apply (Sorted_unique str_le); try apply sorted_Sorted.
  by rewrite !sorted_Permutation.
Qed.

Section Missing.
Context {F : Type} `{Float F}.

Lemma valid_set_iter_perm (it1 it2 : list string -> list string) (l : list string) :
  valid_set_iter it1 -> valid_set_iter it2 -> it1 l ≡ₚ it2 l.
Proof.
  intros H1 H2. destruct (H1 l) as [Hnd1 Hin1], (H2 l) as [Hnd2 Hin2].
  apply NoDup_Permutation; [done..|]. intros x. by rewrite Hin1, Hin2.
Qed.

(** The sorted list of missing columns does not depend on the hash seed. *)
Lemma sorted_missing_env (env1 env2 : Env) (wanted : list string) (data : DataFrame F) :
  valid_set_iter (set_iter env1) -> valid_set_iter (set_iter env2) ->
  sorted_missing env1 wanted data = sorted_missing env2 wanted data.
Proof.
  intros H1 H2. unfold sorted_missing. by apply sorted_perm, valid_set_iter_perm.
Qed.

Lemma sorted_missing_spec (env : Env) (wanted : list string) (data : DataFrame F) :
  valid_set_iter (set_iter env) ->
  Sorted str_le (sorted_missing env wanted data) /\
  NoDup (sorted_missing env wanted data) /\
  forall c, c ∈ sorted_missing env wanted data <-> c ∈ wanted /\ c ∉ column_names data.
Proof.
  intros Hit. unfold sorted_missing.
  destruct (Hit (filter (fun c => c ∉ column_names data) wanted)) as [Hnd Hin].
  split; [apply sorted_Sorted|]. split.
  - by rewrite sorted_Permutation.
  - intros c. rewrite sorted_Permutation, Hin, list_elem_of_filter. tauto.
Qed.

End Missing.

(** ** Dictionaries *)

Section DictFacts.
Context {V : Type}.
Implicit Types (d : dict V) (k : string) (v : V).

Lemma dict_get_set_eq d k v : dict_get (dict_set d k v) k = Some v.
Proof.
  induction d as [|[k' v'] d IH]; simpl.
  - by rewrite decide_True.
  - destruct (decide (k' = k)) as [->|Hne]; simpl.
    + by rewrite decide_True.
    + by rewrite decide_False.
Qed.

Lemma dict_get_set_ne d k k' v :
  k ≠ k' -> dict_get (dict_set d k v) k' = dict_get d k'.
Proof.
  intros Hne. induction d as [|[k0 v0] d IH]; simpl.
  - by rewrite decide_False.
  - destruct (decide (k0 = k)) as [->|Hk0]; simpl.
    + by rewrite !decide_False.
    + by rewrite IH.
Qed.

Lemma dict_get_Some_elem d k v : dict_get d k = Some v -> (k, v) ∈ d.
Proof.
  induction d as [|[k0 v0] d IH]; simpl; [done|].
  destruct (decide (k0 = k)) as [->|Hne].
  - intros [= ->]. apply list_elem_of_here.
  - intros Hd. apply list_elem_of_further. auto.
Qed.

Lemma dict_get_None d k : dict_get d k = None <-> k ∉ dict_keys d.
Proof.
  unfold dict_keys. induction d as [|[k0 v0] d IH]; simpl.
  - split; [intros _; apply not_elem_of_nil|done].
  - rewrite not_elem_of_cons. destruct (decide (k0 = k)) as [->|Hne].
    + split; [done|]. by intros [? _].
    + rewrite IH. split; [by split|by intros [_ ?]].
Qed.

Lemma dict_get_elem d k v : NoDup (dict_keys d) -> (k, v) ∈ d -> dict_get d k = Some v.
Proof.
  unfold dict_keys. induction d as [|[k0 v0] d IH]; simpl.
  - intros _ Hin. by apply elem_of_nil in Hin.
  - intros [Hk0 Hnd]%NoDup_cons [[= -> ->]|Hin]%elem_of_cons.
    + by rewrite decide_True.
    + rewrite decide_False; [by apply IH|].
      intros ->. apply Hk0. apply list_elem_of_fmap. by exists (k, v).
Qed.

Lemma dict_keys_set d k v :
  dict_keys (dict_set d k v) =
    if decide (k ∈ dict_keys d) then dict_keys d else dict_keys d ++ [k].
Proof.
  unfold dict_keys. induction d as [|[k0 v0] d IH].
  - destruct (decide (k ∈ ([] : dict V).*1)) as [Hin|_]; [|done].
    by apply elem_of_nil in Hin.
  - cbn [dict_set]. destruct (decide (k0 = k)) as [->|Hne].
    + destruct (decide (k ∈ ((k, v0) :: d).*1)) as [_|Hin]; [done|].
      exfalso. apply Hin. apply list_elem_of_here.
    + rewrite fmap_cons, IH. cbn [fst fmap list_fmap].
      destruct (decide (k ∈ d.*1)) as [Hin|Hin];
        destruct (decide (k ∈ k0 :: d.*1)) as [Hin'|Hin']; try done.
      * exfalso. apply Hin'. by apply list_elem_of_further.
      * apply elem_of_cons in Hin' as [->|Hin']; done.
Qed.

Lemma dict_set_NoDup d k v : NoDup (dict_keys d) -> NoDup (dict_keys (dict_set d k v)).
Proof.
  intros Hnd. rewrite dict_keys_set. destruct (decide (k ∈ dict_keys d)); [done|].
  apply NoDup_app. split; [done|]. split; [|apply NoDup_singleton].
  intros x Hx Hk. apply elem_of_cons in Hk as [->|Hk]; [done|].
  by apply elem_of_nil in Hk.
Qed.

Lemma dict_set_elem d k v k' v' :
  (k', v') ∈ dict_set d k v -> (k' = k /\ v' = v) \/ (k', v') ∈ d.
Proof.
  induction d as [|[k0 v0] d IH]; simpl.
  - intros [[= -> ->]|Hin]%elem_of_cons; [by left|by right].
  - destruct (decide (k0 = k)) as [->|Hne].
    + intros [[= -> ->]|Hin]%elem_of_cons; [by left|].
      right. by apply list_elem_of_further.
    + intros [[= -> ->]|Hin]%elem_of_cons; [right; apply list_elem_of_here|].
      destruct (IH Hin); [by left|right; by apply list_elem_of_further].
Qed.

Lemma dict_set_Forall (P : V -> Prop) d k v :
  Forall (fun item => P item.2) d -> P v -> Forall (fun item => P item.2) (dict_set d k v).
Proof.
  intros Hd Hv. induction Hd as [|[k0 v0] d H0 Hd IH]; simpl.
  - by repeat constructor.
  - destruct (decide (k0 = k)); constructor; done.
Qed.

End DictFacts.

(** ** The stages of [validate_dataset] *)

Section Stages.
Context {F : Type} `{Float F}.
Implicit Types (e w : list Message) (v : @View F) (data : DataFrame F).

Lemma initial_metrics_view data : initial_metrics data = view_metrics (initial_view data).
Proof. reflexivity. Qed.

Lemma for_each_app {S A} (body : S -> A -> result S) (l k : list A) (st : S) :
  for_each body (l ++ k) st = (st' ← for_each body l st; for_each body k st').
Proof.
  revert st. induction l as [|x l IH]; intros st; simpl; [done|].
  destruct (body st x); simpl; [apply IH|done].
Qed.

Lemma check_index_spec data (st : @State F) :
  check_index data st =
    mkState (st_errors st ++ index_errors data) (st_warnings st) (st_metrics st).
Proof.
  unfold check_index, index_errors, add_error. destruct st as [e w m]; simpl.
  destruct (decide (index_name data = Some "date")), (index data) as [ds|rows|tz ds]; simpl;
    try destruct (has_duplicates ds); try destruct (is_monotonic_increasing ds); simpl;
    rewrite ?app_nil_r, <- ?app_assoc; reflexivity.
Qed.

Lemma fold_add_warning {A} (f : A -> Message) (l : list A) (st : @State F) :
  fold_left (fun st x => add_warning (f x) st) l st =
    mkState (st_errors st) (st_warnings st ++ map f l) (st_metrics st).
Proof.
  revert st. induction l as [|x l IH]; intros [e w m]; simpl.
  - by rewrite app_nil_r.
  - rewrite IH. simpl. by rewrite <- app_assoc.
Qed.

Lemma check_presence_spec env data req opt (st : @State F) :
  check_presence env data req opt st =
    mkState (st_errors st ++ presence_errors env data req)
      (st_warnings st ++ presence_warnings env data opt) (st_metrics st).
Proof.
  unfold check_presence, presence_errors, presence_warnings.
  rewrite fold_add_warning. destruct st as [e w m].
  destruct (sorted_missing env req data); simpl; by rewrite ?app_nil_r.
Qed.

Lemma check_required_column_spec data e w v col :
  check_required_column data (mkState e w (view_metrics v)) col =
    (v' ← required_view data v col;
     Ok (mkState (e ++ required_errors data col) (w ++ required_warnings data col)
           (view_metrics v'))).
Proof.
  unfold check_required_column, required_view, required_errors, required_warnings,
    column_metrics.
  destruct (dict_get (columns data) col) as [series|]; simpl.
  2:{ by rewrite !app_nil_r. }
  destruct (business_calendar (index data)) as [b_idx|]; simpl.
  2:{ destruct (has_no_data series), (decide _), (dtype series); reflexivity. }
  destruct (reindex (index data) series b_idx) as [reindexed|]; simpl.
  2:{ destruct (has_no_data series), (decide _), (dtype series); reflexivity. }
  destruct (latest_observed (index data) series) as [latest|]; simpl.
  2:{ destruct (has_no_data series), (decide _), (dtype series); reflexivity. }
  destruct (has_no_data series), (decide _), (dtype series); simpl;
    rewrite ?app_nil_r, <- ?app_assoc; reflexivity.
Qed.

Lemma required_loop_spec data cols e w v :
  for_each (check_required_column data) cols (mkState e w (view_metrics v)) =
    (v' ← for_each (required_view data) cols v;
     Ok (mkState (e ++ flat_map (required_errors data) cols)
           (w ++ flat_map (required_warnings data) cols) (view_metrics v'))).
Proof.
  revert e w v. induction cols as [|col cols IH]; intros e w v; simpl.
  - by rewrite !app_nil_r.
  - rewrite check_required_column_spec.
    destruct (required_view data v col) as [v'|]; simpl; [|done].
    rewrite IH. by rewrite !app_assoc.
Qed.

Lemma impossible_loop_spec data rules (st : @State F) :
  fold_left (check_impossible data) rules st =
    mkState (st_errors st) (st_warnings st ++ flat_map (impossible_warnings data) rules)
      (st_metrics st).
Proof.
  revert st. induction rules as [|[col rule] rules IH]; intros [e w m]; simpl.
  - by rewrite app_nil_r.
  - rewrite IH. unfold check_impossible, impossible_warnings; simpl.
    destruct (dict_get (columns data) col) as [series|]; simpl; [|done].
    destruct (0 <? count_true (rule (to_numeric series))); simpl; [|done].
    by rewrite <- app_assoc.
Qed.

Lemma check_outliers_spec kind warn data e w v col :
  check_outliers kind warn data (mkState e w (view_metrics v)) col =
    Ok (mkState e (w ++ outlier_warnings kind warn data col)
          (view_metrics (mkView (v_rows v) (v_cols v) (v_missing_pct v) (v_gap v)
                           (v_latest v) (outlier_view kind data (v_outliers v) col)
                           (v_stale v)))).
Proof.
  unfold check_outliers, outlier_warnings, outlier_view, outlier_count.
  destruct v as [r c mp g ld oc ss].
  destruct (dict_get (columns data) col) as [series|]; simpl.
  - destruct (0 <? count_true (_zscore_flags (to_numeric series) kind)); simpl;
      rewrite ?app_nil_r; reflexivity.
  - by rewrite app_nil_r.
Qed.

Lemma outlier_loop_spec kind warn data cols e w v :
  for_each (check_outliers kind warn data) cols (mkState e w (view_metrics v)) =
    Ok (mkState e (w ++ flat_map (outlier_warnings kind warn data) cols)
          (view_metrics (mkView (v_rows v) (v_cols v) (v_missing_pct v) (v_gap v)
                           (v_latest v)
                           (fold_left (outlier_view kind data) cols (v_outliers v))
                           (v_stale v)))).
Proof.
  revert w v. induction cols as [|col cols IH]; intros w v.
  - simpl. rewrite app_nil_r. by destruct v.
  - cbn [for_each]. rewrite check_outliers_spec. cbn [mbind result_bind].
    rewrite IH. simpl. by rewrite <- app_assoc.
Qed.

Lemma check_stale_spec now e w v (item : string * PyVal F) :
  date_or_none item.2 ->
  check_stale now (mkState e w (view_metrics v)) item =
    Ok (mkState e (w ++ stale_warnings now item)
          (view_metrics (mkView (v_rows v) (v_cols v) (v_missing_pct v) (v_gap v)
                           (v_latest v) (v_outliers v)
                           (v_stale v ++ stale_entries now item)))).
Proof.
  destruct item as [col latest], v as [r c mp g ld oc ss].
  unfold check_stale, stale_warnings, stale_entries, stale_finding, stale_threshold.
  simpl. intros [->|[d ->]]; simpl.
  - by rewrite !app_nil_r.
  - destruct ((if startswith col "fred_" then 45 else 7) <? now - d); simpl;
      rewrite ?app_nil_r; reflexivity.
Qed.

Lemma stale_loop_spec now items e w v :
  Forall (fun item : string * PyVal F => date_or_none item.2) items ->
  for_each (check_stale now) items (mkState e w (view_metrics v)) =
    Ok (mkState e (w ++ flat_map (stale_warnings now) items)
          (view_metrics (mkView (v_rows v) (v_cols v) (v_missing_pct v) (v_gap v)
                           (v_latest v) (v_outliers v)
                           (v_stale v ++ flat_map (stale_entries now) items)))).
Proof.
  intros Hitems. revert w v.
  induction Hitems as [|item items Hd _ IH]; intros w v.
  - simpl. rewrite !app_nil_r. by destruct v.
  - cbn [for_each]. rewrite check_stale_spec by done. cbn [mbind result_bind].
    rewrite IH. simpl. by rewrite <- !app_assoc.
Qed.

Lemma latest_observed_date_or_none (i : Index) (s : Series F) (latest : PyVal F) :
  latest_observed i s = Ok latest -> date_or_none latest.
Proof.
  unfold latest_observed, date_or_none.
  destruct (list_max _) as [d|]; [|intros [= <-]; by left].
  destruct i; [|done|]; intros [= <-]; right; by eexists.
Qed.

Lemma required_view_latest data v col v' :
  required_view data v col = Ok v' ->
  Forall (fun item : string * PyVal F => date_or_none item.2) (v_latest v) ->
  Forall (fun item : string * PyVal F => date_or_none item.2) (v_latest v').
Proof.
  unfold required_view, column_metrics.
  destruct (dict_get (columns data) col) as [series|]; [|by intros [= <-]].
  destruct (business_calendar (index data)) as [b_idx|]; [simpl|done].
  destruct (reindex (index data) series b_idx) as [reindexed|]; [simpl|done].
  destruct (latest_observed (index data) series) as [latest|] eqn:Hl; [simpl|done].
  intros [= <-] Hall. simpl. apply dict_set_Forall; [done|].
  by eapply latest_observed_date_or_none.
Qed.

Lemma required_loop_latest data cols v v' :
  for_each (required_view data) cols v = Ok v' ->
  Forall (fun item : string * PyVal F => date_or_none item.2) (v_latest v) ->
  Forall (fun item : string * PyVal F => date_or_none item.2) (v_latest v').
Proof.
  revert v. induction cols as [|col cols IH]; intros v; simpl.
  - by intros [= <-].
  - destruct (required_view data v col) as [v1|] eqn:Hstep; [simpl|done].
    intros Hloop Hall. eapply IH; [done|]. by eapply required_view_latest.
Qed.

Lemma latest_date_items_view e w v :
  latest_date_items (mkState e w (view_metrics v)) = Ok (v_latest v).
Proof. reflexivity. Qed.

(** [validate_dataset] raises exactly when the loop over the required
    columns does, and otherwise returns the report of [summary_report]. *)
Lemma validate_dataset_summary env data req opt mkt fred :
  validate_dataset env data req opt mkt fred =
    (v ← for_each (required_view data) req (initial_view data);
     Ok (summary_report env data req opt mkt fred v)).
Proof.
  unfold validate_dataset, structural_checks.
  rewrite check_index_spec, check_presence_spec.
  cbn [st_errors st_warnings st_metrics].
  rewrite initial_metrics_view, required_loop_spec.
  destruct (for_each (required_view data) req (initial_view data)) as [v|] eqn:Hloop;
    [|done].
  cbn [mbind result_bind]. rewrite impossible_loop_spec.
  cbn [st_errors st_warnings st_metrics].
  rewrite outlier_loop_spec. cbn [mbind result_bind].
  rewrite outlier_loop_spec. cbn [mbind result_bind].
  rewrite latest_date_items_view. cbn [mbind result_bind v_latest].
  rewrite stale_loop_spec.
  2:{ eapply required_loop_latest; [done|]. constructor. }
  cbn [mbind result_bind]. unfold finish, summary_report.
  cbn [st_errors st_warnings st_metrics v_rows v_cols v_missing_pct v_gap v_latest
       v_outliers v_stale app].
  rewrite <- !app_assoc. reflexivity.
Qed.

End Stages.

(** ** Where the messages of a report come from *)

Section Origins.
Context {F : Type} `{Float F}.
Implicit Types (data : DataFrame F) (l : list Message).

Lemma Forall_flat_map {A B} (P : B -> Prop) (f : A -> list B) (l : list A) :
  (forall x, Forall P (f x)) -> Forall P (flat_map f l).
Proof.
  intros Hf. induction l as [|x l IH]; simpl; [constructor|].
  apply Forall_app. auto.
Qed.

Lemma from_app o l k : from o (l ++ k) = from o l ++ from o k.
Proof. apply filter_app. Qed.

Lemma from_same o l : Forall (fun m => origin m = o) l -> from o l = l.
Proof.
  unfold from. induction 1 as [|m l Hm _ IH]; [done|].
  rewrite filter_cons_True by done. by f_equal.
Qed.

Lemma from_other o o' l : Forall (fun m => origin m = o') l -> o' ≠ o -> from o l = [].
Proof.
  unfold from. intros Hl Hne. induction Hl as [|m l Hm _ IH]; [done|].
  rewrite filter_cons_False; [done|]. congruence.
Qed.

Lemma about_from o col l : about o col l = about o col (from o l).
Proof.
  unfold about, from. induction l as [|m l IH]; [done|].
  destruct (decide (origin m = o)) as [Ho|Ho].
  - rewrite (filter_cons_True (fun m => origin m = o)) by done.
    destruct (decide (subject m = Some col)) as [Hs|Hs].
    + rewrite !filter_cons_True by done. by f_equal.
    + rewrite !filter_cons_False by (by intros [_ ?]). done.
  - rewrite (filter_cons_False (fun m => origin m = o)) by done.
    rewrite filter_cons_False by (by intros [? _]). done.
Qed.

Lemma index_errors_origin data : Forall (fun m => origin m = FromIndex) (index_errors data).
Proof.
  unfold index_errors. apply Forall_app. split.
  - destruct (decide _); repeat constructor.
  - destruct (index data) as [ds|rows|tz ds]; [|repeat constructor|].
    all: apply Forall_app; split;
      [destruct (has_duplicates ds)|destruct (is_monotonic_increasing ds)];
      repeat constructor.
Qed.

Lemma presence_errors_origin env data req :
  Forall (fun m => origin m = FromRequiredPresence) (presence_errors env data req).
Proof. unfold presence_errors. destruct (sorted_missing _ _ _); repeat constructor. Qed.

Lemma presence_warnings_origin env data opt :
  Forall (fun m => origin m = FromOptionalPresence) (presence_warnings env data opt).
Proof.
  unfold presence_warnings. induction (sorted_missing _ _ _); simpl; constructor; done.
Qed.

Lemma required_errors_origin data cols :
  Forall (fun m => origin m = FromRequiredColumn) (flat_map (required_errors data) cols).
Proof.
  apply Forall_flat_map. intros col. unfold required_errors.
  destruct (dict_get _ _) as [s|]; [|constructor].
  destruct (has_no_data s), (decide _); repeat constructor.
Qed.

Lemma required_warnings_origin data cols :
  Forall (fun m => origin m = FromRequiredColumn) (flat_map (required_warnings data) cols).
Proof.
  apply Forall_flat_map. intros col. unfold required_warnings.
  destruct (dict_get _ _) as [s|]; [|constructor].
  destruct (dtype s); repeat constructor.
Qed.

Lemma impossible_warnings_origin data rules :
  Forall (fun m => origin m = FromSignRule) (flat_map (impossible_warnings data) rules).
Proof.
  apply Forall_flat_map. intros [col rule]. unfold impossible_warnings; simpl.
  destruct (dict_get _ _) as [s|]; [|constructor].
  destruct (0 <? _); repeat constructor.
Qed.

Lemma outlier_warnings_origin kind warn o data cols :
  (forall col n, origin (warn col n) = o) ->
  Forall (fun m => origin m = o) (flat_map (outlier_warnings kind warn data) cols).
Proof.
  intros Hwarn. apply Forall_flat_map. intros col. unfold outlier_warnings.
  destruct (dict_get _ _) as [s|]; [|constructor].
  destruct (0 <? _); repeat constructor. apply Hwarn.
Qed.

Lemma market_warnings_origin data cols :
  Forall (fun m => origin m = FromMarketOutliers)
    (flat_map (outlier_warnings "pct_change" MarketOutlier data) cols).
Proof. by apply outlier_warnings_origin. Qed.

Lemma fred_warnings_origin data cols :
  Forall (fun m => origin m = FromFredOutliers)
    (flat_map (outlier_warnings "abs_change" FredOutlier data) cols).
Proof. by apply outlier_warnings_origin. Qed.

Lemma stale_warnings_origin now (items : list (string * PyVal F)) :
  Forall (fun m => origin m = FromStaleness) (flat_map (stale_warnings now) items).
Proof.
  apply Forall_flat_map. intros item. unfold stale_warnings.
  destruct (stale_finding now item) as [[[? ?] ?]|]; repeat constructor.
Qed.

Lemma summary_errors_from_presence env data req opt mkt fred v :
  from FromRequiredPresence (errors (summary_report env data req opt mkt fred v)) =
    presence_errors env data req.
Proof.
  unfold summary_report. cbn [errors]. rewrite !from_app.
  rewrite (from_other _ _ _ (index_errors_origin data)) by done.
  rewrite (from_other _ _ _ (required_errors_origin data req)) by done.
  rewrite (from_same _ _ (presence_errors_origin env data req)).
  by rewrite app_nil_r.
Qed.

Lemma summary_errors_origin env data req opt mkt fred v :
  Forall (fun m => origin m = FromIndex \/ origin m = FromRequiredPresence
                   \/ origin m = FromRequiredColumn)
    (errors (summary_report env data req opt mkt fred v)).
Proof.
  unfold summary_report. cbn [errors]. rewrite !Forall_app. split; [|split].
  - eapply Forall_impl; [apply index_errors_origin|]. simpl. auto.
  - eapply Forall_impl; [apply presence_errors_origin|]. simpl. auto.
  - eapply Forall_impl; [apply required_errors_origin|]. simpl. auto.
Qed.

Lemma from_none o l : Forall (fun m => origin m ≠ o) l -> from o l = [].
Proof.
  unfold from. induction 1 as [|m l Hm _ IH]; [done|].
  by rewrite filter_cons_False.
Qed.

Lemma summary_errors_no_sign env data req opt mkt fred v :
  from FromSignRule (errors (summary_report env data req opt mkt fred v)) = [].
Proof.
  apply from_none. eapply Forall_impl; [apply summary_errors_origin|].
  simpl. intros m [->|[->| ->]]; done.
Qed.

Lemma summary_warnings_from_sign env data req opt mkt fred v :
  from FromSignRule (warnings (summary_report env data req opt mkt fred v)) =
    flat_map (impossible_warnings data) (impossible_rules data).
Proof.
  unfold summary_report. cbn [warnings]. rewrite !from_app.
  rewrite (from_other _ _ _ (presence_warnings_origin env data opt)) by done.
  rewrite (from_other _ _ _ (required_warnings_origin data req)) by done.
  rewrite (from_same _ _ (impossible_warnings_origin data _)).
  rewrite (from_other _ _ _ (market_warnings_origin data mkt)) by done.
  rewrite (from_other _ _ _ (fred_warnings_origin data fred)) by done.
  rewrite (from_other _ _ _ (stale_warnings_origin _ _)) by done.
  by rewrite !app_nil_r.
Qed.

Lemma summary_warnings_from_staleness env data req opt mkt fred v :
  from FromStaleness (warnings (summary_report env data req opt mkt fred v)) =
    flat_map (stale_warnings (today env)) (v_latest v).
Proof.
  unfold summary_report. cbn [warnings]. rewrite !from_app.
  rewrite (from_other _ _ _ (presence_warnings_origin env data opt)) by done.
  rewrite (from_other _ _ _ (required_warnings_origin data req)) by done.
  rewrite (from_other _ _ _ (impossible_warnings_origin data _)) by done.
  rewrite (from_other _ _ _ (market_warnings_origin data mkt)) by done.
  rewrite (from_other _ _ _ (fred_warnings_origin data fred)) by done.
  rewrite (from_same _ _ (stale_warnings_origin _ _)).
  done.
Qed.

Lemma summary_warnings_from_market env data req opt mkt fred v :
  from FromMarketOutliers (warnings (summary_report env data req opt mkt fred v)) =
    flat_map (outlier_warnings "pct_change" MarketOutlier data) mkt.
Proof.
  unfold summary_report. cbn [warnings]. rewrite !from_app.
  rewrite (from_other _ _ _ (presence_warnings_origin env data opt)) by done.
  rewrite (from_other _ _ _ (required_warnings_origin data req)) by done.
  rewrite (from_other _ _ _ (impossible_warnings_origin data _)) by done.
  rewrite (from_same _ _ (market_warnings_origin data mkt)).
  rewrite (from_other _ _ _ (fred_warnings_origin data fred)) by done.
  rewrite (from_other _ _ _ (stale_warnings_origin _ _)) by done.
  by rewrite !app_nil_r.
Qed.

Lemma summary_warnings_from_fred env data req opt mkt fred v :
  from FromFredOutliers (warnings (summary_report env data req opt mkt fred v)) =
    flat_map (outlier_warnings "abs_change" FredOutlier data) fred.
Proof.
  unfold summary_report. cbn [warnings]. rewrite !from_app.
  rewrite (from_other _ _ _ (presence_warnings_origin env data opt)) by done.
  rewrite (from_other _ _ _ (required_warnings_origin data req)) by done.
  rewrite (from_other _ _ _ (impossible_warnings_origin data _)) by done.
  rewrite (from_other _ _ _ (market_warnings_origin data mkt)) by done.
  rewrite (from_same _ _ (fred_warnings_origin data fred)).
  rewrite (from_other _ _ _ (stale_warnings_origin _ _)) by done.
  by rewrite !app_nil_r.
Qed.

End Origins.

(** ** The loop over the required columns *)

Section RequiredLoop.
Context {F : Type} `{Float F}.
Implicit Types (v : @View F) (data : DataFrame F).

Lemma required_view_returns data v col :
  returns (required_view data v col) = column_computable data col.
Proof.
  unfold required_view, column_computable.
  destruct (dict_get (columns data) col) as [series|]; [|done].
  by destruct (column_metrics data series) as [[[? ?] ?]|].
Qed.

Lemma required_loop_returns data cols v :
  returns (for_each (required_view data) cols v) = forallb (column_computable data) cols.
Proof.
  revert v. induction cols as [|col cols IH]; intros v; simpl; [done|].
  rewrite <- required_view_returns with (v := v).
  destruct (required_view data v col) as [v'|]; simpl; [apply IH|done].
Qed.

Lemma column_metrics_date_index data series ds :
  index data = DatetimeIndex ds -> ds ≠ [] -> NoDup ds ->
  returns (column_metrics data series) = true.
Proof.
  intros Hi Hne Hnd. unfold column_metrics, business_calendar, reindex, latest_observed.
  rewrite Hi. destruct ds as [|d ds]; [done|]. simpl.
  unfold has_duplicates. rewrite bool_decide_eq_false_2 by (by intros Hdup). simpl.
  by destruct (list_max _).
Qed.

Lemma required_view_step data v col v' :
  required_view data v col = Ok v' ->
  match dict_get (columns data) col with
  | None => v' = v
  | Some series =>
      exists m, column_metrics data series = Ok m /\
        v' = mkView (v_rows v) (v_cols v) (dict_set (v_missing_pct v) col m.1.1)
               (dict_set (v_gap v) col m.1.2) (dict_set (v_latest v) col m.2)
               (v_outliers v) (v_stale v)
  end.
Proof.
  unfold required_view. destruct (dict_get (columns data) col) as [series|].
  - destruct (column_metrics data series) as [[[pct gap] latest]|]; [simpl|done].
    intros [= <-]. by exists (pct, gap, latest).
  - by intros [= <-].
Qed.

(** The loop leaves alone what it does not assign. *)
Lemma required_loop_frame data cols v v' :
  for_each (required_view data) cols v = Ok v' ->
  v_rows v' = v_rows v /\ v_cols v' = v_cols v /\
  v_outliers v' = v_outliers v /\ v_stale v' = v_stale v.
Proof.
  revert v. induction cols as [|col cols IH]; intros v; simpl.
  - by intros [= <-].
  - destruct (required_view data v col) as [v1|] eqn:Hstep; [simpl|done].
    intros Hloop. apply IH in Hloop as (-> & -> & -> & ->).
    apply required_view_step in Hstep.
    destruct (dict_get (columns data) col) as [series|]; [|by subst].
    by destruct Hstep as (m & _ & ->).
Qed.

Lemma required_loop_latest_NoDup data cols v v' :
  for_each (required_view data) cols v = Ok v' ->
  NoDup (dict_keys (v_latest v)) -> NoDup (dict_keys (v_latest v')).
Proof.
  revert v. induction cols as [|col cols IH]; intros v; simpl.
  - by intros [= <-].
  - destruct (required_view data v col) as [v1|] eqn:Hstep; [simpl|done].
    intros Hloop Hnd. eapply IH; [done|].
    apply required_view_step in Hstep.
    destruct (dict_get (columns data) col) as [series|]; [|by subst].
    destruct Hstep as (m & _ & ->). simpl. by apply dict_set_NoDup.
Qed.

Lemma required_loop_keeps data cols v v' col series m :
  for_each (required_view data) cols v = Ok v' ->
  dict_get (columns data) col = Some series ->
  column_metrics data series = Ok m ->
  recorded v col m -> recorded v' col m.
Proof.
  intros Hloop Hcol Hm. revert v Hloop.
  induction cols as [|c cols IH]; intros v; simpl.
  - by intros [= <-].
  - destruct (required_view data v c) as [v1|] eqn:Hstep; [simpl|done].
    intros Hloop Hrec. apply (IH v1 Hloop).
    apply required_view_step in Hstep. destruct (decide (c = col)) as [->|Hne].
    + rewrite Hcol in Hstep. destruct Hstep as (m' & Hm' & ->).
      rewrite Hm in Hm'. simplify_eq. unfold recorded; simpl.
      by rewrite !dict_get_set_eq.
    + destruct (dict_get (columns data) c) as [s|]; [|by subst].
      destruct Hstep as (m' & _ & ->). unfold recorded in *; simpl.
      by rewrite !dict_get_set_ne.
Qed.

(** After the loop each required column that is present has its three
    metrics on record. *)
Lemma required_loop_records data cols v v' col series :
  for_each (required_view data) cols v = Ok v' ->
  col ∈ cols -> dict_get (columns data) col = Some series ->
  exists m, column_metrics data series = Ok m /\ recorded v' col m.
Proof.
  intros Hloop Hin Hcol. revert v Hloop.
  induction cols as [|c cols IH]; intros v; simpl.
  - by apply elem_of_nil in Hin.
  - destruct (required_view data v c) as [v1|] eqn:Hstep; [simpl|done].
    intros Hloop. destruct (decide (c = col)) as [->|Hne].
    + apply required_view_step in Hstep. rewrite Hcol in Hstep.
      destruct Hstep as (m & Hm & ->). exists m. split; [done|].
      eapply required_loop_keeps; [done..|].
      unfold recorded; simpl. by rewrite !dict_get_set_eq.
    + apply elem_of_cons in Hin as [->|Hin]; [done|]. by apply (IH Hin v1).
Qed.

(** A column has a latest date on record only if the loop met it. *)
Lemma required_loop_latest_keys data cols v v' col :
  for_each (required_view data) cols v = Ok v' ->
  col ∈ dict_keys (v_latest v') ->
  col ∈ dict_keys (v_latest v) \/ (col ∈ cols /\ is_Some (dict_get (columns data) col)).
Proof.
  revert v. induction cols as [|c cols IH]; intros v; simpl.
  - intros [= <-]. by left.
  - destruct (required_view data v c) as [v1|] eqn:Hstep; [simpl|done].
    intros Hloop Hin. destruct (IH _ Hloop Hin) as [Hv1|[Hc Hs]].
    + apply required_view_step in Hstep.
      destruct (dict_get (columns data) c) as [s|] eqn:Hcs; [|subst; by left].
      destruct Hstep as (m & _ & ->). simpl in Hv1. rewrite dict_keys_set in Hv1.
      destruct (decide (c ∈ dict_keys (v_latest v))); [by left|].
      apply elem_of_app in Hv1 as [?|Hv1]; [by left|].
      apply elem_of_cons in Hv1 as [->|Hv1]; [|by apply elem_of_nil in Hv1].
      right. split; [apply list_elem_of_here|]. by rewrite Hcs.
    + right. split; [by apply list_elem_of_further|done].
Qed.

End RequiredLoop.

(** ** The calendar and the longest run of nulls *)

Lemma StronglySorted_filter {A} (R : relation A) (P : A -> Prop) `{!forall x, Decision (P x)}
    (l : list A) :
  StronglySorted R l -> StronglySorted R (filter P l).
Proof.
  induction 1 as [|x l Hl IH Hx]; [constructor|].
  destruct (decide (P x)).
  - rewrite filter_cons_True by done. constructor; [done|].
    apply Forall_forall. intros y [_ Hy]%list_elem_of_filter.
    by eapply Forall_forall in Hx.
  - by rewrite filter_cons_False.
Qed.

Lemma StronglySorted_seqZ (m n : Z) : StronglySorted Z.lt (seqZ m n).
Proof.
  destruct (decide (n <= 0)) as [Hn|Hn]; [rewrite seqZ_nil by done; constructor|].
  rewrite <- (Z2Nat.id n) by lia. generalize (Z.to_nat n) as k. clear. intros k.
  revert m. induction k as [|k IH]; intros m.
  - rewrite seqZ_nil by lia. constructor.
  - rewrite seqZ_cons by lia. replace (Z.pred (Z.of_nat (S k))) with (Z.of_nat k) by lia.
    constructor; [apply IH|].
    apply Forall_forall. intros d Hd%elem_of_seqZ. lia.
Qed.

Lemma bdate_range_spec (lo hi : Z) : business_days_between lo hi (bdate_range lo hi).
Proof.
  unfold business_days_between, bdate_range. split.
  - apply StronglySorted_filter, StronglySorted_seqZ.
  - intros d. rewrite list_elem_of_filter, elem_of_seqZ.
    unfold is_business_day, weekday. rewrite Z.ltb_lt.
    pose proof (Z.mod_pos_bound (d + 3) 7 ltac:(lia)). lia.
Qed.

Lemma list_min_spec (l : list Z) (lo : Z) :
  list_min l = Some lo -> lo ∈ l /\ forall d, d ∈ l -> lo <= d.
Proof.
  destruct l as [|x l]; [done|]. simpl. intros [= <-].
  induction l as [|y l IH]; simpl.
  - split; [apply list_elem_of_here|]. intros d Hd.
    apply elem_of_cons in Hd as [->|Hd]; [lia|by apply elem_of_nil in Hd].
  - destruct IH as [Hin Hle]. split.
    + destruct (Z.min_spec y (foldr Z.min x l)) as [[_ ->]|[_ ->]].
      * apply list_elem_of_further, list_elem_of_here.
      * apply elem_of_cons in Hin as [->|Hin]; [apply list_elem_of_here|].
        by do 2 apply list_elem_of_further.
    + intros d Hd. apply elem_of_cons in Hd as [->|Hd].
      * specialize (Hle x (list_elem_of_here _ _)). lia.
      * apply elem_of_cons in Hd as [->|Hd]; [lia|].
        specialize (Hle d (list_elem_of_further _ _ _ Hd)). lia.
Qed.

Lemma list_max_spec (l : list Z) (hi : Z) :
  list_max l = Some hi -> hi ∈ l /\ forall d, d ∈ l -> d <= hi.
Proof.
  destruct l as [|x l]; [done|]. simpl. intros [= <-].
  induction l as [|y l IH]; simpl.
  - split; [apply list_elem_of_here|]. intros d Hd.
    apply elem_of_cons in Hd as [->|Hd]; [lia|by apply elem_of_nil in Hd].
  - destruct IH as [Hin Hle]. split.
    + destruct (Z.max_spec y (foldr Z.max x l)) as [[_ ->]|[_ ->]].
      * apply elem_of_cons in Hin as [->|Hin]; [apply list_elem_of_here|].
        by do 2 apply list_elem_of_further.
      * apply list_elem_of_further, list_elem_of_here.
    + intros d Hd. apply elem_of_cons in Hd as [->|Hd].
      * specialize (Hle x (list_elem_of_here _ _)). lia.
      * apply elem_of_cons in Hd as [->|Hd]; [lia|].
        specialize (Hle d (list_elem_of_further _ _ _ Hd)). lia.
Qed.

Lemma true_run_bound (p : list bool) (i k : nat) :
  true_run p i k -> (0 < k)%nat -> (i + k <= length p)%nat.
Proof.
  intros Hrun Hk. specialize (Hrun (i + k - 1)%nat ltac:(lia)).
  apply lookup_lt_Some in Hrun. lia.
Qed.

Lemma true_run_snoc_old (p : list bool) (b : bool) (i k : nat) :
  (i + k <= length p)%nat -> true_run (p ++ [b]) i k <-> true_run p i k.
Proof.
  intros Hik. unfold true_run. split; intros Hrun j Hj.
  - specialize (Hrun j Hj). by rewrite lookup_app_l in Hrun by lia.
  - rewrite lookup_app_l by lia. by apply Hrun.
Qed.

Lemma gap_invariant_step (p : list bool) (acc : Z * Z) (b : bool) :
  gap_invariant p acc -> gap_invariant (p ++ [b]) (gap_step acc b).
Proof.
  intros (mn & cn & -> & Hcm & Hend & Hcl & Hlast & [i0 Hex] & Hmax).
  unfold gap_step. destruct b.
  - exists (Nat.max mn (cn + 1)), (cn + 1)%nat.
    rewrite length_app; simpl. split_and!.
    + f_equal; lia.
    + lia.
    + intros j Hj. destruct (decide (j = length p)) as [->|Hne].
      * by rewrite list_lookup_middle.
      * rewrite lookup_app_l by lia. apply Hend. lia.
    + lia.
    + intros i k Hrun Hik. destruct k as [|k]; [lia|].
      assert (true_run p i k) as Hp.
      { intros j Hj. specialize (Hrun j ltac:(lia)).
        by rewrite lookup_app_l in Hrun by lia. }
      specialize (Hlast i k Hp ltac:(lia)). lia.
    + destruct (decide (mn <= cn)%nat).
      * exists (length p - cn)%nat. replace (Nat.max mn (cn + 1)) with (cn + 1)%nat by lia.
        intros j Hj. destruct (decide (j = length p)) as [->|Hne].
        -- by rewrite list_lookup_middle.
        -- rewrite lookup_app_l by lia. apply Hend. lia.
      * exists i0. replace (Nat.max mn (cn + 1)) with mn by lia.
        destruct (decide (mn = 0)%nat) as [->|Hmn]; [intros j Hj; lia|].
        apply true_run_snoc_old; [|done].
        apply true_run_bound; [done|lia].
    + intros i k Hrun. destruct (decide (k = 0)%nat) as [->|Hk]; [lia|].
      pose proof (true_run_bound _ _ _ Hrun ltac:(lia)) as Hb.
      rewrite length_app in Hb; simpl in Hb.
      destruct (decide (i + k <= length p)%nat) as [Hold|Hnew].
      * apply true_run_snoc_old in Hrun; [|done]. specialize (Hmax _ _ Hrun). lia.
      * destruct k as [|k]; [lia|].
        assert (true_run p i k) as Hp.
        { intros j Hj. specialize (Hrun j ltac:(lia)).
          by rewrite lookup_app_l in Hrun by lia. }
        specialize (Hlast i k Hp ltac:(lia)). lia.
  - exists mn, 0%nat. rewrite length_app; simpl. split_and!.
    + done.
    + lia.
    + intros j Hj. lia.
    + lia.
    + intros i k Hrun Hik. destruct k as [|k]; [lia|].
      specialize (Hrun (length p) ltac:(lia)).
      by rewrite list_lookup_middle in Hrun.
    + exists i0. destruct (decide (mn = 0)%nat) as [->|Hmn]; [intros j Hj; lia|].
      apply true_run_snoc_old; [|done]. apply true_run_bound; [done|lia].
    + intros i k Hrun. destruct (decide (k = 0)%nat) as [->|Hk]; [lia|].
      pose proof (true_run_bound _ _ _ Hrun ltac:(lia)) as Hb.
      rewrite length_app in Hb; simpl in Hb.
      destruct (decide (i + k <= length p)%nat) as [Hold|Hnew].
      * apply true_run_snoc_old in Hrun; [|done]. by apply Hmax in Hrun.
      * specialize (Hrun (length p) ltac:(lia)).
        by rewrite list_lookup_middle in Hrun.
Qed.

Lemma gap_invariant_fold (bs : list bool) :
  gap_invariant bs (fold_left gap_step bs (0, 0)).
Proof.
  induction bs as [|b bs IH] using rev_ind.
  - exists 0%nat, 0%nat. simpl. split_and!; try lia; try done.
    + intros j Hj; lia.
    + exists 0%nat. intros j Hj; lia.
    + intros i k Hrun. destruct k as [|k]; [lia|].
      specialize (Hrun i ltac:(lia)). done.
  - rewrite fold_left_app. simpl. by apply gap_invariant_step.
Qed.

Section Gap.
Context {F : Type} `{Float F}.

Lemma null_run_true_run (l : list (Cell F)) (i n : nat) :
  null_run l i n <-> true_run (map cell_isna l) i n.
Proof.
  unfold null_run, true_run. change (map cell_isna l) with (cell_isna <$> l).
  split; intros Hrun j Hj; specialize (Hrun j Hj).
  - destruct Hrun as (c & Hc & Hna). by rewrite list_lookup_fmap, Hc; simpl; rewrite Hna.
  - rewrite list_lookup_fmap in Hrun. destruct (l !! j) as [c|]; [|done].
    simpl in Hrun. exists c. split; [done|]. congruence.
Qed.

(** The loop of [_largest_consecutive_missing_business_days] finds the
    longest run of nulls. *)
Lemma largest_gap_spec (series : list (Cell F)) :
  longest_null_run series (_largest_consecutive_missing_business_days series).
Proof.
  assert (Hfold : longest_null_run series
            (fold_left gap_step (map cell_isna series) (0, 0)).1).
  { destruct (gap_invariant_fold (map cell_isna series))
      as (mn & cn & -> & _ & _ & _ & _ & [i Hex] & Hmax).
    exists mn. split; [done|]. split.
    - exists i. by apply null_run_true_run.
    - intros j k Hrun. apply (Hmax j). by apply null_run_true_run. }
  unfold _largest_consecutive_missing_business_days. destruct series as [|c series].
  - exact Hfold.
  - exact Hfold.
Qed.

Lemma largest_gap_empty : _largest_consecutive_missing_business_days (@nil (Cell F)) = 0.
Proof. reflexivity. Qed.

Lemma loc_spec (ds : list Z) (cs : list (Cell F)) (d : Z) :
  NoDup ds ->
  row_of ds cs d (loc ds cs d) \/
  ((forall c', ~ row_of ds cs d c') /\ loc ds cs d = CNum nan).
Proof.
  intros Hnd. revert cs. induction Hnd as [|x ds Hx Hnd IH]; intros cs.
  - right. split; [|done]. intros c' (j & Hj & _). done.
  - destruct cs as [|c cs].
    + right. split; [|done]. intros c' (j & _ & Hj). done.
    + simpl. destruct (decide (x = d)) as [->|Hne].
      * left. by exists 0%nat.
      * destruct (IH cs) as [(j & Hj & Hc)|[Hno Hnan]].
        -- left. by exists (S j).
        -- right. split; [|done]. intros c' ([|j] & Hj & Hc); simplify_eq/=.
           apply (Hno c'). by exists j.
Qed.

Lemma reindex_spec (ds : list Z) (cs : list (Cell F)) (calendar : list Z) :
  NoDup ds -> reindexed_onto ds cs calendar (map (loc ds cs) calendar).
Proof.
  intros Hnd. split; [by rewrite length_map|].
  intros i d c Hd. change (map (loc ds cs) calendar) with (loc ds cs <$> calendar).
  rewrite list_lookup_fmap, Hd. simpl. intros [= <-]. by apply loc_spec.
Qed.

End Gap.

(** ** The two forms of an index of UTC midnights

    An index in UTC whose labels are midnights can be given by its days
    ([DatetimeIndex]) or by its timestamps ([TimestampIndex tz_utc]);
    [validate_dataset] does not tell the two apart. *)

Lemma ns_per_day_pos : 0 < ns_per_day.
Proof. reflexivity. Qed.

Lemma day_of_midnight (d : Z) : day_of (midnight d) = d.
Proof. unfold day_of, midnight. apply Z.div_mul. discriminate. Qed.

Lemma midnight_mod (d : Z) : midnight d mod ns_per_day = 0.
Proof. unfold midnight. apply Z.mod_mul. discriminate. Qed.

Lemma midnight_add (d k : Z) : midnight d + k * ns_per_day = midnight (d + k).
Proof. unfold midnight. lia. Qed.

Lemma midnight_sub (d k : Z) : midnight d - k * ns_per_day = midnight (d - k).
Proof. unfold midnight. lia. Qed.

Lemma midnight_le (a b : Z) : midnight a <= midnight b <-> a <= b.
Proof. unfold midnight. pose proof ns_per_day_pos. nia. Qed.

#[global] Instance midnight_inj : Inj (=) (=) midnight.
Proof. intros a b Hab. unfold midnight in Hab. pose proof ns_per_day_pos. nia. Qed.

Lemma weekday_range (d : Z) : 0 <= weekday d < 7.
Proof. unfold weekday. apply Z.mod_pos_bound. done. Qed.

Lemma weekday_succ (d : Z) :
  weekday (d + 1) = if weekday d =? 6 then 0 else weekday d + 1.
Proof.
  unfold weekday. destruct (Z.eqb_spec ((d + 3) mod 7) 6) as [He|He];
    Z.div_mod_to_equations; lia.
Qed.

Lemma sorted_lt_ext (l k : list Z) :
  StronglySorted Z.lt l -> StronglySorted Z.lt k ->
  (forall x, x ∈ l <-> x ∈ k) -> l = k.
Proof.
  revert k. induction l as [|x l IH]; intros k Hl Hk Hin.
  - destruct k as [|y k]; [done|].
    assert (y ∈ @nil Z) as Hy by (apply Hin; left). by apply elem_of_nil in Hy.
  - destruct k as [|y k].
    { assert (x ∈ @nil Z) as Hx by (apply Hin; left). by apply elem_of_nil in Hx. }
    apply StronglySorted_inv in Hl as [Hl Hxl]. apply StronglySorted_inv in Hk as [Hk Hyk].
    rewrite Forall_forall in Hxl, Hyk.
    assert (x = y) as ->.
    { assert (x ∈ y :: k) as Hx by (apply Hin; left).
      assert (y ∈ x :: l) as Hy by (apply Hin; left).
      apply elem_of_cons in Hx as [Hx|Hx]; [done|].
      apply elem_of_cons in Hy as [Hy|Hy]; [done|].
      specialize (Hxl _ Hy). specialize (Hyk _ Hx). lia. }
    f_equal. apply IH; [done..|]. intros z. split; intros Hz.
    + assert (z ∈ y :: k) as Hz' by (apply Hin; by right).
      apply elem_of_cons in Hz' as [-> | Hz']; [|done]. specialize (Hxl _ Hz). lia.
    + assert (z ∈ y :: l) as Hz' by (apply Hin; by right).
      apply elem_of_cons in Hz' as [-> | Hz']; [|done]. specialize (Hyk _ Hz). lia.
Qed.

Lemma filter_all {A} (P : A -> Prop) `{!forall x, Decision (P x)} (l : list A) :
  Forall P l -> filter P l = l.
Proof.
  induction 1 as [|x l Hx _ IH]; [done|]. rewrite filter_cons_True by done. by rewrite IH.
Qed.

Lemma bdate_range_ext (a b lo hi : Z) :
  (forall d, weekday d < 5 -> a <= d <= b <-> lo <= d <= hi) ->
  bdate_range a b = bdate_range lo hi.
Proof.
  intros Hext. destruct (bdate_range_spec a b) as [Hs1 Hin1].
  destruct (bdate_range_spec lo hi) as [Hs2 Hin2].
  apply sorted_lt_ext; [done..|]. intros d. rewrite Hin1, Hin2.
  split; intros [Hd Hw]; (split; [apply Hext; [lia|done]|done]).
Qed.

Lemma bstamp_range_midnight (lo hi : Z) :
  bstamp_range (midnight lo) (midnight hi) = map midnight (bdate_range lo hi).
Proof.
  unfold bstamp_range, roll_forward, roll_back, is_business_day.
  rewrite !day_of_midnight, midnight_mod.
  pose proof (weekday_range lo) as Hwlo. pose proof (weekday_range hi) as Hwhi.
  pose proof (weekday_succ lo) as Hs1. pose proof (weekday_succ (lo + 1)) as Hs2.
  pose proof (weekday_succ (hi - 1)) as Hp1. pose proof (weekday_succ (hi - 2)) as Hp2.
  replace (hi - 1 + 1) with hi in Hp1 by lia.
  replace (hi - 2 + 1) with (hi - 1) in Hp2 by lia.
  assert (forall a b stop, midnight b <= stop ->
            filter (fun s => s <= stop) (map (fun d => midnight d + 0) (bdate_range a b))
            = map midnight (bdate_range a b)) as Hkeep.
  { intros a b stop Hstop. destruct (bdate_range_spec a b) as [_ Hin].
    rewrite (map_ext (fun d => midnight d + 0) midnight) by (intros; lia).
    apply filter_all. apply Forall_forall. intros s Hs. change (map midnight ?l) with (midnight <$> l) in Hs.
    apply list_elem_of_fmap in Hs as (d & -> & Hd). apply Hin in Hd.
    assert (midnight d <= midnight b) by (apply midnight_le; lia). lia. }
  destruct (weekday lo <? 5) eqn:Hlo.
  - apply Z.ltb_lt in Hlo. destruct (weekday hi <? 5) eqn:Hhi.
    + rewrite !day_of_midnight. apply Hkeep. reflexivity.
    + apply Z.ltb_ge in Hhi. rewrite midnight_sub, !day_of_midnight.
      rewrite Hkeep by reflexivity. f_equal. apply bdate_range_ext. intros d Hd.
      assert (weekday hi = 5 \/ weekday hi = 6) as [Hw|Hw] by lia.
      * rewrite Hw in *. destruct (Z.eqb_spec (weekday (hi - 1)) 6); [lia|].
        split; [lia|]. intros [? ?]. assert (d ≠ hi) by (intros ->; lia). lia.
      * rewrite Hw in *. destruct (Z.eqb_spec (weekday (hi - 1)) 6) as [|Hne]; [lia|].
        destruct (Z.eqb_spec (weekday (hi - 2)) 6); [lia|].
        split; [lia|]. intros [? ?].
        assert (d ≠ hi) by (intros ->; lia). assert (d ≠ hi - 1) by (intros ->; lia). lia.
  - apply Z.ltb_ge in Hlo. rewrite midnight_add, !day_of_midnight.
    rewrite Hkeep by reflexivity. f_equal. apply bdate_range_ext. intros d Hd.
    assert (weekday lo = 5 \/ weekday lo = 6) as [Hw|Hw] by lia.
    + rewrite Hw in *. simpl in Hs1. rewrite Hs1 in Hs2. simpl in Hs2.
      split; [lia|]. intros [? ?].
      assert (d ≠ lo) by (intros ->; lia). assert (d ≠ lo + 1) by (intros ->; lia). lia.
    + rewrite Hw in *. split; [lia|]. intros [? ?].
      assert (d ≠ lo) by (intros ->; lia). lia.
Qed.

Lemma utc_dates_index_dates (i : Index) (ds : list Z) :
  utc_dates i ds -> index_dates i = ds.
Proof.
  intros [->| ->]; [done|]. simpl. rewrite map_map.
  rewrite (map_ext _ id); [apply map_id|]. intros d. apply day_of_midnight.
Qed.

Lemma foldr_min_midnight (x : Z) (l : list Z) :
  foldr Z.min (midnight x) (map midnight l) = midnight (foldr Z.min x l).
Proof.
  induction l as [|y l IH]; [done|]. simpl. rewrite IH.
  destruct (Z.min_spec y (foldr Z.min x l)) as [[Hlt ->]|[Hle ->]].
  - apply Z.min_l. apply midnight_le. lia.
  - apply Z.min_r. by apply midnight_le.
Qed.

Lemma foldr_max_midnight (x : Z) (l : list Z) :
  foldr Z.max (midnight x) (map midnight l) = midnight (foldr Z.max x l).
Proof.
  induction l as [|y l IH]; [done|]. simpl. rewrite IH.
  destruct (Z.max_spec y (foldr Z.max x l)) as [[Hlt ->]|[Hle ->]].
  - apply Z.max_r. apply midnight_le. lia.
  - apply Z.max_l. by apply midnight_le.
Qed.

Lemma list_min_midnight (l : list Z) : list_min (map midnight l) = midnight <$> list_min l.
Proof. destruct l as [|x l]; [done|]. simpl. by rewrite foldr_min_midnight. Qed.

Lemma list_max_midnight (l : list Z) : list_max (map midnight l) = midnight <$> list_max l.
Proof. destruct l as [|x l]; [done|]. simpl. by rewrite foldr_max_midnight. Qed.

Lemma has_duplicates_midnight (l : list Z) :
  has_duplicates (map midnight l) = has_duplicates l.
Proof.
  unfold has_duplicates. apply bool_decide_ext.
  change (map midnight l) with (midnight <$> l). by rewrite (NoDup_fmap midnight).
Qed.

Lemma is_monotonic_midnight (l : list Z) :
  is_monotonic_increasing (map midnight l) = is_monotonic_increasing l.
Proof.
  induction l as [|x [|y l] IH]; [done..|].
  change (is_monotonic_increasing (map midnight (x :: y :: l)))
    with ((midnight x <=? midnight y) && is_monotonic_increasing (map midnight (y :: l))).
  change (is_monotonic_increasing (x :: y :: l))
    with ((x <=? y) && is_monotonic_increasing (y :: l)).
  rewrite IH. f_equal. destruct (Z.leb_spec x y) as [Hle|Hgt].
  - apply Z.leb_le. by apply midnight_le.
  - apply Z.leb_gt. pose proof (midnight_le x y). lia.
Qed.

Section Midnights.
Context {F : Type} `{Float F}.

Lemma loc_midnight (ds : list Z) (cs : list (Cell F)) (d : Z) :
  loc (map midnight ds) cs (midnight d) = loc ds cs d.
Proof.
  revert cs. induction ds as [|x ds IH]; intros [|c cs]; try done. simpl.
  destruct (decide (x = d)) as [->|Hne].
  - by rewrite decide_True.
  - rewrite decide_False; [apply IH|]. intros Heq. by apply midnight_inj in Heq.
Qed.

Lemma non_na_index_midnight (ds : list Z) (cs : list (Cell F)) :
  non_na_index (map midnight ds) cs = map midnight (non_na_index ds cs).
Proof.
  revert cs. induction ds as [|x ds IH]; intros [|c cs]; try done. simpl.
  destruct (cell_isna c); simpl; by rewrite IH.
Qed.

Lemma column_metrics_utc_midnights (data data' : DataFrame F) series ds :
  index data = TimestampIndex tz_utc (map midnight ds) ->
  index data' = DatetimeIndex ds ->
  column_metrics data series = column_metrics data' series.
Proof.
  intros Hi Hi'. unfold column_metrics, business_calendar, reindex, latest_observed.
  rewrite Hi, Hi'. cbn [index_labels]. rewrite list_min_midnight, list_max_midnight.
  destruct (list_min ds) as [lo|]; [|done]. destruct (list_max ds) as [hi|]; [|done].
  cbn [fmap option_fmap option_map mbind result_bind].
  rewrite bstamp_range_midnight, has_duplicates_midnight.
  destruct (has_duplicates ds); [done|]. cbn [mbind result_bind].
  rewrite map_map. rewrite (map_ext _ _ (loc_midnight ds (cells series))).
  rewrite non_na_index_midnight, list_max_midnight.
  destruct (list_max (non_na_index ds (cells series))) as [d|]; [|done].
  cbn [fmap option_fmap option_map mbind result_bind local_stamp].
  by rewrite day_of_midnight.
Qed.

Lemma for_each_ext {S A} (f g : S -> A -> result S) (l : list A) (st : S) :
  (forall st x, f st x = g st x) -> for_each f l st = for_each g l st.
Proof.
  intros Hfg. revert st. induction l as [|x l IH]; intros st; [done|]. simpl.
  rewrite Hfg. destruct (g st x); [apply IH|done].
Qed.

(** Given by its days or by its timestamps, a table on UTC midnights
    gets the same report. *)
Lemma validate_dataset_utc_midnights env name cols (ds : list Z) req opt mkt fred :
  validate_dataset env (mkDataFrame name (TimestampIndex tz_utc (map midnight ds)) cols)
    req opt mkt fred =
  validate_dataset env (mkDataFrame (F := F) name (DatetimeIndex ds) cols) req opt mkt fred.
Proof.
  rewrite !validate_dataset_summary.
  set (data := mkDataFrame name (TimestampIndex tz_utc (map midnight ds)) cols).
  set (data' := mkDataFrame name (DatetimeIndex ds) cols).
  assert (initial_view data = initial_view data') as ->.
  { unfold initial_view. simpl. by rewrite length_map. }
  rewrite (for_each_ext (required_view data) (required_view data')).
  - destruct (for_each _ _ _) as [v|]; [|done]. cbn [mbind result_bind]. f_equal.
    unfold summary_report, index_errors. cbn [index index_name data data'].
    by rewrite has_duplicates_midnight, is_monotonic_midnight.
  - intros v col. unfold required_view. cbn [columns data data'].
    destruct (dict_get cols col) as [series|]; [|done].
    by rewrite (column_metrics_utc_midnights data data' series ds).
Qed.

End Midnights.

(** ** The engine reads and does not write *)

Section Frame.
Context {F : Type} `{Float F}.

Lemma load_table (data : positive) (df : DataFrame F) (p : Process F) :
  p_tables p !! data = Some df -> load data p = (Ok df, p).
Proof. intros Hdf. unfold load. by rewrite Hdf. Qed.

Lemma run_bind_load {A} (data : positive) (df : DataFrame F) (k : DataFrame F -> Run A)
    (p : Process F) :
  p_tables p !! data = Some df -> run_bind (load data) k p = k df p.
Proof. intros Hdf. unfold run_bind. by rewrite (load_table data df p Hdf). Qed.

Lemma run_bind_environment {A} (k : Env -> Run A) (p : Process F) :
  run_bind environment k p = k (w_env (p_world p)) p.
Proof. reflexivity. Qed.

Lemma run_bind_lift {A B} (m : result A) (k : A -> Run B) (p : Process F) :
  run_bind (run_lift m) k p =
  match m with Ok a => k a p | Raise e => (Raise e, p) end.
Proof. unfold run_bind, run_lift. by destruct m. Qed.

(** A loop whose body leaves the process as it is, leaves it as it is. *)
Lemma run_for_each_pure {S A} (body : S -> A -> Run S) (f : S -> A -> result S)
    (l : list A) (st : S) (p : Process F) :
  (forall st x, body st x p = (f st x, p)) ->
  run_for_each body l st p = (for_each f l st, p).
Proof.
  intros Hbody. revert st. induction l as [|x l IH]; intros st; [done|].
  simpl. unfold run_bind. rewrite Hbody. destruct (f st x) as [st'|e]; [apply IH|done].
Qed.

Lemma for_each_total {S A} (f : S -> A -> S) (l : list A) (st : S) :
  for_each (fun st x => Ok (f st x)) l st = Ok (fold_left f l st).
Proof. revert st. induction l as [|x l IH]; intros st; [done|]. simpl. apply IH. Qed.

(** Called on a name that refers to [df], the engine computes the report
    of [df] under the clock and the hash seed of the process, and leaves
    the process as it found it. *)
Lemma validate_dataset_run_spec (data : positive) (df : DataFrame F) req opt mkt fred
    (p : Process F) :
  p_tables p !! data = Some df ->
  validate_dataset_run data req opt mkt fred p =
    (validate_dataset (w_env (p_world p)) df req opt mkt fred, p).
Proof.
  intros Hdf. unfold validate_dataset_run, validate_dataset, structural_checks.
  rewrite ?(run_bind_load data df _ p Hdf).
  rewrite run_bind_environment.
  rewrite ?(run_bind_load data df _ p Hdf).
  unfold run_bind at 1.
  rewrite (run_for_each_pure _ (check_required_column df)); cycle 1.
  { intros st col. by rewrite (run_bind_load data df _ p Hdf). }
  destruct (for_each (check_required_column df) req _) as [st1|e]; [|done].
  cbn [mbind result_bind].
  rewrite ?(run_bind_load data df _ p Hdf).
  unfold run_bind at 1.
  rewrite (run_for_each_pure _ (fun st entry => Ok (check_impossible df st entry))); cycle 1.
  { intros st entry. by rewrite (run_bind_load data df _ p Hdf). }
  rewrite for_each_total.
  unfold run_bind at 1.
  rewrite (run_for_each_pure _ (check_outliers "pct_change" MarketOutlier df)); cycle 1.
  { intros st col. by rewrite (run_bind_load data df _ p Hdf). }
  destruct (for_each (check_outliers "pct_change" MarketOutlier df) mkt _) as [st2|e]; [|done].
  cbn [mbind result_bind].
  unfold run_bind at 1.
  rewrite (run_for_each_pure _ (check_outliers "abs_change" FredOutlier df)); cycle 1.
  { intros st col. by rewrite (run_bind_load data df _ p Hdf). }
  destruct (for_each (check_outliers "abs_change" FredOutlier df) fred _) as [st3|e]; [|done].
  cbn [mbind result_bind].
  rewrite run_bind_environment.
  rewrite run_bind_lift. destruct (latest_date_items st3) as [items|e]; [|done].
  cbn [mbind result_bind].
  rewrite run_bind_lift. by destruct (for_each _ items st3).
Qed.

(** Called on a name that refers to no table, the engine raises at its
    first statement; the process is as it was. *)
Lemma validate_dataset_run_none (data : positive) req opt mkt fred (p : Process F) :
  p_tables p !! data = None ->
  exists e, validate_dataset_run data req opt mkt fred p = (Raise e, p).
Proof.
  intros Hdf. unfold validate_dataset_run, run_bind at 1, load. rewrite Hdf. by eexists.
Qed.

(** The report depends on the hash seed through no stage. *)
Lemma validate_dataset_env env1 env2 (df : DataFrame F) req opt mkt fred :
  today env1 = today env2 ->
  valid_set_iter (set_iter env1) -> valid_set_iter (set_iter env2) ->
  validate_dataset env1 df req opt mkt fred = validate_dataset env2 df req opt mkt fred.
Proof.
  intros Hnow H1 H2. rewrite !validate_dataset_summary.
  unfold summary_report, presence_errors, presence_warnings. rewrite Hnow.
  rewrite (sorted_missing_env _ _ req df H1 H2).
  by rewrite (sorted_missing_env _ _ opt df H1 H2).
Qed.

End Frame.

(** ** The validation engine *)

Section Engine.
Context {F : Type} `{Float F}.
Implicit Types (env : Env) (data : DataFrame F) (r : @ValidationReport F).

Lemma validate_dataset_Ok env data req opt mkt fred r :
  validate_dataset env data req opt mkt fred = Ok r ->
  exists v, for_each (required_view data) req (initial_view data) = Ok v /\
            r = summary_report env data req opt mkt fred v.
Proof.
  rewrite validate_dataset_summary.
  destruct (for_each _ _ _) as [v|]; [simpl|done]. intros [= <-]. by exists v.
Qed.

Lemma validate_dataset_returns env data req opt mkt fred :
  returns (validate_dataset env data req opt mkt fred) =
    forallb (column_computable data) req.
Proof.
  rewrite validate_dataset_summary, <- required_loop_returns with (v := initial_view data).
  by destruct (for_each _ _ _).
Qed.

(** When [validate_dataset] returns and when it raises. *)
Lemma validate_dataset_returns_spec env data req opt mkt fred :
  returns (validate_dataset env data req opt mkt fred) = true <->
  forall col, col ∈ req -> column_computable data col = true.
Proof.
  rewrite validate_dataset_returns, forallb_forall.
  split; intros Hall col Hcol; apply Hall; by apply list_elem_of_In.
Qed.

(** C10: the metrics of a returned report hold the seven keys of the
    initial dictionary, and [warnings_count] and [errors_count] with the
    lengths of the two lists of the report. *)
Theorem report_metrics_keys env data req opt mkt fred r :
  validate_dataset env data req opt mkt fred = Ok r ->
  Forall (fun k => is_Some (dict_get (metrics r) k))
    ["row_count"; "column_count"; "missing_pct"; "largest_missing_business_gap";
     "latest_date"; "outlier_counts"; "stale_series"] /\
  dict_get (metrics r) "warnings_count" = Some (PyInt (Z.of_nat (length (warnings r)))) /\
  dict_get (metrics r) "errors_count" = Some (PyInt (Z.of_nat (length (errors r)))).
Proof.
  intros (v & _ & ->)%validate_dataset_Ok. unfold summary_report.
  cbn [metrics warnings errors]. split; [|split; reflexivity].
  repeat constructor; eexists; reflexivity.
Qed.

(** C2: when some required column is absent from the table, the errors
    of the report hold exactly one entry about missing columns, and the
    list it carries is sorted, without repetition, and made of the
    required ids that the table lacks. *)
Theorem missing_required_columns_reported env data req opt mkt fred r :
  valid_set_iter (set_iter env) ->
  validate_dataset env data req opt mkt fred = Ok r ->
  (exists c, c ∈ req /\ c ∉ column_names data) ->
  exists missing,
    from FromRequiredPresence (errors r) = [MissingColumns missing] /\
    Sorted str_le missing /\ NoDup missing /\
    forall c, c ∈ missing <-> c ∈ req /\ c ∉ column_names data.
Proof.
  intros Hit (v & _ & ->)%validate_dataset_Ok (c & Hc).
  rewrite summary_errors_from_presence. unfold presence_errors.
  destruct (sorted_missing_spec env req data Hit) as (Hsorted & Hnd & Hin).
  exists (sorted_missing env req data). split; [|done].
  apply Hin in Hc. destruct (sorted_missing env req data); [|done].
  by apply elem_of_nil in Hc.
Qed.

(** C9: two calls of [validate_dataset] on the same table and the same
    column sets, on the same date, have the same outcome, the same report
    or the same exception, whatever the hash seed, the files and the other
    tables of the two processes are; and each call leaves its process as
    it found it: the table behind [data] and every other table, the files
    and the directories. *)
Theorem validate_dataset_deterministic (data : positive) (df : DataFrame F)
    req opt mkt fred (p1 p2 : Process F) :
  p_tables p1 !! data = Some df -> p_tables p2 !! data = Some df ->
  today (w_env (p_world p1)) = today (w_env (p_world p2)) ->
  valid_set_iter (set_iter (w_env (p_world p1))) ->
  valid_set_iter (set_iter (w_env (p_world p2))) ->
  exists outcome,
    validate_dataset_run data req opt mkt fred p1 = (outcome, p1) /\
    validate_dataset_run data req opt mkt fred p2 = (outcome, p2).
Proof.
  intros Hdf1 Hdf2 Hnow H1 H2.
  exists (validate_dataset (w_env (p_world p1)) df req opt mkt fred). split.
  - by apply validate_dataset_run_spec.
  - rewrite (validate_dataset_env _ (w_env (p_world p2)) df req opt mkt fred Hnow H1 H2).
    by apply validate_dataset_run_spec.
Qed.

Lemma dict_get_Some_key {V} (d : dict V) (k : string) (x : V) :
  dict_get d k = Some x -> k ∈ dict_keys d.
Proof.
  intros Hget. destruct (decide (k ∈ dict_keys d)) as [|Hnot]; [done|].
  apply dict_get_None in Hnot. congruence.
Qed.

Lemma column_metrics_date_index_inv data series ds m :
  index data = DatetimeIndex ds -> column_metrics data series = Ok m ->
  exists lo hi,
    list_min ds = Some lo /\ list_max ds = Some hi /\ NoDup ds /\
    m.1.2 = PyInt (_largest_consecutive_missing_business_days
                     (map (loc ds (cells series)) (bdate_range lo hi))).
Proof.
  intros Hi. unfold column_metrics, business_calendar, reindex. rewrite Hi.
  destruct (list_min ds) as [lo|]; [|done]. destruct (list_max ds) as [hi|]; [|done].
  simpl. unfold has_duplicates. destruct (decide (NoDup ds)) as [Hnd|Hnd].
  - rewrite bool_decide_eq_false_2 by (by intros Hdup). simpl.
    destruct (latest_observed _ _); [simpl|done]. intros [= <-]. by exists lo, hi.
  - by rewrite bool_decide_eq_true_2.
Qed.

Lemma column_metrics_utc_dates_inv data series ds m :
  utc_dates (index data) ds -> column_metrics data series = Ok m ->
  exists lo hi,
    list_min ds = Some lo /\ list_max ds = Some hi /\ NoDup ds /\
    m.1.2 = PyInt (_largest_consecutive_missing_business_days
                     (map (loc ds (cells series)) (bdate_range lo hi))).
Proof.
  intros [Hi|Hi] Hm; [by eapply column_metrics_date_index_inv|].
  set (data' := mkDataFrame (index_name data) (DatetimeIndex ds) (columns data)).
  rewrite (column_metrics_utc_midnights data data' series ds Hi eq_refl) in Hm.
  by apply (column_metrics_date_index_inv data' series ds m eq_refl).
Qed.

(** C6: for a table whose index holds calendar dates in UTC, one label
    per date at midnight, and a required column it holds, the metric
    [largest_missing_business_gap] of the column is the length of the
    longest run of nulls of the column reindexed onto the Monday to Friday
    days from the first to the last date of the index, both included; a
    day without a row counts as null, and the metric is 0 when that
    calendar is empty. *)
Theorem largest_gap_metric env data req opt mkt fred r ds col series :
  validate_dataset env data req opt mkt fred = Ok r ->
  utc_dates (index data) ds ->
  col ∈ req -> dict_get (columns data) col = Some series ->
  exists lo hi gaps g reindexed,
    (lo ∈ ds /\ forall d, d ∈ ds -> lo <= d) /\
    (hi ∈ ds /\ forall d, d ∈ ds -> d <= hi) /\
    business_days_between lo hi (bdate_range lo hi) /\
    reindexed_onto ds (cells series) (bdate_range lo hi) reindexed /\
    dict_get (metrics r) "largest_missing_business_gap" = Some (PyDict gaps) /\
    dict_get gaps col = Some (PyInt g) /\
    longest_null_run reindexed g /\
    (reindexed = [] -> g = 0).
Proof.
  intros (v & Hloop & ->)%validate_dataset_Ok Hi Hin Hcol.
  destruct (required_loop_records _ _ _ _ _ _ Hloop Hin Hcol) as (m & Hm & _ & Hgap & _).
  destruct (column_metrics_utc_dates_inv _ _ _ _ Hi Hm) as (lo & hi & Hlo & Hhi & Hnd & Hg).
  exists lo, hi, (v_gap v), (_largest_consecutive_missing_business_days
                      (map (loc ds (cells series)) (bdate_range lo hi))),
    (map (loc ds (cells series)) (bdate_range lo hi)).
  split; [by apply list_min_spec|]. split; [by apply list_max_spec|].
  split; [apply bdate_range_spec|]. split; [by apply reindex_spec|].
  split; [reflexivity|]. split; [by rewrite Hgap, Hg|].
  split; [apply largest_gap_spec|]. by intros ->.
Qed.

Lemma count_true_map {A} (f : A -> bool) (l : list A) :
  count_true (map f l) = Z.of_nat (length (filter (fun x => f x = true) l)).
Proof.
  unfold count_true. f_equal. induction l as [|x l IH]; [done|]. simpl.
  destruct (f x) eqn:Hfx.
  - rewrite !filter_cons_True by done. simpl. by f_equal.
  - rewrite !filter_cons_False by (by rewrite ?Hfx). done.
Qed.

Lemma impossible_rules_negative data (entry : string * (list F -> list bool)) :
  entry ∈ impossible_rules data ->
  entry.2 = (fun s : list F => map (fun x => fltb x (of_Z 0)) s).
Proof.
  unfold impossible_rules. rewrite !elem_of_app, !elem_of_cons.
  intros [Hfixed|[Hadj|Hvol]].
  - destruct Hfixed as [->|[->|[->|[->|[->|Hnil]]]]]; try done.
    by apply elem_of_nil in Hnil.
  - by apply list_elem_of_fmap in Hadj as (c & -> & _).
  - by apply list_elem_of_fmap in Hvol as (c & -> & _).
Qed.

Lemma impossible_rules_monitored data col series :
  monitored col -> dict_get (columns data) col = Some series ->
  (col, fun s : list F => map (fun x => fltb x (of_Z 0)) s) ∈ impossible_rules data.
Proof.
  intros Hmon Hcol. apply dict_get_Some_key in Hcol.
  unfold impossible_rules. rewrite !elem_of_app.
  destruct Hmon as [Hfixed|[Hadj|Hvol]].
  - left. rewrite !elem_of_cons in Hfixed. rewrite !elem_of_cons.
    destruct Hfixed as [->|[->|[->|[->|[->|Hnil]]]]]; auto 10.
    by apply elem_of_nil in Hnil.
  - right. left. apply (list_elem_of_fmap_2 (fun c => (c, _))).
    by apply list_elem_of_filter.
  - right. right. apply (list_elem_of_fmap_2 (fun c => (c, _))).
    by apply list_elem_of_filter.
Qed.

Lemma elem_of_flat_map {A B} (f : A -> list B) (l : list A) (y : B) :
  y ∈ flat_map f l <-> exists x, x ∈ l /\ y ∈ f x.
Proof.
  rewrite list_elem_of_In, in_flat_map. split; intros (x & Hx & Hy); exists x.
  - by rewrite !list_elem_of_In.
  - by rewrite <- !list_elem_of_In.
Qed.

Lemma elem_of_from o (m : Message) (l : list Message) :
  m ∈ from o l <-> m ∈ l /\ origin m = o.
Proof. unfold from. rewrite list_elem_of_filter. tauto. Qed.

Lemma structural_checks_summary env data req opt :
  structural_checks env data req opt =
    (v ← for_each (required_view data) req (initial_view data);
     Ok (mkState (index_errors data ++ presence_errors env data req
                  ++ flat_map (required_errors data) req)
           (presence_warnings env data opt ++ flat_map (required_warnings data) req)
           (view_metrics v))).
Proof.
  unfold structural_checks. rewrite check_index_spec, check_presence_spec.
  cbn [st_errors st_warnings st_metrics].
  rewrite initial_metrics_view, required_loop_spec.
  destruct (for_each _ _ _); [simpl|done]. by rewrite <- !app_assoc.
Qed.

Lemma endswith_get (s suffix : string) (i : nat) :
  endswith s suffix = true -> (i < String.length suffix)%nat ->
  get i suffix = get (i + (String.length s - String.length suffix)) s.
Proof.
  unfold endswith. intros [Hlen Heq%String.eqb_eq]%andb_prop Hi.
  rewrite <- Heq at 1. by apply substring_correct1.
Qed.

Lemma endswith_adj_close_volume (s : string) :
  endswith s "__adj_close" = true -> endswith s "__volume" = true -> False.
Proof.
  intros Hadj Hvol.
  assert (Hlen : (11 <= String.length s)%nat).
  { unfold endswith in Hadj. apply andb_prop in Hadj as [Hle _].
    by apply Nat.leb_le in Hle. }
  pose proof (endswith_get s "__adj_close" 9 Hadj ltac:(simpl; lia)) as H9.
  pose proof (endswith_get s "__volume" 6 Hvol ltac:(simpl; lia)) as H6.
  change (String.length "__adj_close") with 11%nat in H9.
  change (String.length "__volume") with 8%nat in H6.
  replace (9 + (String.length s - 11))%nat with (String.length s - 2)%nat in H9 by lia.
  replace (6 + (String.length s - 8))%nat with (String.length s - 2)%nat in H6 by lia.
  rewrite <- H9 in H6. vm_compute in H6. discriminate.
Qed.

Lemma impossible_rules_keys data :
  (impossible_rules data).*1 =
    ["fred_DGS10"; "fred_DGS2"; "fred_CPIAUCSL"; "fred_UNRATE"; "fred_BAA10YM"]
    ++ filter (fun c => endswith c "__adj_close" = true) (column_names data)
    ++ filter (fun c => endswith c "__volume" = true) (column_names data).
Proof.
  unfold impossible_rules. rewrite !fmap_app. f_equal. f_equal.
  - change (map ?f ?l) with (f <$> l). rewrite <- list_fmap_compose.
    apply list_fmap_id.
  - change (map ?f ?l) with (f <$> l). rewrite <- list_fmap_compose.
    apply list_fmap_id.
Qed.

Lemma impossible_rules_NoDup data :
  NoDup (column_names data) -> NoDup (impossible_rules data).*1.
Proof.
  intros Hnd. rewrite impossible_rules_keys. apply NoDup_app. split; [|split].
  - apply (bool_decide_unpack _). vm_compute. exact I.
  - intros c Hc. rewrite elem_of_app, !list_elem_of_filter.
    rewrite !elem_of_cons in Hc.
    destruct Hc as [->|[->|[->|[->|[->|Hnil]]]]];
      try (by apply elem_of_nil in Hnil); intros [[? _]|[? _]]; discriminate.
  - apply NoDup_app. split; [by apply NoDup_filter|]. split; [|by apply NoDup_filter].
    intros c [Hadj _]%list_elem_of_filter [Hvol _]%list_elem_of_filter.
    by eapply endswith_adj_close_volume.
Qed.

Lemma filter_key_absent {V} (d : list (string * V)) (k : string) :
  k ∉ d.*1 -> filter (fun e => e.1 = k) d = [].
Proof.
  induction d as [|[k0 x0] d IH]; [done|]. rewrite fmap_cons, not_elem_of_cons.
  intros [Hne Hnot]. simpl in Hne.
  rewrite filter_cons_False by (simpl; intros ->; by apply Hne). by apply IH.
Qed.

Lemma filter_key_unique {V} (d : list (string * V)) (k : string) (x : V) :
  NoDup d.*1 -> (k, x) ∈ d -> filter (fun e => e.1 = k) d = [(k, x)].
Proof.
  induction d as [|[k0 x0] d IH].
  - intros _ Hin. by apply elem_of_nil in Hin.
  - rewrite fmap_cons. intros [Hk0 Hnd]%NoDup_cons Hin. simpl in Hk0.
    destruct (decide (k0 = k)) as [->|Hne].
    + rewrite filter_cons_True by done. rewrite filter_key_absent by done.
      apply elem_of_cons in Hin as [[= ->]|Hin]; [done|].
      exfalso. apply Hk0. apply list_elem_of_fmap. by exists (k, x).
    + rewrite filter_cons_False by done.
      apply elem_of_cons in Hin as [[= -> ->]|Hin]; [done|]. by apply IH.
Qed.

Lemma impossible_warnings_about data (rules : list (string * (list F -> list bool))) col :
  about FromSignRule col (flat_map (impossible_warnings data) rules) =
    flat_map (impossible_warnings data) (filter (fun e => e.1 = col) rules).
Proof.
  induction rules as [|[c rule] rules IH]; [done|]. simpl.
  unfold about in *. rewrite filter_app, IH.
  destruct (decide (c = col)) as [->|Hne].
  - rewrite (filter_cons_True (fun e => e.1 = col)) by done. simpl. f_equal.
    unfold impossible_warnings. simpl.
    destruct (dict_get (columns data) col); [|done].
    destruct (0 <? _); [|done]. by rewrite filter_cons_True.
  - rewrite (filter_cons_False (fun e => e.1 = col)) by done.
    unfold impossible_warnings. simpl.
    destruct (dict_get (columns data) c); [|done].
    destruct (0 <? _); [|done]. rewrite filter_cons_False; [done|].
    simpl. intros [_ ?]. congruence.
Qed.

(** C4: a column under a sign rule that holds negative values gets a
    warning with the number of its negative rows, every warning of the
    sign rules about it carries that number (and it is the only one, in a
    table whose column names are distinct), and the sign rules add no
    error: the errors of the report are those of the structural checks. *)
Theorem negative_values_warned env data req opt mkt fred r col series :
  validate_dataset env data req opt mkt fred = Ok r ->
  monitored col -> dict_get (columns data) col = Some series ->
  0 < negative_rows series ->
  ImpossibleValues col (negative_rows series) ∈ warnings r /\
  (forall n, ImpossibleValues col n ∈ warnings r -> n = negative_rows series) /\
  (NoDup (column_names data) ->
   about FromSignRule col (warnings r) = [ImpossibleValues col (negative_rows series)]) /\
  from FromSignRule (errors r) = [] /\
  exists st, structural_checks env data req opt = Ok st /\ errors r = st_errors st.
Proof.
  intros (v & Hloop & ->)%validate_dataset_Ok Hmon Hcol Hneg.
  assert (Hiff : forall n, ImpossibleValues col n ∈
            warnings (summary_report env data req opt mkt fred v) <->
            ImpossibleValues col n ∈ flat_map (impossible_warnings data)
                                       (impossible_rules data)).
  { intros n. rewrite <- (summary_warnings_from_sign env data req opt mkt fred v).
    rewrite elem_of_from. tauto. }
  assert (Hown : impossible_warnings data
                   (col, fun s : list F => map (fun x => fltb x (of_Z 0)) s) =
                 [ImpossibleValues col (negative_rows series)]).
  { unfold impossible_warnings. simpl. rewrite Hcol, count_true_map.
    fold (negative_rows series). apply Z.ltb_lt in Hneg. by rewrite Hneg. }
  split; [|split; [|split; [|split]]].
  - apply Hiff, elem_of_flat_map. eexists. split.
    + by eapply impossible_rules_monitored.
    + unfold impossible_warnings. simpl. rewrite Hcol, count_true_map.
      fold (negative_rows series). apply Z.ltb_lt in Hneg. rewrite Hneg.
      apply list_elem_of_here.
  - intros n (entry & Hentry & Hn)%Hiff%elem_of_flat_map.
    pose proof (impossible_rules_negative _ _ Hentry) as Hrule.
    unfold impossible_warnings in Hn. destruct entry as [c rule]. simpl in *. subst rule.
    destruct (dict_get (columns data) c) as [s|] eqn:Hc; [|by apply elem_of_nil in Hn].
    rewrite count_true_map in Hn. fold (negative_rows s) in Hn.
    destruct (0 <? negative_rows s); [|by apply elem_of_nil in Hn].
    apply elem_of_cons in Hn as [[= -> ->]|Hn]; [|by apply elem_of_nil in Hn].
    congruence.
  - intros Hnd. rewrite about_from, summary_warnings_from_sign, impossible_warnings_about.
    erewrite filter_key_unique;
      [|by apply impossible_rules_NoDup|by eapply impossible_rules_monitored].
    simpl. by rewrite Hown, app_nil_r.
  - apply summary_errors_no_sign.
  - eexists. rewrite structural_checks_summary, Hloop. split; reflexivity.
Qed.

Lemma about_nil_other o col (m : Message) :
  subject m ≠ Some col -> about o col [m] = [].
Proof. intros Hne. unfold about. rewrite filter_cons_False; [done|]. by intros [_ ?]. Qed.

Lemma stale_warnings_about now col col' (value : PyVal F) :
  about FromStaleness col (stale_warnings now (col', value)) =
    if decide (col' = col) then stale_warnings now (col', value) else [].
Proof.
  unfold stale_warnings. destruct (stale_finding now (col', value)) as [[[l a] t]|];
    [|by destruct (decide _)]. simpl.
  destruct (decide (col' = col)) as [->|Hne].
  - unfold about. by rewrite filter_cons_True.
  - apply about_nil_other. simpl. congruence.
Qed.

Lemma stale_entries_names now col col' (value : PyVal F) :
  filter (fun x => names_column col x = true) (stale_entries now (col', value)) =
    if decide (col' = col) then stale_entries now (col', value) else [].
Proof.
  unfold stale_entries. destruct (stale_finding now (col', value)) as [?|];
    [|by destruct (decide _)]. simpl.
  destruct (decide (col' = col)) as [->|Hne].
  - rewrite filter_cons_True; [done|]. simpl. by apply bool_decide_eq_true_2.
  - rewrite filter_cons_False; [done|]. simpl. by rewrite bool_decide_eq_false_2.
Qed.

Lemma stale_about_absent now (items : dict (PyVal F)) col :
  col ∉ dict_keys items ->
  about FromStaleness col (flat_map (stale_warnings now) items) = [] /\
  filter (fun x => names_column col x = true) (flat_map (stale_entries now) items) = [].
Proof.
  unfold dict_keys. induction items as [|[k x] items IH]; [done|]. simpl.
  intros [Hne Hnot]%not_elem_of_cons. destruct (IH Hnot) as [IHw IHe].
  unfold about in *. rewrite !filter_app.
  fold (about FromStaleness col (stale_warnings now (k, x))).
  rewrite stale_warnings_about, stale_entries_names, IHw, IHe.
  by rewrite !decide_False by done.
Qed.

Lemma stale_about_lookup now (items : dict (PyVal F)) col value :
  NoDup (dict_keys items) -> dict_get items col = Some value ->
  about FromStaleness col (flat_map (stale_warnings now) items) =
    stale_warnings now (col, value) /\
  filter (fun x => names_column col x = true) (flat_map (stale_entries now) items) =
    stale_entries now (col, value).
Proof.
  unfold dict_keys. induction items as [|[k x] items IH]; [done|]. simpl.
  intros [Hk Hnd]%NoDup_cons. unfold about in *. rewrite !filter_app.
  fold (about FromStaleness col (stale_warnings now (k, x))).
  rewrite stale_warnings_about, stale_entries_names.
  destruct (decide (k = col)) as [->|Hne].
  - intros [= ->]. destruct (stale_about_absent now items col Hk) as [Hw He].
    unfold about in Hw. by rewrite Hw, He, !app_nil_r.
  - intros Hget. by destruct (IH Hnd Hget) as [-> ->].
Qed.

(** C3, as the code has it: the age of an entry of [latest_date] is the
    number of days from its date to the current date, and its threshold is
    45 days when the column id starts with [fred_] and 7 days otherwise;
    an entry older than its threshold gets exactly one staleness warning
    and its id exactly once in [stale_series], any other entry, and in
    particular one without a date, gets neither. *)
Theorem staleness_by_prefix env data req opt mkt fred r :
  validate_dataset env data req opt mkt fred = Ok r ->
  exists latest stale,
    dict_get (metrics r) "latest_date" = Some (PyDict latest) /\
    dict_get (metrics r) "stale_series" = Some (PyList stale) /\
    (forall col value, dict_get latest col = Some value -> date_or_none value) /\
    (forall col, dict_get latest col = Some PyNone ->
       about FromStaleness col (warnings r) = [] /\
       filter (fun x => names_column col x = true) stale = []) /\
    (forall col d, dict_get latest col = Some (PyIsoDate d) ->
       let age := today env - d in
       let threshold := if startswith col "fred_" then 45 else 7 in
       if threshold <? age
       then about FromStaleness col (warnings r) = [StaleSeries col d age threshold] /\
            filter (fun x => names_column col x = true) stale = [PyStr col]
       else about FromStaleness col (warnings r) = [] /\
            filter (fun x => names_column col x = true) stale = []).
Proof.
  intros (v & Hloop & ->)%validate_dataset_Ok.
  destruct (required_loop_frame _ _ _ _ Hloop) as (_ & _ & _ & Hstale).
  pose proof (required_loop_latest_NoDup _ _ _ _ Hloop (NoDup_nil_2)) as Hnd.
  pose proof (required_loop_latest _ _ _ _ Hloop (Forall_nil_2 _)) as Hvals.
  exists (v_latest v), (flat_map (stale_entries (today env)) (v_latest v)).
  assert (Habout : forall col value, dict_get (v_latest v) col = Some value ->
    about FromStaleness col (warnings (summary_report env data req opt mkt fred v)) =
      stale_warnings (today env) (col, value) /\
    filter (fun x => names_column col x = true)
      (flat_map (stale_entries (today env)) (v_latest v)) =
      stale_entries (today env) (col, value)).
  { intros col value Hget. rewrite about_from, summary_warnings_from_staleness.
    by apply stale_about_lookup. }
  split; [reflexivity|]. split; [unfold summary_report; cbn; by rewrite Hstale|].
  split; [|split].
  - intros col value Hget%dict_get_Some_elem.
    rewrite Forall_forall in Hvals. apply (Hvals _ Hget).
  - intros col Hget. by destruct (Habout _ _ Hget) as [-> ->].
  - intros col d Hget. destruct (Habout _ _ Hget) as [-> ->].
    unfold stale_warnings, stale_entries, stale_finding, stale_threshold. simpl.
    by destruct (_ <? _).
Qed.

Lemma outlier_fold_other kind data cols (counts : dict (PyVal F)) col :
  col ∉ cols ->
  dict_get (fold_left (outlier_view kind data) cols counts) col = dict_get counts col.
Proof.
  revert counts. induction cols as [|c cols IH]; intros counts; simpl; [done|].
  intros [Hne Hnot]%not_elem_of_cons. rewrite IH by done.
  unfold outlier_view. destruct (dict_get (columns data) c); [|done].
  by rewrite dict_get_set_ne.
Qed.

Lemma outlier_fold_get kind data cols (counts : dict (PyVal F)) col series :
  dict_get (columns data) col = Some series -> col ∈ cols ->
  dict_get (fold_left (outlier_view kind data) cols counts) col =
    Some (PyInt (outlier_count kind series)).
Proof.
  intros Hcol. revert counts. induction cols as [|c cols IH]; intros counts; simpl.
  - intros Hin. by apply elem_of_nil in Hin.
  - intros Hin. destruct (decide (col ∈ cols)) as [Hrest|Hrest]; [by apply IH|].
    apply elem_of_cons in Hin as [->|Hin]; [|done].
    rewrite outlier_fold_other by done. unfold outlier_view. rewrite Hcol.
    apply dict_get_set_eq.
Qed.

Lemma outlier_warnings_quiet o kind warn data cols col :
  (forall c n, origin (warn c n) = o /\ subject (warn c n) = Some c) ->
  (forall series, dict_get (columns data) col = Some series -> col ∈ cols ->
     outlier_count kind series = 0) ->
  about o col (flat_map (outlier_warnings kind warn data) cols) = [].
Proof.
  intros Hwarn Hquiet. induction cols as [|c cols IH]; [done|]. simpl.
  unfold about in *. rewrite filter_app, IH, app_nil_r.
  2:{ intros series Hs Hin. apply Hquiet; [done|by apply list_elem_of_further]. }
  unfold outlier_warnings. destruct (dict_get (columns data) c) as [s|] eqn:Hc; [|done].
  destruct (0 <? outlier_count kind s) eqn:Hpos; [|done].
  rewrite filter_cons_False; [done|]. intros [_ Hsub].
  destruct (Hwarn c (outlier_count kind s)) as [_ Hs]. rewrite Hs in Hsub.
  simplify_eq. rewrite (Hquiet s Hc) in Hpos; [done|apply list_elem_of_here].
Qed.

End Engine.

Section Outliers.
Context {F : Type} `{FloatLaws F}.

(** C5: when the standard deviation of the change series is zero or
    undefined, as it is for a column whose values are all the same
    number, [_zscore_flags] flags no row and the count is 0; in a report
    the count on record for such a column is 0 and no outlier warning is
    about it. *)
Theorem zscore_flags_zero_std :
  (forall (values : list F) (kind : string),
     std_zero_or_undefined (changes_of kind values) \/ constant_valued values ->
     Forall (eq false) (_zscore_flags values kind) /\
     count_true (_zscore_flags values kind) = 0) /\
  (forall env (data : DataFrame F) req opt mkt fred r col series,
     validate_dataset env data req opt mkt fred = Ok r ->
     dict_get (columns data) col = Some series ->
     col ∈ mkt \/ col ∈ fred ->
     (col ∈ mkt ->
      std_zero_or_undefined (changes_of "pct_change" (to_numeric series))
      \/ constant_valued (to_numeric series)) ->
     (col ∈ fred ->
      std_zero_or_undefined (changes_of "abs_change" (to_numeric series))
      \/ constant_valued (to_numeric series)) ->
     exists counts,
       dict_get (metrics r) "outlier_counts" = Some (PyDict counts) /\
       dict_get counts col = Some (PyInt 0) /\
       about FromMarketOutliers col (warnings r) = [] /\
       about FromFredOutliers col (warnings r) = []).
Proof.
  assert (Hflags : forall (values : list F) (kind : string),
     std_zero_or_undefined (changes_of kind values) \/ constant_valued values ->
     Forall (eq false) (_zscore_flags values kind) /\
     count_true (_zscore_flags values kind) = 0).
  { intros values kind Hstd.
    assert (Hs : std_zero_or_undefined (changes_of kind values)).
    { destruct Hstd; [done|by apply constant_std]. }
    pose proof (zscore_flags_none values kind Hs) as Hnone.
    split; [done|by apply count_true_all_false]. }
  split; [exact Hflags|].
  intros env data req opt mkt fred r col series
    (v & Hloop & ->)%validate_dataset_Ok Hcol Hin Hpct Habs.
  assert (Hzero_pct : forall s, dict_get (columns data) col = Some s -> col ∈ mkt ->
            outlier_count "pct_change" s = 0).
  { intros s Hs Hmkt. rewrite Hcol in Hs. simplify_eq.
    unfold outlier_count. by apply Hflags, Hpct. }
  assert (Hzero_abs : forall s, dict_get (columns data) col = Some s -> col ∈ fred ->
            outlier_count "abs_change" s = 0).
  { intros s Hs Hfred. rewrite Hcol in Hs. simplify_eq.
    unfold outlier_count. by apply Hflags, Habs. }
  exists (fold_left (outlier_view "abs_change" data) fred
            (fold_left (outlier_view "pct_change" data) mkt (v_outliers v))).
  split; [reflexivity|]. split; [|split].
  - destruct (decide (col ∈ fred)) as [Hfred|Hfred].
    + erewrite outlier_fold_get by done. by rewrite Hzero_abs.
    + rewrite outlier_fold_other by done. destruct Hin as [Hmkt|?]; [|done].
      erewrite outlier_fold_get by done. by rewrite Hzero_pct.
  - rewrite about_from, summary_warnings_from_market.
    by apply outlier_warnings_quiet.
  - rewrite about_from, summary_warnings_from_fred.
    by apply outlier_warnings_quiet.
Qed.

End Outliers.

(** ** The properties on concrete inputs *)

Lemma remove_dups_valid : valid_set_iter remove_dups.
Proof.
  intros l. split; [apply NoDup_remove_dups|]. intros x. apply elem_of_remove_dups.
Qed.

Lemma reverse_remove_dups_valid : valid_set_iter (fun l => reverse (remove_dups l)).
Proof.
  intros l. split.
  - rewrite reverse_Permutation. apply NoDup_remove_dups.
  - intros x. rewrite elem_of_reverse. apply elem_of_remove_dups.
Qed.

(** C1: [validate_dataset] does not return a report for every table. On
    a table with an integer index, on a table with a repeated date and on
    a table without rows it raises from the calendar steps of the first
    required column (lines 105 to 110), after it has recorded the finding
    about that table (lines 72, 75 and 93); the same finding comes back
    in a report when no required column is evaluated, and for a column
    without data when the table has a row. *)
Theorem validate_dataset_raises_after_finding :
  (validate_dataset env_a range_df ["fred_DGS10"] [] [] [] =
     Raise (AttributeError "'int' object has no attribute 'date'") /\
   IndexTypeError ∈
     st_errors (check_index range_df (mkState [] [] (initial_metrics range_df))) /\
   exists r, validate_dataset env_a range_df [] [] [] [] = Ok r /\
             IndexTypeError ∈ errors r) /\
  (validate_dataset env_a duplicate_df ["fred_DGS10"] [] [] [] =
     Raise (ValueError "cannot reindex on an axis with duplicate labels") /\
   DuplicateDates ∈
     st_errors (check_index duplicate_df (mkState [] [] (initial_metrics duplicate_df))) /\
   exists r, validate_dataset env_a duplicate_df [] [] [] [] = Ok r /\
             DuplicateDates ∈ errors r) /\
  (validate_dataset env_a empty_df ["fred_DGS10"] [] [] [] =
     Raise (ValueError "Neither `start` nor `end` can be NaT") /\
   has_no_data (numeric []) = true /\
   exists r, validate_dataset env_a weekend_df ["fred_DGS10"] [] [] [] = Ok r /\
             EmptyData "fred_DGS10" ∈ errors r).
Proof.
  split_and!; try (vm_compute; reflexivity);
    try (apply (bool_decide_unpack _); vm_compute; exact I);
    (eexists; split; [vm_compute; reflexivity|];
     apply (bool_decide_unpack _); vm_compute; exact I).
Qed.

(** A table in order, indexed in a zone other than UTC: the calendar of
    line 105 is asked for in UTC and is refused. *)
Example validate_dataset_raises_on_other_zone :
  index_errors zoned_df = [] /\
  validate_dataset env_a zoned_df ["fred_DGS10"] [] [] [] =
    Raise (AssertionError "Inferred time zone not equal to passed time zone").
Proof. split; vm_compute; reflexivity. Qed.

(** Two required columns are absent: one entry, [aaa] before [zzz]. *)
Lemma missing_required_columns_reported_witness :
  exists r,
    validate_dataset env_b negative_df
      ["fred_DGS10"; "yfin_SPY__adj_close"; "zzz"; "aaa"; "zzz"] [] [] [] = Ok r /\
    exists missing,
      from FromRequiredPresence (errors r) = [MissingColumns missing] /\
      Sorted str_le missing /\ NoDup missing /\
      forall c, c ∈ missing <->
        c ∈ ["fred_DGS10"; "yfin_SPY__adj_close"; "zzz"; "aaa"; "zzz"] /\
        c ∉ column_names negative_df.
Proof.
  eexists. split; [vm_compute; reflexivity|].
  apply (missing_required_columns_reported env_b negative_df
           ["fred_DGS10"; "yfin_SPY__adj_close"; "zzz"; "aaa"; "zzz"] [] [] []).
  - apply reverse_remove_dups_valid.
  - vm_compute. reflexivity.
  - exists "aaa". split.
    + apply (bool_decide_unpack _). vm_compute. exact I.
    + apply (bool_decide_unpack _). vm_compute. exact I.
Defined.

(** Thirteen days after the last observation, [gdp] is stale at 7 days
    and [fred_X] is not at 45 days. *)
Lemma staleness_by_prefix_witness :
  exists r,
    validate_dataset env_late macro_df ["gdp"; "fred_X"] [] [] ["gdp"] = Ok r /\
    about FromStaleness "gdp" (warnings r) = [StaleSeries "gdp" 19727 13 7] /\
    about FromStaleness "fred_X" (warnings r) = [].
Proof.
  destruct (validate_dataset env_late macro_df ["gdp"; "fred_X"] [] [] ["gdp"])
    as [r|e] eqn:Hr; [|vm_compute in Hr; discriminate].
  exists r. split; [reflexivity|].
  destruct (staleness_by_prefix env_late macro_df ["gdp"; "fred_X"] [] [] ["gdp"] r Hr)
    as (latest & stale & Hlatest & _ & _ & _ & Hdated).
  vm_compute in Hr. injection Hr as <-.
  vm_compute in Hlatest. injection Hlatest as <-. split.
  - apply (Hdated "gdp" 19727 eq_refl).
  - apply (Hdated "fred_X" 19727 eq_refl).
Defined.

(** The threshold does not follow the declared macro set: [gdp] is
    declared macro and 13 days old, below 45 days, and is flagged. *)
Lemma staleness_not_by_declared_set :
  ~ (forall env (data : DataFrame QF) req opt mkt fred r latest col d,
       validate_dataset env data req opt mkt fred = Ok r ->
       dict_get (metrics r) "latest_date" = Some (PyDict latest) ->
       dict_get latest col = Some (PyIsoDate d) ->
       let threshold := if decide (col ∈ fred) then 45 else 7 in
       (threshold <? today env - d) = false ->
       about FromStaleness col (warnings r) = []).
Proof.
  intros Hclaim.
  destruct (validate_dataset env_late macro_df ["gdp"; "fred_X"] [] [] ["gdp"])
    as [r|e] eqn:Hr; [|vm_compute in Hr; discriminate].
  specialize (Hclaim env_late macro_df ["gdp"; "fred_X"] [] [] ["gdp"] r
                [("gdp", PyIsoDate 19727); ("fred_X", PyIsoDate 19727)] "gdp" 19727 Hr).
  vm_compute in Hr. injection Hr as <-.
  specialize (Hclaim eq_refl eq_refl eq_refl). vm_compute in Hclaim. discriminate.
Qed.

(** Two negative prices: one warning, with the count 2. *)
Lemma negative_values_warned_witness :
  exists r,
    validate_dataset env_a negative_df ["fred_DGS10"; "yfin_SPY__adj_close"] [] [] [] = Ok r /\
    negative_rows (ints [-1; 401; -402; 403; 404]) = 2 /\
    ImpossibleValues "yfin_SPY__adj_close" 2 ∈ warnings r /\
    from FromSignRule (errors r) = [].
Proof.
  destruct (validate_dataset env_a negative_df ["fred_DGS10"; "yfin_SPY__adj_close"] [] [] [])
    as [r|e] eqn:Hr; [|vm_compute in Hr; discriminate].
  exists r. split; [reflexivity|]. split; [vm_compute; reflexivity|].
  assert (Hmon : monitored "yfin_SPY__adj_close") by (right; left; vm_compute; reflexivity).
  assert (Hneg : 0 < negative_rows (ints [-1; 401; -402; 403; 404]))
    by (vm_compute; reflexivity).
  destruct (negative_values_warned env_a negative_df ["fred_DGS10"; "yfin_SPY__adj_close"]
              [] [] [] r "yfin_SPY__adj_close" (ints [-1; 401; -402; 403; 404])
              Hr Hmon eq_refl Hneg)
    as (Hin & _ & _ & Herr & _).
  split; [exact Hin|exact Herr].
Defined.

(** A constant column: no row is flagged. *)
Lemma zscore_flags_zero_std_witness :
  Forall (eq false) (_zscore_flags [Fin 400; Fin 400; Fin 400; NaN; Fin 400] "pct_change") /\
  count_true (_zscore_flags [Fin 400; Fin 400; Fin 400; NaN; Fin 400] "pct_change") = 0.
Proof.
  apply (proj1 (zscore_flags_zero_std (F := QF))). right. exists (Fin 400).
  repeat (constructor; [first [left; reflexivity | right; reflexivity]|]).
  constructor.
Defined.

(** Two nulls and a day without a row: a run of 3, over five business days. *)
Lemma largest_gap_metric_witness :
  exists r,
    validate_dataset env_a gappy_df ["fred_DGS10"] [] [] [] = Ok r /\
    exists lo hi gaps g reindexed,
      (lo ∈ [19723; 19724; 19725; 19727] /\
       forall d, d ∈ [19723; 19724; 19725; 19727] -> lo <= d) /\
      (hi ∈ [19723; 19724; 19725; 19727] /\
       forall d, d ∈ [19723; 19724; 19725; 19727] -> d <= hi) /\
      business_days_between lo hi (bdate_range lo hi) /\
      reindexed_onto [19723; 19724; 19725; 19727]
        (map CNum [dec 40 1; NaN; NaN; dec 44 1]) (bdate_range lo hi) reindexed /\
      dict_get (metrics r) "largest_missing_business_gap" = Some (PyDict gaps) /\
      dict_get gaps "fred_DGS10" = Some (PyInt g) /\
      longest_null_run reindexed g /\
      (reindexed = [] -> g = 0).
Proof.
  eexists. split; [vm_compute; reflexivity|].
  apply (largest_gap_metric env_a gappy_df ["fred_DGS10"] [] [] [] _
           [19723; 19724; 19725; 19727] "fred_DGS10"
           (numeric [dec 40 1; NaN; NaN; dec 44 1])).
  - vm_compute. reflexivity.
  - left. reflexivity.
  - apply list_elem_of_here.
  - reflexivity.
Defined.

Example largest_gap_metric_value :
  exists r gaps,
    validate_dataset env_a gappy_df ["fred_DGS10"] [] [] [] = Ok r /\
    dict_get (metrics r) "largest_missing_business_gap" = Some (PyDict gaps) /\
    dict_get gaps "fred_DGS10" = Some (PyInt 3).
Proof. eexists. eexists. split; [vm_compute; reflexivity|]. split; reflexivity. Qed.

(** A span without a business day: the reindexed column is empty and
    the metric is 0, though the one row of the column is null. *)
Example largest_gap_weekend :
  exists r gaps,
    validate_dataset env_a weekend_df ["fred_DGS10"] [] [] [] = Ok r /\
    bdate_range 19728 19728 = [] /\
    dict_get (metrics r) "largest_missing_business_gap" = Some (PyDict gaps) /\
    dict_get gaps "fred_DGS10" = Some (PyInt 0).
Proof.
  eexists. eexists. split; [vm_compute; reflexivity|]. split; [reflexivity|].
  split; reflexivity.
Qed.

(** The same table with its index given by timestamps in UTC. *)
Example largest_gap_metric_stamped :
  utc_dates (index stamped_df) [19723; 19724; 19725; 19727] /\
  exists r gaps,
    validate_dataset env_a stamped_df ["fred_DGS10"] [] [] [] = Ok r /\
    dict_get (metrics r) "largest_missing_business_gap" = Some (PyDict gaps) /\
    dict_get gaps "fred_DGS10" = Some (PyInt 3).
Proof.
  split; [right; reflexivity|].
  eexists. eexists. split; [vm_compute; reflexivity|]. split; reflexivity.
Qed.

(** Labels without a time zone: the calendar, which is in UTC, finds none
    of them, and a column with a value on each of its five business days
    gets the metric 5. Labels in UTC at 9, 10, 9, 11 and 10 o'clock: the
    calendar runs at 9 o'clock, finds the first and the third, and the
    metric is 2. So the metric is not, on every date index, the longest
    run of nulls of the column laid out on the business days of its
    dates. *)
Lemma largest_gap_metric_needs_utc :
  (exists r gaps,
     validate_dataset env_a naive_df ["fred_DGS10"] [] [] [] = Ok r /\
     dict_get (metrics r) "largest_missing_business_gap" = Some (PyDict gaps) /\
     dict_get gaps "fred_DGS10" = Some (PyInt 5)) /\
  (exists r gaps,
     validate_dataset env_a intraday_df ["fred_DGS10"] [] [] [] = Ok r /\
     dict_get (metrics r) "largest_missing_business_gap" = Some (PyDict gaps) /\
     dict_get gaps "fred_DGS10" = Some (PyInt 2)) /\
  ~ (forall env (data : DataFrame QF) req opt mkt fred r col series,
       validate_dataset env data req opt mkt fred = Ok r ->
       col ∈ req -> dict_get (columns data) col = Some series ->
       exists lo hi gaps g reindexed,
         (lo ∈ index_dates (index data) /\
          forall d, d ∈ index_dates (index data) -> lo <= d) /\
         (hi ∈ index_dates (index data) /\
          forall d, d ∈ index_dates (index data) -> d <= hi) /\
         business_days_between lo hi (bdate_range lo hi) /\
         reindexed_onto (index_dates (index data)) (cells series)
           (bdate_range lo hi) reindexed /\
         dict_get (metrics r) "largest_missing_business_gap" = Some (PyDict gaps) /\
         dict_get gaps col = Some (PyInt g) /\
         longest_null_run reindexed g /\
         (reindexed = [] -> g = 0)).
Proof.
  split.
  { eexists. eexists. split; [vm_compute; reflexivity|]. split; reflexivity. }
  split.
  { eexists. eexists. split; [vm_compute; reflexivity|]. split; reflexivity. }
  intros Hall.
  destruct (validate_dataset env_a naive_df ["fred_DGS10"] [] [] [])
    as [r|e] eqn:Hr; [|vm_compute in Hr; discriminate].
  destruct (Hall env_a naive_df ["fred_DGS10"] [] [] [] r "fred_DGS10"
              (numeric [dec 40 1; dec 41 1; dec 42 1; dec 43 1; dec 44 1])
              Hr (list_elem_of_here _ _) eq_refl)
    as (lo & hi & gaps & g & reindexed & [Hlo Hmin] & [Hhi Hmax] & _ & [Hlen Hrows]
        & Hgaps & Hg & (n & Hn & [i Hrun] & _) & _).
  change (index_dates (index naive_df)) with week in *.
  assert (lo = 19723) as ->.
  { pose proof (Hmin 19723 (list_elem_of_here _ _)).
    unfold week in Hlo. rewrite !elem_of_cons in Hlo.
    destruct Hlo as [->|[->|[->|[->|[->|Hnil]]]]]; try lia. by apply elem_of_nil in Hnil. }
  assert (hi = 19727) as ->.
  { assert (Hlast : 19727 ∈ week) by (apply (bool_decide_unpack _); vm_compute; exact I).
    pose proof (Hmax 19727 Hlast).
    unfold week in Hhi. rewrite !elem_of_cons in Hhi.
    destruct Hhi as [->|[->|[->|[->|[->|Hnil]]]]]; try lia. by apply elem_of_nil in Hnil. }
  change (bdate_range 19723 19727) with week in *.
  vm_compute in Hr. injection Hr as <-.
  vm_compute in Hgaps. injection Hgaps as <-.
  vm_compute in Hg. injection Hg as <-.
  assert (n = 5%nat) as -> by lia.
  destruct (Hrun i ltac:(lia)) as (c & Hc & Hna).
  assert (Hi : (i < 5)%nat).
  { apply lookup_lt_Some in Hc. change (length week) with 5%nat in Hlen. lia. }
  destruct (lookup_lt_is_Some_2 week i Hi) as [d Hd].
  set (cs := cells (numeric [dec 40 1; dec 41 1; dec 42 1; dec 43 1; dec 44 1])) in *.
  destruct (lookup_lt_is_Some_2 cs i Hi) as [c' Hc'].
  assert (Hfull : Forall (fun c => cell_isna c = false) cs) by (repeat constructor).
  destruct (Hrows i d c Hd Hc) as [(j & _ & Hj)|[Hno _]].
  - apply list_elem_of_lookup_2 in Hj.
    rewrite Forall_forall in Hfull. apply Hfull in Hj. congruence.
  - apply (Hno c'). by exists i.
Qed.

(** A first run on a world without a catalog, then a second run. *)
Lemma append_catalog_entry_appends_witness :
  exists w',
    append_catalog_entry catalog_path (entry_of "run-1") empty_world = (Ok tt, w') /\
    w_files w' !! catalog_path = Some (JsonFile (JArray [entry_of "run-1"])) /\
    exists w'',
      append_catalog_entry catalog_path (entry_of "run-2") w' = (Ok tt, w'') /\
      w_files w'' !! catalog_path =
        Some (JsonFile (JArray [entry_of "run-1"; entry_of "run-2"])).
Proof.
  destruct (append_catalog_entry_appends catalog_path (entry_of "run-1") empty_world []
              eq_refl) as (_ & _ & w' & Hrun & Hfile & _ & Hnext).
  exists w'. split; [exact Hrun|]. split; [exact Hfile|].
  destruct (Hnext (entry_of "run-2")) as (w'' & Hrun2 & Hfile2).
  exists w''. split; [exact Hrun2|exact Hfile2].
Defined.

(** A catalog that holds one bare object becomes an array of two. *)
Example append_catalog_entry_coerces :
  let w := mkWorld env_a ∅ {[ catalog_path := JsonFile (entry_of "run-0") ]} in
  exists w',
    append_catalog_entry catalog_path (entry_of "run-1") w = (Ok tt, w') /\
    w_files w' !! catalog_path =
      Some (JsonFile (JArray [entry_of "run-0"; entry_of "run-1"])).
Proof.
  intros w. eexists. split; [apply (append_catalog_entry_run _ _ _ [entry_of "run-0"]);
                             reflexivity|].
  simpl. by rewrite lookup_insert_eq.
Qed.

(** The table without rows: nothing from the partitioned writer, one
    file of 0 rows from the standardized writer. *)
Lemma empty_table_writers_witness :
  write_partitioned_by_year empty_df ["data"] "fred" "run-1" empty_world =
    (Ok [], empty_world) /\
  exists w',
    write_standardized empty_df ["data"] "run-1" empty_world =
      (Ok (mkWriteResult "data/standardized/run_id=run-1.parquet" 0), w') /\
    w_files w' = <[ ["data"; "standardized"; "run_id=run-1.parquet"] := ParquetFile empty_df ]>
                   (w_files empty_world) /\
    w_env w' = w_env empty_world.
Proof.
  exact (empty_table_writers empty_df ["data"] "fred" "run-1" empty_world eq_refl).
Defined.

(** A table with rows is split by year. *)
Example write_partitioned_by_year_base :
  (write_partitioned_by_year base_df ["data"] "fred" "run-1" empty_world).1 =
    Ok [mkWriteResult "data/raw/source=fred/year=2024/run_id=run-1.parquet" 5].
Proof. vm_compute. reflexivity. Qed.

(** Two processes with the same table under the name 1, on the same
    date: two hash seeds, a catalog file and a second table in one of
    them only. *)
Lemma validate_dataset_deterministic_witness :
  exists outcome,
    validate_dataset_run 1 ["fred_DGS10"; "yfin_SPY__adj_close"; "zzz"; "aaa"] [] [] []
      process_a = (outcome, process_a) /\
    validate_dataset_run 1 ["fred_DGS10"; "yfin_SPY__adj_close"; "zzz"; "aaa"] [] [] []
      process_b = (outcome, process_b).
Proof.
  apply (validate_dataset_deterministic 1%positive negative_df
           ["fred_DGS10"; "yfin_SPY__adj_close"; "zzz"; "aaa"] [] [] []
           process_a process_b).
  - reflexivity.
  - reflexivity.
  - reflexivity.
  - apply remove_dups_valid.
  - apply reverse_remove_dups_valid.
Defined.

(** Other steps of the run do change the process: lines 103-104 of
    run_ingest.py replace the index of the merged table, and the writer
    adds a file. *)
Example standardize_index_changes_table :
  exists p',
    standardize_index 1 process_naive = (Ok tt, p') /\
    p_tables p' !! 1%positive =
      Some (mkDataFrame (Some "date") (DatetimeIndex week) (columns naive_df)) /\
    p_tables p' !! 1%positive ≠ p_tables process_naive !! 1%positive.
Proof.
  eexists. split; [vm_compute; reflexivity|]. split; [vm_compute; reflexivity|].
  vm_compute. discriminate.
Qed.

Example write_standardized_changes_files :
  exists r p',
    run_io (write_standardized negative_df ["data"] "run-1") process_a = (Ok r, p') /\
    w_files (p_world p') !! ["data"; "standardized"; "run_id=run-1.parquet"] =
      Some (ParquetFile negative_df) /\
    w_files (p_world process_a) !! ["data"; "standardized"; "run_id=run-1.parquet"] = None.
Proof.
  eexists. eexists. split; [vm_compute; reflexivity|]. split; vm_compute; reflexivity.
Qed.

(** Once its index is standardized, the table without a zone gets the
    metric 0. *)
Example largest_gap_after_standardize_index :
  exists p' r gaps,
    standardize_index 1 process_naive = (Ok tt, p') /\
    validate_dataset_run 1 ["fred_DGS10"] [] [] [] p' = (Ok r, p') /\
    dict_get (metrics r) "largest_missing_business_gap" = Some (PyDict gaps) /\
    dict_get gaps "fred_DGS10" = Some (PyInt 0).
Proof.
  eexists. eexists. eexists. split; [vm_compute; reflexivity|].
  split; [vm_compute; reflexivity|]. split; reflexivity.
Qed.

(** The nine keys of the report of the base table. *)
Lemma report_metrics_keys_witness :
  exists r,
    validate_dataset env_a base_df base_required ["yfin_SPY__volume"]
      ["yfin_SPY__adj_close"] ["fred_DGS10"; "fred_UNRATE"] = Ok r /\
    Forall (fun k => is_Some (dict_get (metrics r) k))
      ["row_count"; "column_count"; "missing_pct"; "largest_missing_business_gap";
       "latest_date"; "outlier_counts"; "stale_series"] /\
    dict_get (metrics r) "warnings_count" = Some (PyInt (Z.of_nat (length (warnings r)))) /\
    dict_get (metrics r) "errors_count" = Some (PyInt (Z.of_nat (length (errors r)))).
Proof.
  destruct (validate_dataset env_a base_df base_required ["yfin_SPY__volume"]
              ["yfin_SPY__adj_close"] ["fred_DGS10"; "fred_UNRATE"])
    as [r|e] eqn:Hr; [|vm_compute in Hr; discriminate].
  exists r. split; [reflexivity|].
  exact (report_metrics_keys env_a base_df base_required ["yfin_SPY__volume"]
           ["yfin_SPY__adj_close"] ["fred_DGS10"; "fred_UNRATE"] r Hr).
Defined.

(** The clean base table passes. *)
Example validate_dataset_base :
  exists r,
    validate_dataset env_a base_df base_required ["yfin_SPY__volume"]
      ["yfin_SPY__adj_close"] ["fred_DGS10"; "fred_UNRATE"] = Ok r /\
    is_success r = true /\ warnings r = [].
Proof. eexists. split; [vm_compute; reflexivity|]. split; reflexivity. Qed.

(** A jump of the price on one day of ninety is flagged. *)
Example zscore_flags_jump :
  count_true (_zscore_flags (map (fun z => Fin (inject_Z z)) (replicate 90 1 ++ [100; 100]))
                "pct_change") = 1.
Proof. vm_compute. reflexivity. Qed.

(** ** Further properties of the validation engine *)

Lemma monotonic_Sorted (l : list Z) :
  is_monotonic_increasing l = true <-> Sorted Z.le l.
Proof.
  induction l as [|x [|y l] IH].
  - split; [constructor|done].
  - split; [repeat constructor|done].
  - change (is_monotonic_increasing (x :: y :: l))
      with ((x <=? y) && is_monotonic_increasing (y :: l)).
    rewrite andb_true_iff, IH, Z.leb_le. split.
    + intros [Hxy Hs]. constructor; [done|]. by constructor.
    + intros Hs. inversion Hs as [|? ? Hs' Hd]; subst.
      inversion Hd; subst. done.
Qed.

Lemma strictly_increasing_spec (l : list Z) :
  StronglySorted Z.lt l <-> NoDup l /\ is_monotonic_increasing l = true.
Proof.
  rewrite monotonic_Sorted. split.
  - intros Hs. split.
    + induction Hs as [|x l Hs IH Hx]; constructor; [|done].
      intros Hin. rewrite Forall_forall in Hx. specialize (Hx _ Hin). lia.
    + apply StronglySorted_Sorted.
      induction Hs as [|x l Hs IH Hx]; constructor; [done|].
      eapply Forall_impl; [exact Hx|]. intros; simpl in *; lia.
  - intros [Hnd Hs]. apply (Sorted_StronglySorted _) in Hs.
    induction Hs as [|x l Hs IH Hx]; constructor.
    + apply IH. by inversion Hnd.
    + inversion Hnd as [|? ? Hnx _]; subst.
      rewrite Forall_forall in Hx |- *. intros y Hy.
      specialize (Hx _ Hy). assert (x <> y) by (intros ->; done). lia.
Qed.

Section Findings.
Context {F : Type} `{Float F}.

Lemma has_no_data_false (s : Series F) : has_no_data s = false <-> has_value s.
Proof.
  unfold has_no_data, has_value. induction (cells s) as [|c l IH]; simpl.
  - split; [done|]. intros (c & Hc & _). by apply elem_of_nil in Hc.
  - destruct (cell_isna c) eqn:Hc; simpl.
    + rewrite IH. split.
      * intros (c' & Hin & Hc'). exists c'. split; [by right|done].
      * intros (c' & Hin & Hc'). apply elem_of_cons in Hin as [-> | Hin]; [congruence|].
        by exists c'.
    + split; [|done]. intros _. exists c. split; [left|done].
Qed.

Lemma has_no_data_true (s : Series F) :
  has_no_data s = true <-> Forall (fun c => cell_isna c = true) (cells s).
Proof.
  unfold has_no_data. rewrite forallb_forall, Forall_forall.
  split; intros Hc c Hin; apply Hc; by apply list_elem_of_In.
Qed.

Lemma index_errors_nil (data : DataFrame F) :
  index_errors data = [] <->
  index_name data = Some "date" /\
  exists ds, (index data = DatetimeIndex ds \/ exists tz, index data = TimestampIndex tz ds) /\
             StronglySorted Z.lt ds.
Proof.
  unfold index_errors. split.
  - intros Herr. apply app_eq_nil in Herr as [Hn Hi].
    destruct (decide (index_name data = Some "date")) as [Hname|]; [|done].
    split; [done|]. destruct (index data) as [ds|n|tz ds]; [|done|].
    all: exists ds; (split; [first [by left|right; by exists tz]|]);
      apply app_eq_nil in Hi as [Hd Hm];
      apply strictly_increasing_spec; split;
      [unfold has_duplicates in Hd; destruct (bool_decide (¬ NoDup ds)) eqn:Hb; [done|];
       apply bool_decide_eq_false in Hb; by apply dec_stable
      |by destruct (is_monotonic_increasing ds)].
  - intros (Hname & ds & [-> | [tz ->]] & [Hnd Hm]%strictly_increasing_spec).
    all: rewrite decide_True by done; rewrite Hm; unfold has_duplicates;
      (rewrite bool_decide_eq_false_2; [done|]); by intros Hn.
Qed.

Lemma presence_errors_nil env (data : DataFrame F) req :
  valid_set_iter (set_iter env) ->
  presence_errors env data req = [] <-> forall c, c ∈ req -> c ∈ column_names data.
Proof.
  intros Hv. unfold presence_errors.
  destruct (sorted_missing_spec env req data Hv) as (_ & _ & Hin).
  destruct (sorted_missing env req data) as [|c l] eqn:Hm.
  - split; [|done]. intros _ c Hc.
    destruct (decide (c ∈ column_names data)) as [|Hn]; [done|].
    assert (c ∈ @nil string) as Hc' by (apply Hin; done). by apply elem_of_nil in Hc'.
  - split; [done|]. intros Hall.
    assert (c ∈ c :: l) as Hc by left. apply Hin in Hc as [Hc Hn]. by apply Hall in Hc.
Qed.

Lemma flat_map_nil {A B} (f : A -> list B) (l : list A) :
  flat_map f l = [] <-> forall x, x ∈ l -> f x = [].
Proof.
  induction l as [|x l IH]; simpl.
  - split; [|done]. intros _ x Hx. by apply elem_of_nil in Hx.
  - split.
    + intros [Hx Hl]%app_eq_nil y [-> | Hy]%elem_of_cons; [done|]. by apply IH.
    + intros Hall. rewrite (Hall x) by left. apply IH. intros y Hy. apply Hall. by right.
Qed.

Lemma summary_warnings_from_optional env data req opt mkt fred (v : @View F) :
  from FromOptionalPresence (warnings (summary_report env data req opt mkt fred v)) =
    presence_warnings env data opt.
Proof.
  unfold summary_report. cbn [warnings]. rewrite !from_app.
  rewrite (from_same _ _ (presence_warnings_origin env data opt)).
  rewrite (from_other _ _ _ (required_warnings_origin data req)) by done.
  rewrite (from_other _ _ _ (impossible_warnings_origin data _)) by done.
  rewrite (from_other _ _ _ (market_warnings_origin data mkt)) by done.
  rewrite (from_other _ _ _ (fred_warnings_origin data fred)) by done.
  rewrite (from_other _ _ _ (stale_warnings_origin _ _)) by done.
  by rewrite !app_nil_r.
Qed.

Lemma summary_warnings_from_required env data req opt mkt fred (v : @View F) :
  from FromRequiredColumn (warnings (summary_report env data req opt mkt fred v)) =
    flat_map (required_warnings data) req.
Proof.
  unfold summary_report. cbn [warnings]. rewrite !from_app.
  rewrite (from_other _ _ _ (presence_warnings_origin env data opt)) by done.
  rewrite (from_same _ _ (required_warnings_origin data req)).
  rewrite (from_other _ _ _ (impossible_warnings_origin data _)) by done.
  rewrite (from_other _ _ _ (market_warnings_origin data mkt)) by done.
  rewrite (from_other _ _ _ (fred_warnings_origin data fred)) by done.
  rewrite (from_other _ _ _ (stale_warnings_origin _ _)) by done.
  by rewrite !app_nil_r.
Qed.

Lemma summary_errors_from_index env data req opt mkt fred (v : @View F) :
  from FromIndex (errors (summary_report env data req opt mkt fred v)) = index_errors data.
Proof.
  unfold summary_report. cbn [errors]. rewrite !from_app.
  rewrite (from_same _ _ (index_errors_origin data)).
  rewrite (from_other _ _ _ (presence_errors_origin env data req)) by done.
  rewrite (from_other _ _ _ (required_errors_origin data req)) by done.
  by rewrite !app_nil_r.
Qed.

Lemma summary_errors_from_required env data req opt mkt fred (v : @View F) :
  from FromRequiredColumn (errors (summary_report env data req opt mkt fred v)) =
    flat_map (required_errors data) req.
Proof.
  unfold summary_report. cbn [errors]. rewrite !from_app.
  rewrite (from_other _ _ _ (index_errors_origin data)) by done.
  rewrite (from_other _ _ _ (presence_errors_origin env data req)) by done.
  rewrite (from_same _ _ (required_errors_origin data req)).
  done.
Qed.

Lemma elem_of_origin o (m : Message) (l : list Message) :
  origin m = o -> m ∈ l <-> m ∈ from o l.
Proof. intros Ho. rewrite elem_of_from. split; [done|by intros [? _]]. Qed.

End Findings.

Lemma count_true_cons (b : bool) (l : list bool) :
  count_true (b :: l) = (if b then 1 else 0) + count_true l.
Proof.
  unfold count_true. rewrite filter_cons. destruct b.
  - rewrite decide_True by done. simpl length. lia.
  - rewrite decide_False by done. lia.
Qed.

Lemma count_true_bounds (l : list bool) : 0 <= count_true l <= Z.of_nat (length l).
Proof.
  induction l as [|b l IH]; [done|]. rewrite count_true_cons. simpl length.
  destruct b; lia.
Qed.

Lemma count_true_zero (l : list bool) : count_true l = 0 <-> Forall (eq false) l.
Proof.
  induction l as [|b l IH]; [by split|]. rewrite count_true_cons, Forall_cons.
  pose proof (count_true_bounds l). destruct b.
  - split; [lia|]. by intros [? _].
  - rewrite <- IH. split; [intros; split; [done|lia]|intros [_ ?]; lia].
Qed.

Section Integrity.
Context {F : Type} `{FloatLaws F}.

Lemma nan_count_mixed (s : Series F) :
  nan_count (to_numeric s) = isna_sum s + count_true (map non_numeric_text (cells s)).
Proof.
  unfold nan_count, to_numeric, isna_sum. induction (cells s) as [|c l IH]; [done|].
  simpl map. rewrite !count_true_cons, IH.
  destruct c as [x| |t]; simpl.
  - destruct (isnan x); lia.
  - rewrite isnan_nan. lia.
  - destruct (isnan (fparse t)); lia.
Qed.

Lemma mixed_iff (s : Series F) :
  nan_count (to_numeric s) = isna_sum s <-> all_numeric s.
Proof.
  rewrite nan_count_mixed. unfold all_numeric.
  transitivity (count_true (map non_numeric_text (cells s)) = 0); [lia|].
  rewrite count_true_zero, Forall_fmap. apply Forall_iff. intros c. simpl. naive_solver.
Qed.

Lemma required_errors_nil (data : DataFrame F) col series :
  dict_get (columns data) col = Some series ->
  required_errors data col = [] <-> has_value series /\ all_numeric series.
Proof.
  intros Hs. unfold required_errors. rewrite Hs.
  rewrite <- has_no_data_false, <- mixed_iff.
  destruct (has_no_data series); destruct (decide _); simpl;
    (split; [try done|try (by intros [? ?])]).
Qed.

(** X1: a report is a success exactly when the index is named [date] and
    is a date index, of either kind, in strictly increasing order, every
    required column is in the table, holds a value in some row and has no
    cell of text that is not a number. Warnings play no part. *)
Theorem success_iff_clean env (data : DataFrame F) req opt mkt fred r :
  valid_set_iter (set_iter env) ->
  validate_dataset env data req opt mkt fred = Ok r ->
  is_success r = true <->
    index_name data = Some "date" /\
    (exists ds, (index data = DatetimeIndex ds \/
                 exists tz, index data = TimestampIndex tz ds) /\
                StronglySorted Z.lt ds) /\
    forall col, col ∈ req ->
      exists series, dict_get (columns data) col = Some series /\
                     has_value series /\ all_numeric series.
Proof.
  intros Hv Hr. apply validate_dataset_Ok in Hr as (v & _ & ->).
  unfold is_success. rewrite bool_decide_eq_true, length_zero_iff_nil.
  unfold summary_report. cbn [errors].
  split.
  - intros [Hi [Hp Hc]%app_eq_nil]%app_eq_nil.
    pose proof (proj1 (flat_map_nil _ _) Hc) as Hc'.
    apply index_errors_nil in Hi as [Hname Hds]. split; [done|]. split; [done|].
    intros col Hcol. rewrite (presence_errors_nil env data req Hv) in Hp.
    specialize (Hp col Hcol).
    destruct (dict_get (columns data) col) as [series|] eqn:Hs.
    + exists series. split; [done|]. apply (required_errors_nil data col); [done|].
      by apply Hc'.
    + by apply dict_get_None in Hs.
  - intros (Hname & Hds & Hcols).
    rewrite (proj2 (index_errors_nil data)) by done.
    rewrite (proj2 (presence_errors_nil env data req Hv)).
    + simpl. apply flat_map_nil. intros col Hcol.
      destruct (Hcols col Hcol) as (series & Hs & Hval & Hnum).
      by apply (required_errors_nil data col series).
    + intros col Hcol. destruct (Hcols col Hcol) as (series & Hs & _).
      by eapply dict_get_Some_key.
Qed.

End Integrity.

(** A message is not one of a few given ones. *)
Ltac not_listed :=
  let Hin := fresh "Hin" in
  intros Hin;
  repeat (apply elem_of_cons in Hin as [Hin|Hin]; [discriminate Hin|]);
  by apply elem_of_nil in Hin.

Section Columns.
Context {F : Type} `{Float F}.

(** X2: each optional column that the table lacks yields one warning, the
    warnings come in sorted order of the column names, and the optional
    set has no part in the errors: with any other optional set the call
    returns a report with the same errors and the same answer of
    [is_success]. *)
Theorem optional_columns_only_warn env (data : DataFrame F) req opt opt' mkt fred r :
  valid_set_iter (set_iter env) ->
  validate_dataset env data req opt mkt fred = Ok r ->
  (exists missing,
     from FromOptionalPresence (warnings r) = map OptionalUnavailable missing /\
     Sorted str_le missing /\ NoDup missing /\
     forall c, c ∈ missing <-> c ∈ opt /\ c ∉ column_names data) /\
  from FromOptionalPresence (errors r) = [] /\
  exists r', validate_dataset env data req opt' mkt fred = Ok r' /\
             errors r' = errors r /\ is_success r' = is_success r.
Proof.
  intros Hv (v & Hloop & ->)%validate_dataset_Ok. split; [|split].
  - exists (sorted_missing env opt data). rewrite summary_warnings_from_optional.
    split; [done|]. by apply sorted_missing_spec.
  - apply from_none. eapply Forall_impl; [apply summary_errors_origin|].
    intros m [-> | [-> | ->]]; done.
  - exists (summary_report env data req opt' mkt fred v).
    rewrite validate_dataset_summary, Hloop. done.
Qed.

Lemma row_of_cons (x : Z) (ds : list Z) (c : Cell F) (cs : list (Cell F)) d c' :
  row_of (x :: ds) (c :: cs) d c' <-> (x = d /\ c = c') \/ row_of ds cs d c'.
Proof.
  unfold row_of. split.
  - intros ([|j] & Hd & Hc); simpl in *; [left; split; congruence|right; by exists j].
  - intros [[-> ->] | (j & Hd & Hc)]; [by exists 0%nat|by exists (S j)].
Qed.

Lemma non_na_index_spec (ds : list Z) (cs : list (Cell F)) (d : Z) :
  d ∈ non_na_index ds cs <-> exists c, row_of ds cs d c /\ cell_isna c = false.
Proof.
  revert cs. induction ds as [|x ds IH]; intros [|c cs]; simpl.
  1-3: split; [by intros ?%elem_of_nil|];
       intros (c' & (j & Hd & Hc) & _); by destruct j.
  destruct (cell_isna c) eqn:Hc.
  - rewrite IH. split.
    + intros (c' & Hrow & Hc'). exists c'. split; [|done]. apply row_of_cons. by right.
    + intros (c' & [[-> ->] | Hrow]%row_of_cons & Hc'); [congruence|]. by exists c'.
  - rewrite elem_of_cons, IH. split.
    + intros [-> | (c' & Hrow & Hc')].
      * exists c. split; [|done]. apply row_of_cons. by left.
      * exists c'. split; [|done]. apply row_of_cons. by right.
    + intros (c' & [[-> ->] | Hrow]%row_of_cons & Hc'); [by left|]. right. by exists c'.
Qed.

Lemma list_max_None (l : list Z) : list_max l = None <-> l = [].
Proof. by destruct l. Qed.

(** X3: a report for a table that holds one of the required columns is a
    report on a table with rows, and it never carries the duplicate-dates
    error; on the default integer index there is such a report only if
    that column has no value in any row. *)
Theorem report_needs_unique_dates env (data : DataFrame F) req opt mkt fred r col series :
  validate_dataset env data req opt mkt fred = Ok r ->
  col ∈ req -> dict_get (columns data) col = Some series ->
  (index_len (index data) ≠ 0%nat) /\
  (DuplicateDates ∉ errors r) /\
  (forall n, index data = RangeIndex n ->
   forall j c, (j < n)%nat -> cells series !! j = Some c -> cell_isna c = true).
Proof.
  intros (v & Hloop & ->)%validate_dataset_Ok Hin Hcol.
  destruct (required_loop_records _ _ _ _ _ _ Hloop Hin Hcol) as (m & Hm & _).
  unfold column_metrics in Hm.
  destruct (business_calendar (index data)) as [b_idx|] eqn:Hb; [|done].
  cbn [mbind result_bind] in Hm.
  destruct (reindex (index data) series b_idx) as [reindexed|] eqn:Hre; [|done].
  cbn [mbind result_bind] in Hm.
  destruct (latest_observed (index data) series) as [latest|] eqn:Hl; [|done].
  split; [|split].
  - destruct (index data) as [[|d ds]|[|n]|tz [|d ds]]; done.
  - rewrite (elem_of_origin FromIndex) by done. rewrite summary_errors_from_index.
    unfold index_errors. unfold reindex in Hre.
    destruct (index data) as [ds|n|tz ds].
    + destruct (has_duplicates ds); [done|]. rewrite app_nil_l.
      destruct (decide _), (is_monotonic_increasing ds); simpl; not_listed.
    + destruct (decide _); simpl; not_listed.
    + destruct (has_duplicates ds); [done|]. rewrite app_nil_l.
      destruct (decide _), (is_monotonic_increasing ds); simpl; not_listed.
  - intros n Hn j c Hj Hc. unfold latest_observed in Hl. rewrite Hn in Hl. simpl in Hl.
    destruct (list_max _) as [hi|] eqn:Hmax; [done|].
    apply list_max_None in Hmax.
    destruct (cell_isna c) eqn:Hna; [done|].
    assert (Z.of_nat j ∈ non_na_index (seqZ 0 (Z.of_nat n)) (cells series)) as Hx.
    { apply non_na_index_spec. exists c. split; [|done]. exists j. split; [|done].
      rewrite lookup_seqZ. split; lia. }
    rewrite Hmax in Hx. by apply elem_of_nil in Hx.
Qed.

(** X5: on a date-indexed table, the [latest_date] metric of a required
    column is the greatest date of a row in which the column holds a
    value, and [None] exactly when it holds a value in no row. *)
Theorem latest_date_metric env (data : DataFrame F) req opt mkt fred r ds col series :
  validate_dataset env data req opt mkt fred = Ok r ->
  index data = DatetimeIndex ds ->
  col ∈ req -> dict_get (columns data) col = Some series ->
  exists latest value,
    dict_get (metrics r) "latest_date" = Some (PyDict latest) /\
    dict_get latest col = Some value /\
    ((value = PyNone /\
      forall d c, row_of ds (cells series) d c -> cell_isna c = true) \/
     (exists d, value = PyIsoDate d /\
        (exists c, row_of ds (cells series) d c /\ cell_isna c = false) /\
        forall d' c', row_of ds (cells series) d' c' -> cell_isna c' = false -> d' <= d)).
Proof.
  intros (v & Hloop & ->)%validate_dataset_Ok Hi Hin Hcol.
  destruct (required_loop_records _ _ _ _ _ _ Hloop Hin Hcol) as (m & Hm & _ & _ & Hlatest).
  exists (v_latest v), m.2. split; [reflexivity|]. split; [done|].
  unfold column_metrics in Hm.
  destruct (business_calendar (index data)) as [b_idx|]; [|done].
  cbn [mbind result_bind] in Hm.
  destruct (reindex (index data) series b_idx) as [reindexed|]; [|done].
  cbn [mbind result_bind] in Hm.
  destruct (latest_observed (index data) series) as [latest|] eqn:Hl; [|done].
  injection Hm as <-. cbn [snd]. unfold latest_observed in Hl. rewrite Hi in Hl.
  cbn [index_labels] in Hl.
  destruct (list_max (non_na_index ds (cells series))) as [hi|] eqn:Hmax.
  - injection Hl as <-. right. exists hi. split; [done|].
    apply list_max_spec in Hmax as [Hhi Hle]. split; [by apply non_na_index_spec|].
    intros d' c' Hrow Hc'. apply Hle. apply non_na_index_spec. by exists c'.
  - injection Hl as <-. left. split; [done|]. intros d c Hrow.
    apply list_max_None in Hmax. destruct (cell_isna c) eqn:Hc; [done|].
    assert (d ∈ non_na_index ds (cells series)) as Hx
      by (apply non_na_index_spec; by exists c).
    rewrite Hmax in Hx. by apply elem_of_nil in Hx.
Qed.

End Columns.

Section ColumnFindings.
Context {F : Type} `{FloatLaws F}.

Lemma required_errors_empty (data : DataFrame F) c col :
  EmptyData col ∈ required_errors data c <->
  c = col /\ exists series, dict_get (columns data) col = Some series /\ ~ has_value series.
Proof.
  unfold required_errors. split.
  - destruct (dict_get (columns data) c) as [series|] eqn:Hs; [|by intros ?%elem_of_nil].
    destruct (has_no_data series) eqn:Hd; destruct (decide _); simpl;
      rewrite ?elem_of_cons, ?elem_of_nil; intros Hin;
      repeat (destruct Hin as [Hin|Hin]); try done.
    all: injection Hin as ->; split; [done|]; exists series; split; [done|];
      intros Hv%has_no_data_false; congruence.
  - intros (-> & series & -> & Hv). rewrite <- has_no_data_false in Hv.
    destruct (has_no_data series); [|done]. apply elem_of_app. left. left.
Qed.

Lemma required_errors_mixed (data : DataFrame F) c col :
  MixedNonNumeric col ∈ required_errors data c <->
  c = col /\ exists series, dict_get (columns data) col = Some series /\ ~ all_numeric series.
Proof.
  unfold required_errors. split.
  - destruct (dict_get (columns data) c) as [series|] eqn:Hs; [|by intros ?%elem_of_nil].
    destruct (has_no_data series) eqn:Hd; destruct (decide _) as [He|He]; simpl;
      rewrite ?elem_of_cons, ?elem_of_nil; intros Hin;
      repeat (destruct Hin as [Hin|Hin]); try done.
    all: injection Hin as ->; split; [done|]; exists series; split; [done|];
      by rewrite <- mixed_iff.
  - intros (-> & series & -> & Hn). rewrite <- mixed_iff in Hn.
    rewrite decide_False by done. apply elem_of_app. right. left.
Qed.

Lemma required_warnings_object (data : DataFrame F) c col :
  ObjectDtype col ∈ required_warnings data c <->
  c = col /\ exists series, dict_get (columns data) col = Some series /\
                            dtype series = object_.
Proof.
  unfold required_warnings. split.
  - destruct (dict_get (columns data) c) as [series|] eqn:Hs; [|by intros ?%elem_of_nil].
    destruct (dtype series) eqn:Hd; [by intros ?%elem_of_nil|].
    intros [= ->]%list_elem_of_singleton. split; [done|]. by exists series.
  - intros (-> & series & -> & ->). left.
Qed.

(** X4: the findings of the loop over the required columns. A report
    carries the empty-data error for a column exactly when the column is
    required, is in the table and holds a value in no row; the
    non-numeric error exactly when it is required, in the table and has a
    cell of text that is not a number; the object-dtype warning exactly
    when it is required, in the table and of object dtype. A required
    column that the table lacks gets none of the three. *)
Theorem required_column_findings env (data : DataFrame F) req opt mkt fred r col :
  validate_dataset env data req opt mkt fred = Ok r ->
  (EmptyData col ∈ errors r <->
     col ∈ req /\ exists series,
       dict_get (columns data) col = Some series /\ ~ has_value series) /\
  (MixedNonNumeric col ∈ errors r <->
     col ∈ req /\ exists series,
       dict_get (columns data) col = Some series /\ ~ all_numeric series) /\
  (ObjectDtype col ∈ warnings r <->
     col ∈ req /\ exists series,
       dict_get (columns data) col = Some series /\ dtype series = object_).
Proof.
  intros (v & _ & ->)%validate_dataset_Ok. split; [|split].
  - rewrite (elem_of_origin FromRequiredColumn) by done.
    rewrite summary_errors_from_required, elem_of_flat_map. split.
    + intros (c & Hc & [-> Hs]%required_errors_empty). done.
    + intros [Hc Hs]. exists col. split; [done|]. by apply required_errors_empty.
  - rewrite (elem_of_origin FromRequiredColumn) by done.
    rewrite summary_errors_from_required, elem_of_flat_map. split.
    + intros (c & Hc & [-> Hs]%required_errors_mixed). done.
    + intros [Hc Hs]. exists col. split; [done|]. by apply required_errors_mixed.
  - rewrite (elem_of_origin FromRequiredColumn) by done.
    rewrite summary_warnings_from_required, elem_of_flat_map. split.
    + intros (c & Hc & [-> Hs]%required_warnings_object). done.
    + intros [Hc Hs]. exists col. split; [done|]. by apply required_warnings_object.
Qed.

End ColumnFindings.

Section PerColumn.
Context {F : Type} `{Float F}.

Lemma required_view_keys (data : DataFrame F) v col v' :
  required_view data v col = Ok v' ->
  dict_keys (v_missing_pct v) = dict_keys (v_latest v) ->
  dict_keys (v_gap v) = dict_keys (v_latest v) ->
  dict_keys (v_missing_pct v') = dict_keys (v_latest v') /\
  dict_keys (v_gap v') = dict_keys (v_latest v').
Proof.
  intros Hstep Hp Hg. apply required_view_step in Hstep.
  destruct (dict_get (columns data) col) as [series|]; [|by subst].
  destruct Hstep as (m & _ & ->). cbn [v_missing_pct v_gap v_latest].
  rewrite !dict_keys_set, Hp, Hg. done.
Qed.

Lemma required_loop_keys (data : DataFrame F) cols v v' :
  for_each (required_view data) cols v = Ok v' ->
  dict_keys (v_missing_pct v) = dict_keys (v_latest v) ->
  dict_keys (v_gap v) = dict_keys (v_latest v) ->
  dict_keys (v_missing_pct v') = dict_keys (v_latest v') /\
  dict_keys (v_gap v') = dict_keys (v_latest v').
Proof.
  revert v. induction cols as [|col cols IH]; intros v; simpl.
  - by intros [= ->].
  - destruct (required_view data v col) as [v1|] eqn:Hstep; [|done].
    cbn [mbind result_bind]. intros Hloop Hp Hg.
    destruct (required_view_keys _ _ _ _ Hstep Hp Hg). by apply (IH v1).
Qed.

Lemma column_metrics_shape (data : DataFrame F) series m :
  column_metrics data series = Ok m ->
  exists x g, m.1.1 = PyFloat x /\ m.1.2 = PyInt g /\ 0 <= g /\ date_or_none m.2.
Proof.
  unfold column_metrics.
  destruct (business_calendar (index data)) as [b_idx|]; [|done].
  cbn [mbind result_bind].
  destruct (reindex (index data) series b_idx) as [reindexed|]; [|done].
  cbn [mbind result_bind].
  destruct (latest_observed (index data) series) as [latest|] eqn:Hl; [|done].
  intros [= <-]. eexists _, _. split; [done|]. split; [done|]. split.
  - destruct (largest_gap_spec reindexed) as (n & -> & _). lia.
  - by eapply latest_observed_date_or_none.
Qed.

(** X6: the three per-column metrics of a report have the same keys, in
    the same order and each once: the required columns that the table
    holds. Under each key, [missing_pct] is a float, the gap a count that
    is not negative, and [latest_date] a date or [None]. *)
Theorem per_column_metrics_aligned env (data : DataFrame F) req opt mkt fred r :
  validate_dataset env data req opt mkt fred = Ok r ->
  exists pct gap latest,
    dict_get (metrics r) "missing_pct" = Some (PyDict pct) /\
    dict_get (metrics r) "largest_missing_business_gap" = Some (PyDict gap) /\
    dict_get (metrics r) "latest_date" = Some (PyDict latest) /\
    dict_keys pct = dict_keys latest /\ dict_keys gap = dict_keys latest /\
    NoDup (dict_keys latest) /\
    (forall col, col ∈ dict_keys latest <->
       col ∈ req /\ is_Some (dict_get (columns data) col)) /\
    forall col, col ∈ dict_keys latest ->
      exists x g value,
        dict_get pct col = Some (PyFloat x) /\
        dict_get gap col = Some (PyInt g) /\ 0 <= g /\
        dict_get latest col = Some value /\ date_or_none value.
Proof.
  intros (v & Hloop & ->)%validate_dataset_Ok.
  exists (v_missing_pct v), (v_gap v), (v_latest v).
  split; [reflexivity|]. split; [reflexivity|]. split; [reflexivity|].
  destruct (required_loop_keys _ _ _ _ Hloop) as [Hp Hg]; [done..|].
  split; [done|]. split; [done|]. split.
  { eapply required_loop_latest_NoDup; [done|]. constructor. }
  assert (forall col, col ∈ dict_keys (v_latest v) ->
            col ∈ req /\ is_Some (dict_get (columns data) col)) as Hkeys.
  { intros col Hcol.
    destruct (required_loop_latest_keys _ _ _ _ _ Hloop Hcol) as [Hnil|]; [|done].
    by apply elem_of_nil in Hnil. }
  split.
  - intros col. split; [apply Hkeys|]. intros [Hcol [series Hs]].
    destruct (required_loop_records _ _ _ _ _ _ Hloop Hcol Hs) as (m & _ & _ & _ & Hl).
    by eapply dict_get_Some_key.
  - intros col [Hcol [series Hs]]%Hkeys.
    destruct (required_loop_records _ _ _ _ _ _ Hloop Hcol Hs)
      as (m & Hm & Hpct & Hgap & Hl).
    destruct (column_metrics_shape _ _ _ Hm) as (x & g & Hx & Hgv & Hg0 & Hd).
    exists x, g, m.2. rewrite Hpct, Hgap, Hx, Hgv. done.
Qed.

Lemma impossible_rules_are_monitored (data : DataFrame F) entry :
  entry ∈ impossible_rules data -> monitored entry.1.
Proof.
  intros Hin. assert (entry.1 ∈ (impossible_rules data).*1) as Hk.
  { apply list_elem_of_fmap. by exists entry. }
  rewrite impossible_rules_keys in Hk. unfold monitored.
  apply elem_of_app in Hk as [Hk|Hk]; [by left|]. right.
  apply elem_of_app in Hk as [Hk|Hk]; apply list_elem_of_filter in Hk as [Hk _]; auto.
Qed.

Lemma summary_impossible_values env (data : DataFrame F) req opt mkt fred v col n :
  ImpossibleValues col n ∈ warnings (summary_report env data req opt mkt fred v) <->
    monitored col /\
    exists series, dict_get (columns data) col = Some series /\
                   n = negative_rows series /\ 0 < n.
Proof.
  rewrite (elem_of_origin FromSignRule) by done.
  rewrite summary_warnings_from_sign, elem_of_flat_map. split.
  - intros (entry & Hentry & Hin). unfold impossible_warnings in Hin.
    destruct (dict_get (columns data) entry.1) as [series|] eqn:Hs;
      [|by apply elem_of_nil in Hin].
    rewrite (impossible_rules_negative _ _ Hentry), count_true_map in Hin.
    fold (negative_rows series) in Hin.
    destruct (0 <? negative_rows series) eqn:Hpos; [|by apply elem_of_nil in Hin].
    apply list_elem_of_singleton in Hin. injection Hin as Hc Hn.
    apply impossible_rules_are_monitored in Hentry. rewrite <- Hc in Hentry, Hs.
    split; [done|]. exists series. split; [done|]. split; [done|]. lia.
  - intros (Hmon & series & Hs & -> & Hpos).
    exists (col, fun s : list F => map (fun x => fltb x (of_Z 0)) s).
    split; [by apply (impossible_rules_monitored _ _ series)|].
    unfold impossible_warnings. cbn [fst snd]. rewrite Hs, count_true_map.
    fold (negative_rows series). rewrite (proj2 (Z.ltb_lt _ _)) by done. left.
Qed.

(** X8: a report carries the warning [ImpossibleValues col n] exactly
    when the column is under a sign rule, is in the table, and has
    [n > 0] rows whose value is a negative number; a column under no rule
    is never warned about, whatever it holds. *)
Theorem impossible_values_iff env (data : DataFrame F) req opt mkt fred r col n :
  validate_dataset env data req opt mkt fred = Ok r ->
  ImpossibleValues col n ∈ warnings r <->
    monitored col /\
    exists series, dict_get (columns data) col = Some series /\
                   n = negative_rows series /\ 0 < n.
Proof.
  intros (v & _ & ->)%validate_dataset_Ok. apply summary_impossible_values.
Qed.

End PerColumn.

Section Staleness.
Context {F : Type} `{Float F}.

Lemma omap_stale_name_other o (l : list Message) :
  Forall (fun m => origin m = o) l -> o ≠ FromStaleness ->
  omap (@stale_name F) l = [].
Proof.
  intros Hl Ho. induction Hl as [|m l Hm _ IH]; [done|].
  destruct m; simpl in Hm; try congruence; exact IH.
Qed.

Lemma omap_stale_name_warnings now (items : list (string * PyVal F)) :
  omap stale_name (flat_map (stale_warnings now) items) =
    flat_map (stale_entries now) items.
Proof.
  induction items as [|item items IH]; [done|]. simpl.
  rewrite omap_app, IH. f_equal. unfold stale_warnings, stale_entries.
  by destruct (stale_finding now item) as [[[? ?] ?]|].
Qed.

Lemma stale_warnings_elem now (item : string * PyVal F) col d age threshold :
  StaleSeries col d age threshold ∈ stale_warnings now item ->
  item = (col, PyIsoDate d) /\ age = now - d /\
  threshold = (if startswith col "fred_" then 45 else 7) /\ threshold < age.
Proof.
  unfold stale_warnings, stale_finding, stale_threshold. destruct item as [c value].
  cbn [fst snd]. destruct value; try by intros ?%elem_of_nil.
  destruct (_ <? _) eqn:Hlt; [|by intros ?%elem_of_nil].
  intros [= -> -> -> ->]%list_elem_of_singleton. apply Z.ltb_lt in Hlt. done.
Qed.

(** X9: the [stale_series] metric lists the columns of the staleness
    warnings of the report, in the order of the warnings; and each such
    warning is justified: its column is a required column of the table
    whose [latest_date] is the date in the warning, the age is the number
    of days from that date to the current date, the threshold is 45 for a
    name with the prefix [fred_] and 7 otherwise, and the age is above
    the threshold. *)
Theorem stale_series_matches_warnings env (data : DataFrame F) req opt mkt fred r :
  validate_dataset env data req opt mkt fred = Ok r ->
  exists latest stale,
    dict_get (metrics r) "latest_date" = Some (PyDict latest) /\
    dict_get (metrics r) "stale_series" = Some (PyList stale) /\
    stale = omap stale_name (warnings r) /\
    forall col d age threshold,
      StaleSeries col d age threshold ∈ warnings r ->
      col ∈ req /\ is_Some (dict_get (columns data) col) /\
      dict_get latest col = Some (PyIsoDate d) /\
      age = today env - d /\
      threshold = (if startswith col "fred_" then 45 else 7) /\
      threshold < age.
Proof.
  intros (v & Hloop & ->)%validate_dataset_Ok.
  destruct (required_loop_frame _ _ _ _ Hloop) as (_ & _ & _ & Hstale).
  exists (v_latest v), (v_stale v ++ flat_map (stale_entries (today env)) (v_latest v)).
  split; [reflexivity|]. split; [reflexivity|]. split.
  - rewrite Hstale. unfold summary_report. cbn [warnings initial_view v_stale].
    rewrite !omap_app.
    rewrite (omap_stale_name_other _ _ (presence_warnings_origin env data opt)) by done.
    rewrite (omap_stale_name_other _ _ (required_warnings_origin data req)) by done.
    rewrite (omap_stale_name_other _ _ (impossible_warnings_origin data _)) by done.
    rewrite (omap_stale_name_other _ _ (market_warnings_origin data mkt)) by done.
    rewrite (omap_stale_name_other _ _ (fred_warnings_origin data fred)) by done.
    by rewrite omap_stale_name_warnings.
  - intros col d age threshold.
    rewrite (elem_of_origin FromStaleness) by done.
    rewrite summary_warnings_from_staleness, elem_of_flat_map.
    intros (item & Hitem & (-> & Hage & Hth & Hlt)%stale_warnings_elem).
    assert (NoDup (dict_keys (v_latest v))) as Hnd.
    { eapply required_loop_latest_NoDup; [done|]. constructor. }
    assert (col ∈ dict_keys (v_latest v)) as Hkey.
    { apply list_elem_of_fmap. by exists (col, PyIsoDate d). }
    destruct (required_loop_latest_keys _ _ _ _ _ Hloop Hkey) as [Hnil|[Hreq Hs]].
    { by apply elem_of_nil in Hnil. }
    split; [done|]. split; [done|]. split; [by apply dict_get_elem|]. done.
Qed.

(** X10: the findings of a report are grouped by the stage that found
    them, in the order of the stages: among the errors the index, then
    the missing required columns, then the required columns one by one;
    among the warnings the optional columns, the dtypes of the required
    columns, the sign rules, the market outliers, the macro outliers and
    the staleness check. *)
Theorem findings_in_stage_order env (data : DataFrame F) req opt mkt fred r :
  validate_dataset env data req opt mkt fred = Ok r ->
  errors r = from FromIndex (errors r) ++ from FromRequiredPresence (errors r)
             ++ from FromRequiredColumn (errors r) /\
  warnings r = from FromOptionalPresence (warnings r)
               ++ from FromRequiredColumn (warnings r)
               ++ from FromSignRule (warnings r)
               ++ from FromMarketOutliers (warnings r)
               ++ from FromFredOutliers (warnings r)
               ++ from FromStaleness (warnings r).
Proof.
  intros (v & _ & ->)%validate_dataset_Ok. split.
  - by rewrite summary_errors_from_index, summary_errors_from_presence,
      summary_errors_from_required.
  - by rewrite summary_warnings_from_optional, summary_warnings_from_required,
      summary_warnings_from_sign, summary_warnings_from_market,
      summary_warnings_from_fred, summary_warnings_from_staleness.
Qed.

Lemma outlier_fold_keys kind (data : DataFrame F) cols (counts : dict (PyVal F)) col :
  col ∈ dict_keys (fold_left (outlier_view kind data) cols counts) <->
  col ∈ dict_keys counts \/ (col ∈ cols /\ is_Some (dict_get (columns data) col)).
Proof.
  revert counts. induction cols as [|c cols IH]; intros counts; simpl.
  - split; [by left|]. intros [?|[?%elem_of_nil _]]; done.
  - rewrite IH. unfold outlier_view.
    destruct (dict_get (columns data) c) as [series|] eqn:Hs.
    + rewrite dict_keys_set. destruct (decide (c ∈ dict_keys counts)) as [Hc|Hc].
      * split; [intros [?|[? ?]]; [by left|right; split; [by right|done]]|].
        intros [?|[[-> | ?]%elem_of_cons ?]]; [by left|by left|by right].
      * rewrite elem_of_app, list_elem_of_singleton. split.
        -- intros [[?| ->]|[? ?]]; [by left|right; split; [left|by rewrite Hs]|].
           right. split; [by right|done].
        -- intros [?|[[-> | ?]%elem_of_cons ?]];
             [by left; left|by left; right|by right].
    + split; [intros [?|[? ?]]; [by left|right; split; [by right|done]]|].
      intros [?|[[-> | ?]%elem_of_cons Hsome]]; [by left| |by right].
      rewrite Hs in Hsome. by destruct Hsome.
Qed.

Lemma outlier_warnings_elem kind (warn : string -> Z -> Message) (data : DataFrame F) c m :
  m ∈ outlier_warnings kind warn data c <->
  exists series, dict_get (columns data) c = Some series /\
                 m = warn c (outlier_count kind series) /\ 0 < outlier_count kind series.
Proof.
  unfold outlier_warnings. destruct (dict_get (columns data) c) as [series|].
  - destruct (0 <? outlier_count kind series) eqn:Hpos.
    + apply Z.ltb_lt in Hpos. rewrite list_elem_of_singleton. split.
      * intros ->. by exists series.
      * by intros (? & [= <-] & -> & _).
    + apply Z.ltb_ge in Hpos. split; [by intros ?%elem_of_nil|].
      intros (? & [= <-] & _ & ?). lia.
  - split; [by intros ?%elem_of_nil|]. by intros (? & ? & _).
Qed.

(** X11: the [outlier_counts] metric has an entry for each market and
    each macro column that the table holds, and for no other column. The
    entry of a macro column counts the rows flagged on day-to-day
    differences, also when the column is a market column as well; that of
    any other market column counts the rows flagged on percentage
    changes. A market-outlier warning goes with a market column of the
    table with a positive count on percentage changes, a macro-outlier
    warning with a macro column with a positive count on differences. *)
Theorem outlier_counts_recorded env (data : DataFrame F) req opt mkt fred r :
  validate_dataset env data req opt mkt fred = Ok r ->
  exists counts,
    dict_get (metrics r) "outlier_counts" = Some (PyDict counts) /\
    (forall col, col ∈ dict_keys counts <->
       (col ∈ mkt \/ col ∈ fred) /\ is_Some (dict_get (columns data) col)) /\
    (forall col series, dict_get (columns data) col = Some series -> col ∈ fred ->
       dict_get counts col = Some (PyInt (outlier_count "abs_change" series))) /\
    (forall col series, dict_get (columns data) col = Some series ->
       col ∈ mkt -> col ∉ fred ->
       dict_get counts col = Some (PyInt (outlier_count "pct_change" series))) /\
    (forall col n, MarketOutlier col n ∈ warnings r <->
       col ∈ mkt /\ exists series, dict_get (columns data) col = Some series /\
                                   n = outlier_count "pct_change" series /\ 0 < n) /\
    (forall col n, FredOutlier col n ∈ warnings r <->
       col ∈ fred /\ exists series, dict_get (columns data) col = Some series /\
                                    n = outlier_count "abs_change" series /\ 0 < n).
Proof.
  intros (v & Hloop & ->)%validate_dataset_Ok.
  destruct (required_loop_frame _ _ _ _ Hloop) as (_ & _ & Hout & _).
  eexists. split; [reflexivity|]. rewrite Hout. cbn [initial_view v_outliers].
  split; [|split; [|split; [|split]]].
  - intros col. rewrite !outlier_fold_keys. split.
    + intros [[?%elem_of_nil|[? ?]]|[? ?]]; [done|split; [by left|done]|].
      split; [by right|done].
    + intros [[?|?] ?]; [left; right|right]; done.
  - intros col series Hs Hfred. by apply outlier_fold_get.
  - intros col series Hs Hmkt Hfred. rewrite outlier_fold_other by done.
    by apply outlier_fold_get.
  - intros col n. rewrite (elem_of_origin FromMarketOutliers) by done.
    rewrite summary_warnings_from_market, elem_of_flat_map. split.
    + intros (c & Hc & (series & Hs & [= -> ->] & Hpos)%outlier_warnings_elem).
      split; [done|]. by exists series.
    + intros (Hc & series & Hs & -> & Hpos). exists col. split; [done|].
      apply outlier_warnings_elem. by exists series.
  - intros col n. rewrite (elem_of_origin FromFredOutliers) by done.
    rewrite summary_warnings_from_fred, elem_of_flat_map. split.
    + intros (c & Hc & (series & Hs & [= -> ->] & Hpos)%outlier_warnings_elem).
      split; [done|]. by exists series.
    + intros (Hc & series & Hs & -> & Hpos). exists col. split; [done|].
      apply outlier_warnings_elem. by exists series.
Qed.

End Staleness.

Section GapBounds.
Context {F : Type} `{Float F}.

Lemma null_run_bound (l : list (Cell F)) (i n : nat) :
  null_run l i n -> (0 < n)%nat -> (i + n <= length l)%nat.
Proof.
  intros Hrun Hn. destruct (Hrun (i + n - 1)%nat) as (c & Hc & _); [lia|].
  apply lookup_lt_Some in Hc. lia.
Qed.

Lemma largest_gap_zero_iff (series : list (Cell F)) :
  _largest_consecutive_missing_business_days series = 0 <->
  Forall (fun c => cell_isna c = false) series.
Proof.
  destruct (largest_gap_spec series) as (n & -> & [i Hrun] & Hmax). split.
  - intros Hn. assert (n = 0%nat) as -> by lia.
    apply Forall_lookup. intros j c Hc. destruct (cell_isna c) eqn:Hna; [|done].
    assert (null_run series j 1) as Hone.
    { intros k Hk. assert (k = j) as -> by lia. by exists c. }
    apply Hmax in Hone. lia.
  - intros Hall. destruct n; [done|].
    destruct (Hrun i) as (c & Hc & Hna); [lia|].
    rewrite Forall_lookup in Hall. specialize (Hall _ _ Hc). simpl in Hall. congruence.
Qed.

(** X12: the largest gap of a series lies between 0 and the length of the
    series; it is 0 exactly when no cell is null, and the full length
    exactly when every cell is. *)
Theorem largest_gap_bounds (series : list (Cell F)) :
  0 <= _largest_consecutive_missing_business_days series <= Z.of_nat (length series) /\
  (_largest_consecutive_missing_business_days series = 0 <->
     Forall (fun c => cell_isna c = false) series) /\
  (_largest_consecutive_missing_business_days series = Z.of_nat (length series) <->
     Forall (fun c => cell_isna c = true) series).
Proof.
  split; [|split; [apply largest_gap_zero_iff|]];
    destruct (largest_gap_spec series) as (n & -> & [i Hrun] & Hmax);
    (assert (n <= length series)%nat as Hlen;
     [destruct n; [lia|]; pose proof (null_run_bound _ _ _ Hrun); lia|]).
  - lia.
  - split.
    + intros Hn. assert (n = length series) as -> by lia.
      apply Forall_lookup. intros j c Hc. pose proof (lookup_lt_Some _ _ _ Hc) as Hj.
      assert (i = 0%nat) as ->.
      { pose proof (null_run_bound _ _ _ Hrun). lia. }
      destruct (Hrun j) as (c' & Hc' & Hna); [lia|]. congruence.
    + intros Hall. f_equal. apply Nat.le_antisymm; [done|].
      apply (Hmax 0%nat). intros j Hj.
      destruct (lookup_lt_is_Some_2 series j) as [c Hc]; [lia|].
      exists c. split; [done|]. rewrite Forall_lookup in Hall. by apply (Hall j).
Qed.

End GapBounds.

Section Shape.
Context {F : Type} `{FloatLaws F}.

Lemma length_ffill_from (last : F) (l : list F) : length (ffill_from last l) = length l.
Proof.
  revert last. induction l as [|x l IH]; intros last; [done|]. simpl.
  destruct (isnan x); simpl; by rewrite IH.
Qed.

Lemma length_shift (l : list F) : length (shift l) = length l.
Proof. unfold shift. rewrite length_take. simpl. lia. Qed.

Lemma length_changes_of kind (values : list F) :
  length (changes_of kind values) = length values.
Proof.
  unfold changes_of, pct_change, diff, ffill. destruct (String.eqb kind "pct_change").
  - rewrite length_zip_with, length_shift, length_ffill_from. lia.
  - rewrite length_zip_with, length_shift. lia.
Qed.

Lemma changes_of_head kind (x : F) (l : list F) :
  exists c cs, changes_of kind (x :: l) = c :: cs /\ isnan c = true.
Proof.
  unfold changes_of, pct_change, diff, ffill, shift.
  destruct (String.eqb kind "pct_change").
  - simpl ffill_from. destruct (isnan x); simpl; eexists _, _; (split; [reflexivity|]);
      apply fsub_nan_l, fdiv_nan_r, isnan_nan.
  - simpl. eexists _, _. split; [reflexivity|]. apply fsub_nan_r, isnan_nan.
Qed.

Lemma zscore_flags_shape_length (values : list F) (kind : string) :
  length (_zscore_flags values kind) = length values /\
  _zscore_flags values kind !! 0%nat ≠ Some true.
Proof.
  unfold _zscore_flags. destruct values as [|x l]; [done|].
  fold (changes_of kind (x :: l)).
  destruct (isclose0 (nanstd (changes_of kind (x :: l)))).
  - split; [by rewrite length_map|done].
  - split; [by rewrite !length_map, length_changes_of|].
    destruct (changes_of_head kind x l) as (c & cs & -> & Hc). simpl.
    by rewrite fltb_nan_r by by apply fabs_nan, fdiv_nan_l, fsub_nan_l.
Qed.

(** X7: the outlier rule gives one flag per row, never flags the first
    row, whose change is undefined, and so flags fewer rows than the
    series has. *)
Theorem zscore_flags_shape (values : list F) (kind : string) :
  length (_zscore_flags values kind) = length values /\
  _zscore_flags values kind !! 0%nat ≠ Some true /\
  0 <= count_true (_zscore_flags values kind) <= Z.max 0 (Z.of_nat (length values) - 1).
Proof.
  destruct (zscore_flags_shape_length values kind) as [Hlen Hhead].
  split; [done|]. split; [done|].
  destruct (_zscore_flags values kind) as [|b flags];
    [change (count_true []) with 0; lia|].
  rewrite count_true_cons. pose proof (count_true_bounds flags).
  simpl in Hlen, Hhead. destruct b; [done|]. lia.
Qed.

Lemma zscore_flags_nan_change (values : list F) (kind : string) (i : nat) (c : F) :
  changes_of kind values !! i = Some c -> isnan c = true ->
  _zscore_flags values kind !! i = Some false.
Proof.
  intros Hc Hnan. unfold _zscore_flags. destruct values as [|x l].
  { unfold changes_of, pct_change, diff in Hc. by destruct (String.eqb kind "pct_change"). }
  fold (changes_of kind (x :: l)).
  destruct (isclose0 (nanstd (changes_of kind (x :: l)))).
  - apply lookup_lt_Some in Hc. rewrite length_changes_of in Hc.
    destruct (lookup_lt_is_Some_2 (x :: l) i Hc) as [y Hy].
    change (map ?f ?k) with (f <$> k). by rewrite list_lookup_fmap, Hy.
  - change (map ?f ?k) with (f <$> k). rewrite !list_lookup_fmap, Hc. simpl.
    by rewrite fltb_nan_r by by apply fabs_nan, fdiv_nan_l, fsub_nan_l.
Qed.

(** X13: on day-to-day differences, the rule of the macro series, a row
    whose value is null is never flagged, and neither is the row after
    it: both changes are undefined. *)
Theorem zscore_flags_skip_nulls (values : list F) (kind : string) (i : nat) (x : F) :
  String.eqb kind "pct_change" = false ->
  values !! i = Some x -> isnan x = true ->
  _zscore_flags values kind !! i = Some false /\
  _zscore_flags values kind !! S i ≠ Some true.
Proof.
  intros Hkind Hx Hnan.
  assert (changes_of kind values = zip_with fsub values (shift values)) as Hch.
  { unfold changes_of. by rewrite Hkind. }
  pose proof (lookup_lt_Some _ _ _ Hx) as Hi.
  assert (forall j, (j < length values)%nat -> shift values !! j = (nan :: values) !! j) as Hsh.
  { intros j Hj. unfold shift. by rewrite lookup_take_lt. }
  split.
  - destruct (lookup_lt_is_Some_2 (shift values) i) as [p Hp]; [by rewrite length_shift|].
    apply (zscore_flags_nan_change _ _ _ (fsub x p)); [|by apply fsub_nan_l].
    rewrite Hch, lookup_zip_with, Hx. simpl. by rewrite Hp.
  - destruct (values !! S i) as [y|] eqn:Hy.
    + rewrite (zscore_flags_nan_change _ _ _ (fsub y x)); [done| |by apply fsub_nan_r].
      rewrite Hch, lookup_zip_with, Hy. simpl.
      rewrite Hsh by (by apply lookup_lt_Some in Hy). simpl. by rewrite Hx.
    + apply lookup_ge_None in Hy. rewrite lookup_ge_None_2; [done|].
      destruct (zscore_flags_shape_length values kind). lia.
Qed.

End Shape.

Section Coverage.
Context {F : Type} `{FloatLaws F}.

Lemma row_of_unique (ds : list Z) (cs : list (Cell F)) d c c' :
  NoDup ds -> row_of ds cs d c -> row_of ds cs d c' -> c = c'.
Proof.
  intros Hnd (i & Hi & Hc) (j & Hj & Hc').
  assert (i = j) as -> by (by eapply NoDup_lookup). congruence.
Qed.

Lemma loc_has_value (ds : list Z) (cs : list (Cell F)) d :
  NoDup ds ->
  cell_isna (loc ds cs d) = false <-> exists c, row_of ds cs d c /\ cell_isna c = false.
Proof.
  intros Hnd. destruct (loc_spec ds cs d Hnd) as [Hrow|[Hno Hnan]].
  - split; [by exists (loc ds cs d)|].
    intros (c & Hc & Hna). by rewrite (row_of_unique _ _ _ _ _ Hnd Hrow Hc).
  - rewrite Hnan. simpl. rewrite isnan_nan. split; [done|].
    intros (c & Hc & _). by apply Hno in Hc.
Qed.

(** X20: on a table whose index holds calendar dates in UTC, one label
    per date at midnight, the [largest_missing_business_gap] of a required
    column is 0 exactly when the column holds a value on every
    Monday-to-Friday day from the first to the last date of the index; a
    business day without a row counts against it. *)
Theorem gap_zero_iff_covered env (data : DataFrame F) req opt mkt fred r ds col series :
  validate_dataset env data req opt mkt fred = Ok r ->
  utc_dates (index data) ds ->
  col ∈ req -> dict_get (columns data) col = Some series ->
  exists lo hi gaps g,
    (lo ∈ ds /\ forall d, d ∈ ds -> lo <= d) /\
    (hi ∈ ds /\ forall d, d ∈ ds -> d <= hi) /\
    dict_get (metrics r) "largest_missing_business_gap" = Some (PyDict gaps) /\
    dict_get gaps col = Some (PyInt g) /\
    (g = 0 <->
       forall d, lo <= d <= hi -> 0 <= weekday d < 5 ->
         exists c, row_of ds (cells series) d c /\ cell_isna c = false).
Proof.
  intros (v & Hloop & ->)%validate_dataset_Ok Hi Hin Hcol.
  destruct (required_loop_records _ _ _ _ _ _ Hloop Hin Hcol) as (m & Hm & _ & Hgap & _).
  destruct (column_metrics_utc_dates_inv _ _ _ _ Hi Hm) as (lo & hi & Hlo & Hhi & Hnd & Hg).
  exists lo, hi, (v_gap v), (_largest_consecutive_missing_business_days
                      (map (loc ds (cells series)) (bdate_range lo hi))).
  split; [by apply list_min_spec|]. split; [by apply list_max_spec|].
  split; [reflexivity|]. split; [by rewrite Hgap, Hg|].
  rewrite largest_gap_zero_iff. change (map ?f ?l) with (f <$> l).
  rewrite Forall_fmap, Forall_forall.
  destruct (bdate_range_spec lo hi) as [_ Hdays]. split.
  - intros Hall d Hd Hw. apply (loc_has_value ds (cells series) d Hnd).
    apply (Hall d). apply Hdays. done.
  - intros Hall d [Hd Hw]%Hdays. simpl.
    apply (loc_has_value ds (cells series) d Hnd). by apply Hall.
Qed.

End Coverage.

(** ** Further properties of the artifact writer *)

Lemma select_filter {A} (P : A -> Prop) `{!forall x, Decision (P x)} (l : list A) :
  select (map (fun x => bool_decide (P x)) l) l = filter P l.
Proof.
  induction l as [|x l IH]; [done|]. simpl. rewrite filter_cons.
  destruct (decide (P x)).
  - rewrite bool_decide_eq_true_2 by done. by rewrite IH.
  - rewrite bool_decide_eq_false_2 by done. done.
Qed.

Lemma select_row {A B} (mask : list bool) (l : list A) (k : list B) (j : nat) x y :
  mask !! j = Some true -> l !! j = Some x -> k !! j = Some y ->
  exists i, select mask l !! i = Some x /\ select mask k !! i = Some y.
Proof.
  revert l k j. induction mask as [|b mask IH]; intros l k j Hm Hl Hk.
  - by rewrite lookup_nil in Hm.
  - destruct l as [|x' l]; [by rewrite lookup_nil in Hl|].
    destruct k as [|y' k]; [by rewrite lookup_nil in Hk|].
    destruct j as [|j]; simpl in *.
    + injection Hm as ->. injection Hl as ->. injection Hk as ->. by exists 0%nat.
    + destruct (IH _ _ _ Hm Hl Hk) as (i & Hi1 & Hi2).
      destruct b; [by exists (S i)|by exists i].
Qed.

Lemma sum_split {A} (f g : A -> Z) (l : list A) :
  foldr Z.add 0 (map (fun y => f y + g y) l) =
    foldr Z.add 0 (map f l) + foldr Z.add 0 (map g l).
Proof. induction l as [|y l IH]; simpl; lia. Qed.

Lemma sum_indicator (x : Z) (l : list Z) :
  NoDup l -> x ∈ l ->
  foldr Z.add 0 (map (fun y => if decide (x = y) then 1 else 0) l) = 1.
Proof.
  assert (forall l, x ∉ l ->
            foldr Z.add 0 (map (fun y => if decide (x = y) then 1 else 0) l) = 0) as Hzero.
  { clear. intros l. induction l as [|y l IH]; [done|]. simpl.
    intros [Hy Hl]%not_elem_of_cons. rewrite decide_False by done. rewrite IH; done. }
  induction 1 as [|y l Hy Hnd IH]; [by intros ?%elem_of_nil|]. simpl.
  intros [-> | Hx]%elem_of_cons.
  - rewrite decide_True by done. rewrite Hzero; done.
  - rewrite decide_False by (intros ->; done). rewrite IH; done.
Qed.

Lemma rows_in_year_cons (d : Z) (ds : list Z) (y : Z) :
  rows_in_year (d :: ds) y =
    (if decide (year_of_day d = y) then 1 else 0) + rows_in_year ds y.
Proof.
  unfold rows_in_year. rewrite filter_cons. destruct (decide _); simpl length; lia.
Qed.

Lemma rows_in_year_sum (ds years : list Z) :
  NoDup years -> (forall d, d ∈ ds -> year_of_day d ∈ years) ->
  foldr Z.add 0 (map (rows_in_year ds) years) = Z.of_nat (length ds).
Proof.
  intros Hnd. induction ds as [|d ds IH]; intros Hall.
  - simpl. clear. induction years as [|y years IH]; [done|]. simpl. by rewrite IH.
  - rewrite (map_ext _ _ (rows_in_year_cons d ds)), sum_split.
    rewrite sum_indicator; [|done|apply Hall; left].
    rewrite IH by (intros d' Hd'; apply Hall; by right). simpl length. lia.
Qed.

Lemma concat_path_inj (base : list string) (a b1 b2 : string) :
  path_str (base ++ [a; b1]) = path_str (base ++ [a; b2]) -> b1 = b2.
Proof.
  unfold path_str. induction base as [|c base IH].
  - simpl. intros Heq. by do 2 apply String.app_inj in Heq.
  - change ((c :: base) ++ [a; b1]) with (c :: (base ++ [a; b1])).
    change ((c :: base) ++ [a; b2]) with (c :: (base ++ [a; b2])).
    destruct base as [|c' base]; simpl in *.
    + intros Heq. by do 4 apply String.app_inj in Heq.
    + intros Heq. do 2 apply String.app_inj in Heq. by apply IH.
Qed.

Lemma string_length_app (s t : string) :
  String.length (s +:+ t) = (String.length s + String.length t)%nat.
Proof. induction s as [|a s IH]; simpl; [done|]. by rewrite IH. Qed.

Lemma append_suffix_inj (s1 s2 t : string) : s1 +:+ t = s2 +:+ t -> s1 = s2.
Proof.
  revert s2. induction s1 as [|a s1 IH]; intros [|b s2] Heq; [done| | |].
  - apply (f_equal String.length) in Heq. rewrite !string_length_app in Heq.
    simpl in Heq. lia.
  - apply (f_equal String.length) in Heq. rewrite !string_length_app in Heq.
    simpl in Heq. lia.
  - change (String a (s1 +:+ t) = String b (s2 +:+ t)) in Heq.
    injection Heq as -> Heq. f_equal. by apply IH.
Qed.

Section Writers.
Context {F : Type} `{Float F}.

Lemma year_path_inj base_dir source run_id : Inj (=) (=) (year_path base_dir source run_id).
Proof.
  intros y1 y2 Heq. unfold year_path in Heq. apply app_inv_head in Heq.
  injection Heq as Heq. apply String.app_inj in Heq. by apply pretty_Z_inj in Heq.
Qed.

Lemma frame_len_year_frame (df : DataFrame F) ds y :
  Z.of_nat (frame_len (year_frame df ds y)) = rows_in_year ds y /\
  index (year_frame df ds y) = DatetimeIndex (filter (fun d => year_of_day d = y) ds).
Proof.
  unfold frame_len, year_frame, select_rows, rows_in_year. cbn [index index_len].
  by rewrite (select_filter (fun d => year_of_day d = y)).
Qed.

Lemma write_years_run (df : DataFrame F) ds base_dir source run_id years results w :
  exists w',
    write_years df ds base_dir source run_id years results w =
      (Ok (results ++ map (fun y => mkWriteResult
                                      (path_str (year_path base_dir source run_id y))
                                      (rows_in_year ds y)) years), w') /\
    w_env w' = w_env w /\
    w_files w' =
      fold_left (fun m y => <[year_path base_dir source run_id y :=
                                ParquetFile (year_frame df ds y)]> m) years (w_files w).
Proof.
  revert results w. induction years as [|y years IH]; intros results w.
  - exists w. simpl. by rewrite app_nil_r.
  - simpl write_years. unfold io_bind at 1.
    change (_write_parquet ?d ?p w) with
      (Ok (mkWriteResult (path_str p) (Z.of_nat (frame_len d))),
       mkWorld (w_env w) (w_dirs w ∪ list_to_set (ancestors (parent p)))
         (<[p := ParquetFile d]> (w_files w))).
    cbv beta iota.
    edestruct IH as (w' & -> & Henv & Hfiles). exists w'.
    split; [|split; [done|by rewrite Hfiles]].
    fold (year_frame df ds y). destruct (frame_len_year_frame df ds y) as [-> _].
    by rewrite <- app_assoc.
Qed.

Lemma fold_insert_other {K V A} `{Countable K} (k : A -> K) (v : A -> V) (l : list A)
    (m : gmap K V) (q : K) :
  (forall y, y ∈ l -> q ≠ k y) ->
  fold_left (fun m y => <[k y := v y]> m) l m !! q = m !! q.
Proof.
  revert m. induction l as [|y l IH]; intros m Hq; [done|]. simpl.
  rewrite IH by (intros y' Hy'; apply Hq; by right).
  apply lookup_insert_ne. intros Heq. by apply (Hq y); [left|].
Qed.

Lemma fold_insert_lookup {K V A} `{Countable K} (k : A -> K) (v : A -> V) (l : list A)
    (m : gmap K V) (y : A) :
  Inj (=) (=) k -> y ∈ l ->
  fold_left (fun m y => <[k y := v y]> m) l m !! k y = Some (v y).
Proof.
  intros Hinj. revert m. induction l as [|y' l IH]; intros m; [by intros ?%elem_of_nil|].
  simpl. intros Hy. destruct (decide (k y ∈ map k l)) as [Hl|Hl].
  - apply IH. apply list_elem_of_fmap in Hl as (y1 & Heq & Hin).
    apply Hinj in Heq. by subst.
  - apply elem_of_cons in Hy as [-> | Hy].
    + rewrite fold_insert_other; [apply lookup_insert_eq|].
      intros y Hy Heq. apply Hl. apply list_elem_of_fmap. by exists y.
    + exfalso. apply Hl. apply list_elem_of_fmap. by exists y.
Qed.

Lemma dict_get_map_series (g : Series F -> Series F) (cols : list (string * Series F)) col :
  dict_get (map (fun '(c, s) => (c, g s)) cols) col = g <$> dict_get cols col.
Proof.
  induction cols as [|[c s] cols IH]; [done|]. simpl.
  destruct (decide (c = col)); [done|]. apply IH.
Qed.

(** X14: on a date-indexed table with rows and columns,
    [write_partitioned_by_year] writes one file for each year that has a
    row, and returns their records in increasing order of the year. The
    file of a year holds the rows of that year, at least one; every row of
    the table is in the file of its year with the values it has in the
    table; the row counts of the records add up to the number of rows of
    the table, and no other file is touched. *)
Theorem write_partitioned_by_year_partition (df : DataFrame F) (base_dir : Path)
    (source run_id : string) (w : World F) (ds : list Z) :
  no_slash source = true -> no_slash run_id = true ->
  index df = DatetimeIndex ds -> frame_empty df = false ->
  exists years results w',
    write_partitioned_by_year df base_dir source run_id w = (Ok results, w') /\
    results = map (fun y => mkWriteResult (path_str (year_path base_dir source run_id y))
                              (rows_in_year ds y)) years /\
    StronglySorted Z.lt years /\
    (forall y, y ∈ years <-> exists d, d ∈ ds /\ year_of_day d = y) /\
    (forall y, y ∈ years ->
       0 < rows_in_year ds y /\
       w_files w' !! year_path base_dir source run_id y =
         Some (ParquetFile (year_frame df ds y)) /\
       index (year_frame df ds y) =
         DatetimeIndex (filter (fun d => year_of_day d = y) ds)) /\
    (forall j d col series x,
       ds !! j = Some d -> dict_get (columns df) col = Some series ->
       cells series !! j = Some x ->
       exists series' i,
         dict_get (columns (year_frame df ds (year_of_day d))) col = Some series' /\
         filter (fun d' => year_of_day d' = year_of_day d) ds !! i = Some d /\
         cells series' !! i = Some x) /\
    total_rows results = Z.of_nat (length ds) /\
    (forall q, (forall y, y ∈ years -> q ≠ year_path base_dir source run_id y) ->
       w_files w' !! q = w_files w !! q) /\
    w_env w' = w_env w.
Proof.
  intros _ _ Hi Hempty. unfold write_partitioned_by_year. rewrite Hempty, Hi.
  set (years := merge_sort Z.le (remove_dups (map year_of_day ds))).
  destruct (write_years_run df ds base_dir source run_id years [] w)
    as (w' & Hrun & Henv & Hfiles).
  assert (years ≡ₚ remove_dups (map year_of_day ds)) as Hperm
    by apply merge_sort_Permutation.
  assert (NoDup years) as Hnd by (rewrite Hperm; apply NoDup_remove_dups).
  assert (forall y, y ∈ years <-> exists d, d ∈ ds /\ year_of_day d = y) as Hyears.
  { intros y. rewrite Hperm, elem_of_remove_dups.
    change (map year_of_day ds) with (year_of_day <$> ds).
    rewrite list_elem_of_fmap. split; intros (d & ? & ?); by exists d. }
  eexists years, _, w'. split; [exact Hrun|]. split; [done|]. split.
  { apply strictly_increasing_spec. split; [done|]. apply monotonic_Sorted.
    apply (Sorted_merge_sort Z.le). }
  split; [done|]. split; [|split; [|split; [|split; [|done]]]].
  - intros y Hy. split; [|split].
    + apply Hyears in Hy as (d & Hd & Hy). unfold rows_in_year.
      assert (d ∈ filter (fun d => year_of_day d = y) ds) as Hin
        by by apply list_elem_of_filter.
      destruct (filter _ ds); [by apply elem_of_nil in Hin|]. simpl length. lia.
    + rewrite Hfiles.
      apply (fold_insert_lookup (year_path base_dir source run_id)
               (fun y => ParquetFile (year_frame df ds y))); [|done].
      apply year_path_inj.
    + apply frame_len_year_frame.
  - intros j d col series x Hd Hs Hx. unfold year_frame, select_rows. cbn [columns].
    rewrite dict_get_map_series, Hs. cbn [fmap option_fmap option_map cells].
    rewrite <- (select_filter (fun d' => year_of_day d' = year_of_day d)).
    destruct (select_row (map (fun d' => bool_decide (year_of_day d' = year_of_day d)) ds)
                ds (cells series) j d x) as (i & Hi1 & Hi2); [|done|done|].
    { change (map ?f ds) with (f <$> ds). rewrite list_lookup_fmap, Hd. simpl.
      by rewrite bool_decide_eq_true_2. }
    eexists _, i. split; [reflexivity|]. done.
  - unfold total_rows. rewrite app_nil_l, map_map. cbn [rows].
    apply rows_in_year_sum; [done|]. intros d Hd. apply Hyears. by exists d.
  - intros q Hq. rewrite Hfiles. by apply fold_insert_other.
Qed.

(** X15: the merged tables of two runs are kept side by side. Writing a
    table under one run identifier and then a table under another leaves
    both files in place, each with its table, under two different paths,
    and changes no other file. *)
Theorem write_standardized_runs_coexist (df1 df2 : DataFrame F) (base_dir : Path)
    (run1 run2 : string) (w : World F) :
  no_slash run1 = true -> no_slash run2 = true -> run1 ≠ run2 ->
  exists res1 w1 res2 w2,
    write_standardized df1 base_dir run1 w = (Ok res1, w1) /\
    write_standardized df2 base_dir run2 w1 = (Ok res2, w2) /\
    path res1 ≠ path res2 /\
    rows res1 = Z.of_nat (frame_len df1) /\ rows res2 = Z.of_nat (frame_len df2) /\
    w_files w2 !! standardized_path base_dir run1 = Some (ParquetFile df1) /\
    w_files w2 !! standardized_path base_dir run2 = Some (ParquetFile df2) /\
    forall q, q ≠ standardized_path base_dir run1 -> q ≠ standardized_path base_dir run2 ->
              w_files w2 !! q = w_files w !! q.
Proof.
  intros _ _ Hne. eexists _, _, _, _. split; [reflexivity|]. split; [reflexivity|].
  assert (standardized_path base_dir run1 ≠ standardized_path base_dir run2) as Hp.
  { unfold standardized_path. intros Heq%app_inv_head. injection Heq as Heq.
    apply String.app_inj, append_suffix_inj in Heq. done. }
  cbn [path rows w_files]. fold (standardized_path base_dir run1).
  fold (standardized_path base_dir run2).
  split; [|split; [done|split; [done|split; [|split]]]].
  - unfold standardized_path. intros Heq%concat_path_inj.
    apply String.app_inj, append_suffix_inj in Heq. done.
  - rewrite lookup_insert_ne by done. apply lookup_insert_eq.
  - apply lookup_insert_eq.
  - intros q Hq1 Hq2. by rewrite !lookup_insert_ne.
Qed.

(** X16: a catalog file that does not hold a JSON document is left as it
    is: [append_catalog_entry] raises before it writes, and the files are
    those of before the call. *)
Theorem append_catalog_entry_unreadable (p : Path) (entry : JSON F) (w : World F)
    (df : DataFrame F) :
  w_files w !! p = Some (ParquetFile df) ->
  exists e w',
    append_catalog_entry p entry w = (Raise e, w') /\
    w_files w' = w_files w /\ w_env w' = w_env w /\
    catalog_entries p w' = None.
Proof.
  intros Hp. unfold append_catalog_entry, io_bind, mkdir_parents, path_exists, read_json.
  cbn [w_files]. rewrite Hp. rewrite bool_decide_eq_true_2 by done.
  cbn [w_files]. rewrite Hp. eexists _, _. split; [reflexivity|].
  split; [done|]. split; [done|]. unfold catalog_entries. cbn [w_files]. by rewrite Hp.
Qed.

End Writers.

(** ** The column contract of [main] *)

Lemma substring_all (t : string) : substring 0 (String.length t) t = t.
Proof. induction t as [|a t IH]; [done|]. simpl. by rewrite IH. Qed.

Lemma substring_app (p t : string) :
  substring (String.length p) (String.length t) (p +:+ t) = t.
Proof.
  induction p as [|a p IH]; [apply substring_all|].
  change (String a p +:+ t) with (String a (p +:+ t)). simpl. apply IH.
Qed.

Lemma endswith_app (p t : string) : endswith (p +:+ t) t = true.
Proof.
  unfold endswith. rewrite string_length_app.
  replace (String.length p + String.length t - String.length t)%nat
    with (String.length p) by lia.
  rewrite substring_app, String.eqb_refl, andb_true_r. apply Nat.leb_le. lia.
Qed.

Lemma string_app_assoc (a b c : string) : (a +:+ b) +:+ c = a +:+ (b +:+ c).
Proof.
  induction a as [|x a IH]; [done|].
  change (String x (a +:+ b) +:+ c = String x (a +:+ (b +:+ c))).
  change (String x ((a +:+ b) +:+ c) = String x (a +:+ (b +:+ c))). by rewrite IH.
Qed.

Lemma expected_fred_prefix (fred_series : list string) col :
  col ∈ expected_fred fred_series -> startswith col "fred_" = true.
Proof.
  unfold expected_fred. change (map ?f ?l) with (f <$> l).
  intros (s & -> & _)%list_elem_of_fmap. by destruct s.
Qed.

Lemma required_market_suffix (tickers : list string) col :
  col ∈ required_market tickers ->
  startswith col "fred_" = false /\ endswith col "__adj_close" = true.
Proof.
  unfold required_market. change (map ?f ?l) with (f <$> l).
  intros (t & -> & _)%list_elem_of_fmap. split; [reflexivity|].
  rewrite <- string_app_assoc. apply endswith_app.
Qed.

Lemma optional_market_suffix (tickers : list string) col :
  col ∈ optional_market tickers ->
  startswith col "fred_" = false /\ endswith col "__volume" = true.
Proof.
  unfold optional_market. change (map ?f ?l) with (f <$> l).
  intros (t & -> & _)%list_elem_of_fmap. split; [reflexivity|].
  rewrite <- string_app_assoc. apply endswith_app.
Qed.

Lemma required_not_optional (fred_series tickers : list string) col :
  col ∈ required_columns fred_series tickers -> col ∉ optional_market tickers.
Proof.
  unfold required_columns. intros [Hf|Hm]%elem_of_app Ho.
  - apply expected_fred_prefix in Hf. apply optional_market_suffix in Ho as [Ho _].
    congruence.
  - apply required_market_suffix in Hm as [_ Hm].
    apply optional_market_suffix in Ho as [_ Ho].
    by apply (endswith_adj_close_volume col).
Qed.

Lemma expected_columns_monitored (tickers : list string) col :
  col ∈ all_expected_columns FRED_SERIES tickers -> monitored col.
Proof.
  unfold all_expected_columns, required_columns, monitored.
  intros [[Hf|Hm]%elem_of_app|Ho]%elem_of_app.
  - by left.
  - right. left. by apply (required_market_suffix tickers).
  - right. right. by apply (optional_market_suffix tickers).
Qed.

Section Pipeline.
Context {F : Type} `{Float F}.

(** X17: in the call [main] makes, the staleness threshold follows the
    declared macro set. For the column sets [main] builds from any series
    and tickers, a column with a latest date is given 45 days if it is one
    of the expected macro columns and 7 days otherwise; it gets one
    staleness warning when its age is above that, and none when not. *)
Theorem pipeline_staleness_by_declared_set env (merged : DataFrame F)
    (fred_series tickers : list string) r latest col d :
  validate_merged env merged fred_series tickers = Ok r ->
  dict_get (metrics r) "latest_date" = Some (PyDict latest) ->
  dict_get latest col = Some (PyIsoDate d) ->
  let age := today env - d in
  let threshold := if decide (col ∈ expected_fred fred_series) then 45 else 7 in
  about FromStaleness col (warnings r) =
    if threshold <? age then [StaleSeries col d age threshold] else [].
Proof.
  unfold validate_merged. intros (v & Hloop & ->)%validate_dataset_Ok [= <-] Hcol.
  assert (NoDup (dict_keys (v_latest v))) as Hnd.
  { eapply required_loop_latest_NoDup; [done|]. constructor. }
  assert (col ∈ required_columns fred_series tickers) as Hreq.
  { apply dict_get_Some_key in Hcol.
    destruct (required_loop_latest_keys _ _ _ _ _ Hloop Hcol) as [Hnil|[Hreq _]]; [|done].
    by apply elem_of_nil in Hnil. }
  assert (startswith col "fred_" = bool_decide (col ∈ expected_fred fred_series)) as Hpre.
  { destruct (decide (col ∈ expected_fred fred_series)) as [Hf|Hf].
    - rewrite bool_decide_eq_true_2 by done. by apply (expected_fred_prefix fred_series).
    - rewrite bool_decide_eq_false_2 by done.
      apply elem_of_app in Hreq as [Hf'|Hm]; [done|].
      by apply (required_market_suffix tickers). }
  cbv zeta. rewrite about_from, summary_warnings_from_staleness.
  destruct (stale_about_lookup (today env) _ _ _ Hnd Hcol) as [-> _].
  unfold stale_warnings, stale_finding, stale_threshold. cbn [fst snd]. rewrite Hpre.
  destruct (decide (col ∈ expected_fred fred_series)).
  - rewrite bool_decide_eq_true_2 by done. by destruct (45 <? today env - d).
  - rewrite bool_decide_eq_false_2 by done. by destruct (7 <? today env - d).
Qed.

(** X18: with the macro series of the configuration and any tickers,
    every column [main] expects is under a sign rule: if the merged table
    holds the column with a negative value in some row, the report warns
    of it with the number of such rows; and no expected column is both
    required and optional. *)
Theorem pipeline_sign_rules_cover env (merged : DataFrame F) (tickers : list string)
    r col series :
  validate_merged env merged FRED_SERIES tickers = Ok r ->
  col ∈ all_expected_columns FRED_SERIES tickers ->
  dict_get (columns merged) col = Some series ->
  (0 < negative_rows series ->
   ImpossibleValues col (negative_rows series) ∈ warnings r) /\
  ~ (col ∈ required_columns FRED_SERIES tickers /\ col ∈ optional_market tickers).
Proof.
  unfold validate_merged. intros (v & _ & ->)%validate_dataset_Ok Hcol Hs. split.
  - intros Hneg. apply summary_impossible_values. split.
    + by apply (expected_columns_monitored tickers).
    + by exists series.
  - intros [Hr Ho]. by apply (required_not_optional FRED_SERIES tickers col).
Qed.

Lemma metrics_lookup_summary env (data : DataFrame F) req opt mkt fred v col :
  metrics_lookup (metrics (summary_report env data req opt mkt fred v)) "missing_pct" col =
    Ok (default PyNone (dict_get (v_missing_pct v) col)) /\
  metrics_lookup (metrics (summary_report env data req opt mkt fred v)) "latest_date" col =
    Ok (default PyNone (dict_get (v_latest v) col)).
Proof. done. Qed.

Lemma per_series_fold (g : string -> PyVal F) (body : string -> result (PyVal F))
    (l : list string) (d : dict (PyVal F)) :
  (forall col, body col = Ok (g col)) ->
  for_each (fun d col => e ← body col; Ok (dict_set d col e)) l d =
    Ok (fold_left (fun d col => dict_set d col (g col)) l d).
Proof.
  intros Hbody. revert d. induction l as [|col l IH]; intros d; [done|].
  simpl. rewrite Hbody. cbn [mbind result_bind]. apply IH.
Qed.

Lemma fold_dict_set_keys {V} (g : string -> V) (l : list string) (d : dict V) col :
  col ∈ dict_keys (fold_left (fun d col => dict_set d col (g col)) l d) <->
  col ∈ dict_keys d \/ col ∈ l.
Proof.
  revert d. induction l as [|c l IH]; intros d; simpl.
  - split; [by left|]. by intros [?|?%elem_of_nil].
  - rewrite IH, dict_keys_set, elem_of_cons.
    destruct (decide (c ∈ dict_keys d)) as [Hc|Hc].
    + split; [intros [?|?]; auto|]. intros [?|[-> | ?]]; auto.
    + rewrite elem_of_app, list_elem_of_singleton.
      split; [intros [[?|?]|?]; auto|]. intros [?|[?|?]]; auto.
Qed.

Lemma fold_dict_set_other {V} (g : string -> V) (l : list string) (d : dict V) col :
  col ∉ l ->
  dict_get (fold_left (fun d col => dict_set d col (g col)) l d) col = dict_get d col.
Proof.
  revert d. induction l as [|c l IH]; intros d; [done|]. simpl.
  intros [Hne Hl]%not_elem_of_cons. rewrite IH by done.
  apply dict_get_set_ne. congruence.
Qed.

Lemma fold_dict_set_get {V} (g : string -> V) (l : list string) (d : dict V) col :
  col ∈ l ->
  dict_get (fold_left (fun d col => dict_set d col (g col)) l d) col = Some (g col).
Proof.
  revert d. induction l as [|c l IH]; intros d; [by intros ?%elem_of_nil|]. simpl.
  intros Hcol. destruct (decide (col ∈ l)) as [Hl|Hl]; [by apply IH|].
  apply elem_of_cons in Hcol as [-> | Hcol]; [|done].
  rewrite fold_dict_set_other by done. apply dict_get_set_eq.
Qed.

(** X19: the per-series summary [main] puts in the catalog entry. On a
    report of the call of [main] it is built without raising and has one
    entry for each expected column. The entry holds the number of
    non-null rows of the column (0 when the table lacks it) and the
    [missing_pct] and [latest_date] of the report, [None] when the report
    has none for the column: that is so for every optional column, also
    one that is in the table with data, and for every column the table
    lacks; a required column of the table has both. *)
Theorem per_series_summary env (merged : DataFrame F) (fred_series tickers : list string) r :
  validate_merged env merged fred_series tickers = Ok r ->
  exists d pcts latests,
    per_series merged r (all_expected_columns fred_series tickers) = Ok d /\
    dict_get (metrics r) "missing_pct" = Some (PyDict pcts) /\
    dict_get (metrics r) "latest_date" = Some (PyDict latests) /\
    (forall col, col ∈ dict_keys d <-> col ∈ all_expected_columns fred_series tickers) /\
    (forall col, col ∈ all_expected_columns fred_series tickers ->
       dict_get d col =
         Some (PyDict
                 [ ("row_count", PyInt (match dict_get (columns merged) col with
                                        | Some series => notna_sum series
                                        | None => 0
                                        end));
                   ("missing_pct", default PyNone (dict_get pcts col));
                   ("latest_date", default PyNone (dict_get latests col)) ])) /\
    (forall col, col ∈ optional_market tickers \/ dict_get (columns merged) col = None ->
       dict_get pcts col = None /\ dict_get latests col = None) /\
    (forall col, col ∈ required_columns fred_series tickers ->
       is_Some (dict_get (columns merged) col) ->
       is_Some (dict_get pcts col) /\ is_Some (dict_get latests col)).
Proof.
  unfold validate_merged. intros (v & Hloop & ->)%validate_dataset_Ok.
  set (req := required_columns fred_series tickers) in *.
  set (g := fun col : string =>
              @PyDict F
                [ ("row_count", PyInt (match dict_get (columns merged) col with
                                       | Some series => notna_sum series
                                       | None => 0
                                       end));
                  ("missing_pct", default PyNone (dict_get (v_missing_pct v) col));
                  ("latest_date", default PyNone (dict_get (v_latest v) col)) ]).
  exists (fold_left (fun d col => dict_set d col (g col))
            (all_expected_columns fred_series tickers) []),
    (v_missing_pct v), (v_latest v).
  destruct (required_loop_keys _ _ _ _ Hloop) as [Hpk _]; [done..|].
  assert (forall col, col ∈ dict_keys (v_latest v) ->
            col ∈ req /\ is_Some (dict_get (columns merged) col)) as Hkeys.
  { intros col Hcol.
    destruct (required_loop_latest_keys _ _ _ _ _ Hloop Hcol) as [Hnil|]; [|done].
    by apply elem_of_nil in Hnil. }
  split; [|split; [reflexivity|split; [reflexivity|split; [|split; [|split]]]]].
  - unfold per_series. apply per_series_fold. intros col. unfold per_series_entry.
    destruct (metrics_lookup_summary env merged req (optional_market tickers)
                (required_market tickers) (expected_fred fred_series) v col) as [-> ->].
    reflexivity.
  - intros col. rewrite fold_dict_set_keys.
    split; [intros [Hnil|Hin]; [by apply elem_of_nil in Hnil|done]|by right].
  - intros col Hcol. by rewrite (fold_dict_set_get g).
  - intros col Hcol.
    assert (col ∉ dict_keys (v_latest v)) as Hno.
    { intros [Hreq Hs]%Hkeys. destruct Hcol as [Ho|Hnone].
      - by apply (required_not_optional fred_series tickers col).
      - rewrite Hnone in Hs. by destruct Hs. }
    split; apply dict_get_None; [by rewrite Hpk|done].
  - intros col Hcol [series Hs].
    destruct (required_loop_records _ _ _ _ _ _ Hloop Hcol Hs) as (m & _ & Hp & _ & Hl).
    by rewrite Hp, Hl.
Qed.

End Pipeline.

(** ** The further properties on concrete inputs *)

(** The clean table of the tests is a success, as the first test has it. *)
Lemma success_iff_clean_witness :
  exists r,
    validate_dataset env_a test_df test_expected [] test_market test_fred = Ok r /\
    is_success r = true /\
    (is_success r = true <->
       index_name test_df = Some "date" /\
       (exists ds, (index test_df = DatetimeIndex ds \/
                    exists tz, index test_df = TimestampIndex tz ds) /\
                   StronglySorted Z.lt ds) /\
       forall col, col ∈ test_expected ->
         exists series, dict_get (columns test_df) col = Some series /\
                        has_value series /\ all_numeric series).
Proof.
  destruct (validate_dataset env_a test_df test_expected [] test_market test_fred)
    as [r|e] eqn:Hr; [|vm_compute in Hr; discriminate].
  exists r. split; [reflexivity|]. split.
  - vm_compute in Hr. injection Hr as <-. reflexivity.
  - exact (success_iff_clean env_a test_df test_expected [] test_market test_fred r
             remove_dups_valid Hr).
Defined.

(** The table without the volume of SPY, as the last test has it: one
    warning, no error, and the same errors without any optional column. *)
Lemma optional_columns_only_warn_witness :
  exists r,
    validate_dataset env_a no_volume_df no_volume_required ["yfin_SPY__volume"]
      test_market test_fred = Ok r /\
    from FromOptionalPresence (warnings r) = [OptionalUnavailable "yfin_SPY__volume"] /\
    from FromOptionalPresence (errors r) = [] /\
    exists r', validate_dataset env_a no_volume_df no_volume_required []
                 test_market test_fred = Ok r' /\
               errors r' = errors r /\ is_success r' = is_success r.
Proof.
  destruct (validate_dataset env_a no_volume_df no_volume_required ["yfin_SPY__volume"]
              test_market test_fred) as [r|e] eqn:Hr; [|vm_compute in Hr; discriminate].
  exists r. split; [reflexivity|].
  destruct (optional_columns_only_warn env_a no_volume_df no_volume_required
              ["yfin_SPY__volume"] [] test_market test_fred r remove_dups_valid Hr)
    as (_ & Herr & Hother).
  split; [|split; [exact Herr|exact Hother]].
  vm_compute in Hr. injection Hr as <-. reflexivity.
Defined.

(** The base table with one required column: it has rows and no
    repeated date is reported. *)
Lemma report_needs_unique_dates_witness :
  exists r,
    validate_dataset env_a base_df ["fred_DGS10"] [] [] [] = Ok r /\
    index_len (index base_df) ≠ 0%nat /\
    DuplicateDates ∉ errors r.
Proof.
  destruct (validate_dataset env_a base_df ["fred_DGS10"] [] [] [])
    as [r|e] eqn:Hr; [|vm_compute in Hr; discriminate].
  exists r. split; [reflexivity|].
  destruct (report_needs_unique_dates env_a base_df ["fred_DGS10"] [] [] [] r
              "fred_DGS10" (numeric [dec 40 1; dec 41 1; dec 42 1; dec 43 1; dec 44 1])
              Hr (list_elem_of_here _ _) eq_refl) as (Hrows & Hdup & _).
  split; [exact Hrows|exact Hdup].
Defined.

(** A column of text with a cell that is no number, and a column of
    nulls. *)
Lemma required_column_findings_witness :
  exists r,
    validate_dataset env_a ragged_df ["fred_DGS10"; "fred_DGS2"; "fred_UNRATE"] [] [] []
      = Ok r /\
    errors r = [MixedNonNumeric "fred_DGS10"; EmptyData "fred_DGS2"] /\
    (MixedNonNumeric "fred_DGS10" ∈ errors r <->
       "fred_DGS10" ∈ ["fred_DGS10"; "fred_DGS2"; "fred_UNRATE"] /\
       exists series, dict_get (columns ragged_df) "fred_DGS10" = Some series /\
                      ~ all_numeric series).
Proof.
  destruct (validate_dataset env_a ragged_df ["fred_DGS10"; "fred_DGS2"; "fred_UNRATE"]
              [] [] []) as [r|e] eqn:Hr; [|vm_compute in Hr; discriminate].
  exists r. split; [reflexivity|]. split.
  - vm_compute in Hr. injection Hr as <-. reflexivity.
  - exact (proj1 (proj2 (required_column_findings env_a ragged_df
                           ["fred_DGS10"; "fred_DGS2"; "fred_UNRATE"] [] [] [] r
                           "fred_DGS10" Hr))).
Defined.

(** A column whose last value is of Tuesday 2024-01-02. *)
Lemma latest_date_metric_witness :
  exists r,
    validate_dataset env_a ragged_df ["fred_UNRATE"] [] [] [] = Ok r /\
    exists latest value,
      dict_get (metrics r) "latest_date" = Some (PyDict latest) /\
      dict_get latest "fred_UNRATE" = Some value /\
      ((value = PyNone /\
        forall d c, row_of week (map CNum [dec 38 1; dec 38 1; NaN; NaN; NaN]) d c ->
                    cell_isna c = true) \/
       (exists d, value = PyIsoDate d /\
          (exists c, row_of week (map CNum [dec 38 1; dec 38 1; NaN; NaN; NaN]) d c /\
                     cell_isna c = false) /\
          forall d' c', row_of week (map CNum [dec 38 1; dec 38 1; NaN; NaN; NaN]) d' c' ->
                        cell_isna c' = false -> d' <= d)).
Proof.
  destruct (validate_dataset env_a ragged_df ["fred_UNRATE"] [] [] [])
    as [r|e] eqn:Hr; [|vm_compute in Hr; discriminate].
  exists r. split; [reflexivity|].
  exact (latest_date_metric env_a ragged_df ["fred_UNRATE"] [] [] [] r week "fred_UNRATE"
           (numeric [dec 38 1; dec 38 1; NaN; NaN; NaN]) Hr eq_refl
           (list_elem_of_here _ _) eq_refl).
Defined.

(** Three required columns, one of them not in the table. *)
Lemma per_column_metrics_aligned_witness :
  exists r,
    validate_dataset env_a base_df ["fred_DGS10"; "zzz"; "fred_UNRATE"] [] [] [] = Ok r /\
    exists pct gap latest,
      dict_get (metrics r) "missing_pct" = Some (PyDict pct) /\
      dict_get (metrics r) "largest_missing_business_gap" = Some (PyDict gap) /\
      dict_get (metrics r) "latest_date" = Some (PyDict latest) /\
      dict_keys pct = dict_keys latest /\ dict_keys gap = dict_keys latest /\
      dict_keys latest = ["fred_DGS10"; "fred_UNRATE"].
Proof.
  destruct (validate_dataset env_a base_df ["fred_DGS10"; "zzz"; "fred_UNRATE"] [] [] [])
    as [r|e] eqn:Hr; [|vm_compute in Hr; discriminate].
  exists r. split; [reflexivity|].
  destruct (per_column_metrics_aligned env_a base_df ["fred_DGS10"; "zzz"; "fred_UNRATE"]
              [] [] [] r Hr) as (pct & gap & latest & Hp & Hg & Hl & Hkp & Hkg & _).
  exists pct, gap, latest. split; [exact Hp|]. split; [exact Hg|]. split; [exact Hl|].
  split; [exact Hkp|]. split; [exact Hkg|].
  vm_compute in Hr. injection Hr as <-. vm_compute in Hl. injection Hl as <-. reflexivity.
Defined.

(** A jump in a long flat series: one flag per row, none on the first. *)
Lemma zscore_flags_shape_witness :
  length (_zscore_flags [Fin 1; Fin 1; Fin 900; Fin 1] "pct_change") = 4%nat /\
  _zscore_flags [Fin 1; Fin 1; Fin 900; Fin 1] "pct_change" !! 0%nat ≠ Some true /\
  0 <= count_true (_zscore_flags [Fin 1; Fin 1; Fin 900; Fin 1] "pct_change") <= 3.
Proof.
  exact (zscore_flags_shape (F := QF) [Fin 1; Fin 1; Fin 900; Fin 1] "pct_change").
Defined.

(** Two negative prices under the adjusted-close rule. *)
Lemma impossible_values_iff_witness :
  exists r,
    validate_dataset env_a negative_df ["fred_DGS10"; "yfin_SPY__adj_close"] [] [] [] = Ok r /\
    (ImpossibleValues "yfin_SPY__adj_close" 2 ∈ warnings r <->
       monitored "yfin_SPY__adj_close" /\
       exists series, dict_get (columns negative_df) "yfin_SPY__adj_close" = Some series /\
                      2 = negative_rows series /\ 0 < 2).
Proof.
  destruct (validate_dataset env_a negative_df ["fred_DGS10"; "yfin_SPY__adj_close"] [] [] [])
    as [r|e] eqn:Hr; [|vm_compute in Hr; discriminate].
  exists r. split; [reflexivity|].
  exact (impossible_values_iff env_a negative_df ["fred_DGS10"; "yfin_SPY__adj_close"]
           [] [] [] r "yfin_SPY__adj_close" 2 Hr).
Defined.

(** Thirteen days after the last observation: the column without the
    prefix is stale, and is the one listed. *)
Lemma stale_series_matches_warnings_witness :
  exists r,
    validate_dataset env_late macro_df ["gdp"; "fred_X"] [] [] ["gdp"] = Ok r /\
    exists latest stale,
      dict_get (metrics r) "latest_date" = Some (PyDict latest) /\
      dict_get (metrics r) "stale_series" = Some (PyList stale) /\
      stale = omap stale_name (warnings r) /\
      stale = [PyStr "gdp"].
Proof.
  destruct (validate_dataset env_late macro_df ["gdp"; "fred_X"] [] [] ["gdp"])
    as [r|e] eqn:Hr; [|vm_compute in Hr; discriminate].
  exists r. split; [reflexivity|].
  destruct (stale_series_matches_warnings env_late macro_df ["gdp"; "fred_X"] [] [] ["gdp"]
              r Hr) as (latest & stale & Hl & Hs & Hnames & _).
  exists latest, stale. split; [exact Hl|]. split; [exact Hs|]. split; [exact Hnames|].
  vm_compute in Hr. injection Hr as <-. vm_compute in Hs. injection Hs as <-. reflexivity.
Defined.

(** A report with an error of two stages and warnings of two stages. *)
Lemma findings_in_stage_order_witness :
  exists r,
    validate_dataset env_late ragged_df ["fred_DGS10"; "fred_UNRATE"; "zzz"] ["vol"] [] []
      = Ok r /\
    errors r = [MissingColumns ["zzz"]; MixedNonNumeric "fred_DGS10"] /\
    errors r = from FromIndex (errors r) ++ from FromRequiredPresence (errors r)
               ++ from FromRequiredColumn (errors r).
Proof.
  destruct (validate_dataset env_late ragged_df ["fred_DGS10"; "fred_UNRATE"; "zzz"]
              ["vol"] [] []) as [r|e] eqn:Hr; [|vm_compute in Hr; discriminate].
  exists r. split; [reflexivity|]. split.
  - vm_compute in Hr. injection Hr as <-. reflexivity.
  - exact (proj1 (findings_in_stage_order env_late ragged_df
                    ["fred_DGS10"; "fred_UNRATE"; "zzz"] ["vol"] [] [] r Hr)).
Defined.

(** A column declared both as market and as macro series: its count is
    that of the differences. *)
Lemma outlier_counts_recorded_witness :
  exists r,
    validate_dataset env_a base_df base_required []
      ["yfin_SPY__adj_close"; "fred_DGS10"] ["fred_DGS10"] = Ok r /\
    exists counts,
      dict_get (metrics r) "outlier_counts" = Some (PyDict counts) /\
      dict_get counts "fred_DGS10" =
        Some (PyInt (outlier_count "abs_change"
                       (numeric [dec 40 1; dec 41 1; dec 42 1; dec 43 1; dec 44 1]))).
Proof.
  destruct (validate_dataset env_a base_df base_required []
              ["yfin_SPY__adj_close"; "fred_DGS10"] ["fred_DGS10"])
    as [r|e] eqn:Hr; [|vm_compute in Hr; discriminate].
  exists r. split; [reflexivity|].
  destruct (outlier_counts_recorded env_a base_df base_required []
              ["yfin_SPY__adj_close"; "fred_DGS10"] ["fred_DGS10"] r Hr)
    as (counts & Hc & _ & Hfred & _).
  exists counts. split; [exact Hc|].
  exact (Hfred "fred_DGS10" _ eq_refl (list_elem_of_here _ _)).
Defined.

(** A null on the second day: neither that row nor the next is flagged. *)
Lemma zscore_flags_skip_nulls_witness :
  _zscore_flags [Fin 1; NaN; Fin 900; Fin 1] "abs_change" !! 1%nat = Some false /\
  _zscore_flags [Fin 1; NaN; Fin 900; Fin 1] "abs_change" !! 2%nat ≠ Some true.
Proof.
  exact (zscore_flags_skip_nulls (F := QF) [Fin 1; NaN; Fin 900; Fin 1] "abs_change" 1 NaN
           eq_refl eq_refl eq_refl).
Defined.

(** A table over the turn of the year: one file of one row, one of two. *)
Lemma write_partitioned_by_year_partition_witness :
  exists years results w',
    write_partitioned_by_year two_year_df ["data"] "fred" "run-1" empty_world
      = (Ok results, w') /\
    results = map (fun y => mkWriteResult (path_str (year_path ["data"] "fred" "run-1" y))
                              (rows_in_year [19720; 19723; 19724] y)) years /\
    StronglySorted Z.lt years /\
    total_rows results = 3 /\
    results = [ mkWriteResult "data/raw/source=fred/year=2023/run_id=run-1.parquet" 1;
                mkWriteResult "data/raw/source=fred/year=2024/run_id=run-1.parquet" 2 ].
Proof.
  destruct (write_partitioned_by_year_partition two_year_df ["data"] "fred" "run-1"
              empty_world [19720; 19723; 19724] eq_refl eq_refl eq_refl eq_refl)
    as (years & results & w' & Hrun & Hres & Hsorted & _ & _ & _ & Htotal & _).
  exists years, results, w'. split; [exact Hrun|]. split; [exact Hres|].
  split; [exact Hsorted|]. split; [exact Htotal|].
  vm_compute in Hrun. injection Hrun as <- _. reflexivity.
Defined.

(** Two runs on the same directory. *)
Lemma write_standardized_runs_coexist_witness :
  exists res1 w1 res2 w2,
    write_standardized base_df ["data"] "run-1" empty_world = (Ok res1, w1) /\
    write_standardized empty_df ["data"] "run-2" w1 = (Ok res2, w2) /\
    path res1 ≠ path res2 /\
    rows res1 = 5 /\ rows res2 = 0 /\
    w_files w2 !! standardized_path ["data"] "run-1" = Some (ParquetFile base_df) /\
    w_files w2 !! standardized_path ["data"] "run-2" = Some (ParquetFile empty_df).
Proof.
  destruct (write_standardized_runs_coexist base_df empty_df ["data"] "run-1" "run-2"
              empty_world eq_refl eq_refl)
    as (res1 & w1 & res2 & w2 & H1 & H2 & Hp & Hr1 & Hr2 & Hf1 & Hf2 & _);
    [discriminate|].
  exists res1, w1, res2, w2. split; [exact H1|]. split; [exact H2|].
  split; [exact Hp|]. split; [exact Hr1|]. split; [exact Hr2|].
  split; [exact Hf1|exact Hf2].
Defined.

(** A catalog path that holds a table. *)
Lemma append_catalog_entry_unreadable_witness :
  exists e w',
    append_catalog_entry catalog_path (entry_of "run-1") clobbered_world = (Raise e, w') /\
    w_files w' = w_files clobbered_world /\ w_env w' = w_env clobbered_world /\
    catalog_entries catalog_path w' = None.
Proof.
  apply (append_catalog_entry_unreadable catalog_path (entry_of "run-1") clobbered_world
           base_df).
  unfold clobbered_world. cbn [w_files]. apply lookup_singleton_eq.
Defined.

(** Thirteen days after the last observation, in the call of [main]:
    the macro column is within its 45 days, the price is stale. *)
Lemma pipeline_staleness_by_declared_set_witness :
  exists r latest,
    validate_merged env_late base_df ["DGS10"] ["SPY"] = Ok r /\
    dict_get (metrics r) "latest_date" = Some (PyDict latest) /\
    about FromStaleness "fred_DGS10" (warnings r) = [] /\
    about FromStaleness "yfin_SPY__adj_close" (warnings r) =
      [StaleSeries "yfin_SPY__adj_close" 19727 13 7].
Proof.
  destruct (validate_merged env_late base_df ["DGS10"] ["SPY"])
    as [r|e] eqn:Hr; [|vm_compute in Hr; discriminate].
  assert (exists latest, dict_get (metrics r) "latest_date" = Some (PyDict latest) /\
            dict_get latest "fred_DGS10" = Some (PyIsoDate 19727) /\
            dict_get latest "yfin_SPY__adj_close" = Some (PyIsoDate 19727))
    as (latest & Hl & Hf & Hy).
  { pose proof Hr as Hr'. vm_compute in Hr'. injection Hr' as <-.
    eexists. split; [reflexivity|]. split; reflexivity. }
  exists r, latest. split; [reflexivity|]. split; [exact Hl|]. split.
  - exact (pipeline_staleness_by_declared_set env_late base_df ["DGS10"] ["SPY"] r latest
             "fred_DGS10" 19727 Hr Hl Hf).
  - exact (pipeline_staleness_by_declared_set env_late base_df ["DGS10"] ["SPY"] r latest
             "yfin_SPY__adj_close" 19727 Hr Hl Hy).
Defined.

(** Two negative prices in the call of [main] with the configured series
    and tickers. *)
Lemma pipeline_sign_rules_cover_witness :
  exists r,
    validate_merged env_a negative_df FRED_SERIES YFINANCE_TICKERS = Ok r /\
    ImpossibleValues "yfin_SPY__adj_close" 2 ∈ warnings r.
Proof.
  destruct (validate_merged env_a negative_df FRED_SERIES YFINANCE_TICKERS)
    as [r|e] eqn:Hr; [|vm_compute in Hr; discriminate].
  exists r. split; [reflexivity|].
  apply (proj1 (pipeline_sign_rules_cover env_a negative_df YFINANCE_TICKERS r
                  "yfin_SPY__adj_close" (ints [-1; 401; -402; 403; 404]) Hr
                  ltac:(apply (bool_decide_unpack _); vm_compute; exact I)
                  eq_refl)).
  vm_compute. reflexivity.
Defined.

(** The summary of the table of the tests, whose columns are those the
    configuration expects: the volume has its row count and neither of
    the two metrics. *)
Lemma per_series_summary_witness :
  exists r d,
    validate_merged env_a test_df FRED_SERIES YFINANCE_TICKERS = Ok r /\
    per_series test_df r (all_expected_columns FRED_SERIES YFINANCE_TICKERS) = Ok d /\
    dict_keys d = test_expected /\
    dict_get d "yfin_SPY__volume" =
      Some (PyDict [ ("row_count", PyInt 5); ("missing_pct", PyNone);
                     ("latest_date", PyNone) ]).
Proof.
  destruct (validate_merged env_a test_df FRED_SERIES YFINANCE_TICKERS)
    as [r|e] eqn:Hr; [|vm_compute in Hr; discriminate].
  destruct (per_series_summary env_a test_df FRED_SERIES YFINANCE_TICKERS r Hr)
    as (d & pcts & latests & Hd & _ & _ & _ & Hentry & Hopt & _).
  exists r, d. split; [reflexivity|]. split; [exact Hd|]. split.
  - vm_compute in Hr. injection Hr as <-. vm_compute in Hd. injection Hd as <-. reflexivity.
  - rewrite (Hentry "yfin_SPY__volume")
      by (apply (bool_decide_unpack _); vm_compute; exact I).
    destruct (Hopt "yfin_SPY__volume") as [-> ->]; [left|reflexivity].
    apply (bool_decide_unpack _). vm_compute. exact I.
Defined.

(** A column with a value on each of the five business days of the
    index: its gap is 0. *)
Lemma gap_zero_iff_covered_witness :
  exists r,
    validate_dataset env_a base_df ["fred_DGS10"] [] [] [] = Ok r /\
    exists gaps,
      dict_get (metrics r) "largest_missing_business_gap" = Some (PyDict gaps) /\
      dict_get gaps "fred_DGS10" = Some (PyInt 0) /\
      exists lo hi g,
        dict_get gaps "fred_DGS10" = Some (PyInt g) /\
        (g = 0 <->
           forall d, lo <= d <= hi -> 0 <= weekday d < 5 ->
             exists c, row_of week (map CNum [dec 40 1; dec 41 1; dec 42 1; dec 43 1; dec 44 1])
                         d c /\ cell_isna c = false).
Proof.
  destruct (validate_dataset env_a base_df ["fred_DGS10"] [] [] [])
    as [r|e] eqn:Hr; [|vm_compute in Hr; discriminate].
  exists r. split; [reflexivity|].
  destruct (gap_zero_iff_covered env_a base_df ["fred_DGS10"] [] [] [] r week "fred_DGS10"
              (numeric [dec 40 1; dec 41 1; dec 42 1; dec 43 1; dec 44 1])
              Hr (or_introl eq_refl) (list_elem_of_here _ _) eq_refl)
    as (lo & hi & gaps & g & _ & _ & Hgaps & Hg & Hiff).
  exists gaps. split; [exact Hgaps|]. split.
  - vm_compute in Hr. injection Hr as <-. vm_compute in Hgaps. injection Hgaps as <-.
    reflexivity.
  - exists lo, hi, g. split; [exact Hg|exact Hiff].
Defined.
